(** * Evernote ENEX to Markdown export: a shallow embedding

    The development follows the Python sources under
    [src/tools/evernote_extractor]: [enex_parser.py],
    [attachment_extractor.py], [enhanced_note_exporter.py],
    [enex_to_individual_notes.py] and [final_image_embedder.py].

    Python [str] values are sequences of Unicode code points and are
    modelled as [list N]; [bytes] values are lists of [N] below 256.
    Dictionaries are stdpp finite maps.  The standard-library routines the
    sources call ([re], [html.unescape], [base64.b64decode],
    [hashlib.md5], [str] methods, [datetime.strptime]) are modelled by
    executable definitions in the first modules of the file.

    What the model leaves out: the progress messages the sources print;
    the clock (the texts [datetime.now()] produces are arguments); the
    normalisation [pathlib] applies to paths (a path is the directory,
    a slash and the name); the part of a file written before a failure
    (a refused file is not created); the directories [mkdir] creates
    above the one it is given; the listing and the copying of
    directories in [final_image_embedder.py]; the JSON export of the
    parser.  Of the named character references
    of [html.unescape] the table [Html.html5] lists the common ones;
    the general theorems below hold whatever that table contains. *)

From Stdlib Require Import NArith ZArith List Ascii String Lia Bool.
From stdpp Require Import base option list gmap strings.

Open Scope string_scope.
Open Scope list_scope.
Open Scope N_scope.

(* ===================================================================== *)
(** ** Python strings *)
(* ===================================================================== *)

Module Py.

(** A Python [str]: a list of code points. *)
Abbreviation str := (list N).

(** ASCII literal to [str]. *)
Definition lit (s : string) : str :=
  List.map N_of_ascii (list_ascii_of_string s).

Definition NL : N := 10.    (* line feed *)
Definition CR : N := 13.    (* carriage return *)
Definition TAB : N := 9.
Definition FF : N := 12.
Definition SP : N := 32.
Definition DQUOTE : N := 34.
Definition BSLASH : N := 92.

(** [str.isspace] on one code point; also the class [\s] of [re] on
    [str] patterns. *)
Definition isspace (c : N) : bool :=
  ((9 <=? c) && (c <=? 13)) || ((28 <=? c) && (c <=? 32))
  || (c =? 133) || (c =? 160) || (c =? 5760)
  || ((8192 <=? c) && (c <=? 8202))
  || (c =? 8232) || (c =? 8233) || (c =? 8239) || (c =? 8287)
  || (c =? 12288).

Fixpoint dropwhile (p : N -> bool) (s : str) : str :=
  match s with
  | [] => []
  | c :: s' => if p c then dropwhile p s' else s
  end.

Definition lstrip (s : str) : str := dropwhile isspace s.
Definition rstrip (s : str) : str := rev (dropwhile isspace (rev s)).
(** [s.strip()] *)
Definition strip (s : str) : str := rstrip (lstrip s).

(** [s.replace(c, '')] for a one-character [c]. *)
Definition remove_char (c : N) (s : str) : str :=
  List.filter (fun x => negb (x =? c)) s.

Fixpoint str_eqb (a b : str) : bool :=
  match a, b with
  | [], [] => true
  | x :: a', y :: b' => (x =? y) && str_eqb a' b'
  | _, _ => false
  end.

(** [s.startswith(p)] *)
Fixpoint startswith (p s : str) : bool :=
  match p, s with
  | [], _ => true
  | x :: p', y :: s' => (x =? y) && startswith p' s'
  | _ :: _, [] => false
  end.

(** [s.rsplit(c, 1)]: the text before and after the last [c], or
    [None] when [c] does not occur (Python then returns [[s]]). *)
Fixpoint rsplit1 (c : N) (s : str) : option (str * str) :=
  match s with
  | [] => None
  | x :: s' =>
      match rsplit1 c s' with
      | Some (a, b) => Some (x :: a, b)
      | None => if x =? c then Some ([], s') else None
      end
  end.

(** [sep.join(l)] *)
Fixpoint join (sep : str) (l : list str) : str :=
  match l with
  | [] => []
  | [x] => x
  | x :: l' => x ++ sep ++ join sep l'
  end.

(** Decimal digits of a number, most significant first. [fuel] bounds
    the number of digits; [N.size_nat n] is enough since every division
    by ten at least halves. *)
Fixpoint digits_aux (fuel : nat) (n : N) (acc : str) : str :=
  match fuel with
  | O => acc
  | S f =>
      let acc' := (48 + n mod 10) :: acc in
      if n / 10 =? 0 then acc' else digits_aux f (n / 10) acc'
  end.

(** [str(n)] / [f"{n}"] for a non-negative integer. *)
Definition str_of_N (n : N) : str := digits_aux (S (N.size_nat n)) n [].

(** [f"{n:0wd}"]: zero padding on the left up to width [w]. *)
Definition fmt_0d (w : nat) (n : N) : str :=
  let d := str_of_N n in
  repeat 48 (w - length d)%nat ++ d.

(** [f"{n:04d}"] *)
Definition fmt_04d (n : N) : str := fmt_0d 4 n.

(** Insert a comma before every group of three digits, counted from the
    right. *)
Fixpoint commas (s : str) : str :=
  match s with
  | [] => []
  | c :: s' =>
      if ((length s' mod 3 =? 0)%nat && negb (length s' =? 0)%nat)
      then c :: 44 :: commas s'
      else c :: commas s'
  end.

(** [f"{n:,}"] *)
Definition fmt_comma (n : N) : str := commas (str_of_N n).

End Py.

Import Py.

(* ===================================================================== *)
(** ** Regular expressions ([re]) *)
(* ===================================================================== *)

Module Re.

(** The fragment of [re] syntax the sources use: literals, character
    classes, quantified character classes (greedy or lazy), sequence,
    alternation and capturing groups.  Every quantifier in the sources
    applies to a single character class. *)
Inductive re : Type :=
| Lit (l : str)
| Cls (p : N -> bool)
| Rep (p : N -> bool) (lo : nat) (hi : option nat) (greedy : bool)
| Seq (r1 r2 : re)
| Alt (r1 r2 : re)
| Grp (i : nat) (r : re).

(** Captured groups, most recent first. *)
Definition caps := list (nat * str).

Fixpoint group (i : nat) (g : caps) : str :=
  match g with
  | [] => []
  | (j, s) :: g' => if (i =? j)%nat then s else group i g'
  end.

(** Length of the longest prefix of [s] whose characters satisfy [p],
    capped at [hi] when given. *)
Fixpoint span (p : N -> bool) (hi : option nat) (s : str) : nat :=
  match hi with
  | Some O => O
  | _ =>
      match s with
      | [] => O
      | c :: s' =>
          if p c then S (span p (match hi with Some (S h) => Some h | _ => None end) s')
          else O
      end
  end.

(** Try [f j], [f (j-1)], ... down to [f lo]: greedy backtracking. *)
Fixpoint try_down {A} (j lo : nat) (f : nat -> option A) : option A :=
  if (j <? lo)%nat then None else
  match f j with
  | Some x => Some x
  | None => match j with O => None | S j' => try_down j' lo f end
  end.

(** Try [f j], [f (j+1)], ... for [cnt + 1] values: lazy backtracking. *)
Fixpoint try_up {A} (cnt j : nat) (f : nat -> option A) : option A :=
  match f j with
  | Some x => Some x
  | None => match cnt with O => None | S c => try_up c (S j) f end
  end.

(** Backtracking matcher in continuation-passing style: [m r s g k]
    matches [r] at the start of [s] and hands the rest of the text and
    the captures to [k]; when [k] fails the next alternative is tried,
    in the order of Python's engine. *)
Fixpoint m {A} (r : re) (s : str) (g : caps)
         (k : str -> caps -> option A) : option A :=
  match r with
  | Lit l => if startswith l s then k (drop (length l) s) g else None
  | Cls p =>
      match s with
      | c :: s' => if p c then k s' g else None
      | [] => None
      end
  | Rep p lo hi greedy =>
      let n := span p hi s in
      if (n <? lo)%nat then None
      else if greedy then try_down n lo (fun j => k (drop j s) g)
      else try_up (n - lo) lo (fun j => k (drop j s) g)
  | Seq r1 r2 => m r1 s g (fun s' g' => m r2 s' g' k)
  | Alt r1 r2 =>
      match m r1 s g k with
      | Some x => Some x
      | None => m r2 s g k
      end
  | Grp i r =>
      m r s g (fun s' g' =>
                 k s' ((i, take (length s - length s') s) :: g'))
  end.

(** [pattern.match(s)]: length of the match at the start of [s] and its
    groups. *)
Definition match_at (r : re) (s : str) : option (nat * caps) :=
  m r s [] (fun s' g => Some ((length s - length s')%nat, g)).

(** [re.search(r, s)]: the text of the leftmost match and its groups. *)
Fixpoint search (r : re) (s : str) : option (str * caps) :=
  match match_at r s with
  | Some (n, g) => Some (take n s, g)
  | None =>
      match s with
      | [] => None
      | _ :: s' => search r s'
      end
  end.

(** [re.sub(r, repl, s)] with a replacement function of the matched text
    and the groups.  [skip] counts the characters of the current match
    that are still to be passed over. *)
Fixpoint sub_go (r : re) (repl : str -> caps -> str) (skip : nat)
         (s : str) : str :=
  match s with
  | [] =>
      match skip with
      | O => match match_at r [] with
             | Some (_, g) => repl [] g
             | None => []
             end
      | S _ => []
      end
  | c :: s' =>
      match skip with
      | S j => sub_go r repl j s'
      | O =>
          match match_at r s with
          | Some (n, g) =>
              repl (take n s) g ++
              match n with
              | O => c :: sub_go r repl O s'
              | S j => sub_go r repl j s'
              end
          | None => c :: sub_go r repl O s'
          end
      end
  end.

Definition sub_fn (r : re) (repl : str -> caps -> str) (s : str) : str :=
  sub_go r repl O s.

(** [re.sub(r, t, s)] with a constant replacement text. *)
Definition sub (r : re) (t : str) (s : str) : str :=
  sub_fn r (fun _ _ => t) s.

(** Building blocks for patterns. *)
Definition chr (c : N) : N -> bool := fun x => x =? c.
Definition notchr (c : N) : N -> bool := fun x => negb (x =? c).
Definition any : N -> bool := fun _ => true.
Definition oneof (l : str) : N -> bool := fun x => existsb (N.eqb x) l.
Definition range (a b : N) : N -> bool := fun x => (a <=? x) && (x <=? b).
Definition star (p : N -> bool) : re := Rep p 0 None true.
Definition plus (p : N -> bool) : re := Rep p 1 None true.
Definition opt (c : N) : re := Rep (chr c) 0 (Some 1%nat) true.
Definition lazy_star (p : N -> bool) : re := Rep p 0 None false.

Fixpoint cat (l : list re) : re :=
  match l with
  | [] => Lit []
  | [r] => r
  | r :: l' => Seq r (cat l')
  end.

End Re.

Import Re.

(* ===================================================================== *)
(** ** [html.unescape] *)
(* ===================================================================== *)

Module Html.

(** Named character references.  Python's [html.entities.html5] has 2231
    entries; the table below lists the common ones with the values of
    the standard table.  A name outside of it is left as written by
    [replace_charref], as Python does for unknown names. *)
Definition html5 : gmap str str :=
  list_to_map
    [ (lit "amp", [38]); (lit "amp;", [38]); (lit "lt", [60]);
      (lit "lt;", [60]); (lit "gt", [62]); (lit "gt;", [62]);
      (lit "quot", [34]); (lit "quot;", [34]); (lit "apos;", [39]);
      (lit "nbsp", [160]); (lit "nbsp;", [160]); (lit "copy", [169]);
      (lit "copy;", [169]); (lit "reg", [174]); (lit "reg;", [174]);
      (lit "not", [172]); (lit "not;", [172]); (lit "NewLine;", [10]);
      (lit "Tab;", [9]); (lit "hellip;", [8230]); (lit "mdash;", [8212]);
      (lit "ndash;", [8211]); (lit "lsquo;", [8216]);
      (lit "rsquo;", [8217]); (lit "ldquo;", [8220]);
      (lit "rdquo;", [8221]); (lit "bull;", [8226]);
      (lit "middot", [183]); (lit "middot;", [183]);
      (lit "euro;", [8364]); (lit "trade;", [8482]); (lit "deg", [176]);
      (lit "deg;", [176]); (lit "times", [215]); (lit "times;", [215]);
      (lit "eacute", [233]); (lit "eacute;", [233]); (lit "laquo", [171]);
      (lit "laquo;", [171]); (lit "raquo", [187]); (lit "raquo;", [187]) ].

(** [_invalid_charrefs]: replacements for the numeric references 0, 13
    and 128..159. *)
Definition invalid_charrefs : list (N * N) :=
  [ (0, 65533); (13, 13); (128, 8364); (129, 129); (130, 8218);
    (131, 402); (132, 8222); (133, 8230); (134, 8224); (135, 8225);
    (136, 710); (137, 8240); (138, 352); (139, 8249); (140, 338);
    (141, 141); (142, 381); (143, 143); (144, 144); (145, 8216);
    (146, 8217); (147, 8220); (148, 8221); (149, 8226); (150, 8211);
    (151, 8212); (152, 732); (153, 8482); (154, 353); (155, 8250);
    (156, 339); (157, 157); (158, 382); (159, 376) ].

(** [_invalid_codepoints] *)
Definition invalid_codepoint (n : N) : bool :=
  ((1 <=? n) && (n <=? 8)) || ((14 <=? n) && (n <=? 31))
  || ((127 <=? n) && (n <=? 159)) || ((64976 <=? n) && (n <=? 65007))
  || (n =? 11)
  || ((65534 <=? n mod 65536) && (n <=? 1114111)).

Fixpoint assoc (n : N) (l : list (N * N)) : option N :=
  match l with
  | [] => None
  | (k, v) :: l' => if n =? k then Some v else assoc n l'
  end.

Definition hexval (c : N) : N :=
  if (48 <=? c) && (c <=? 57) then c - 48
  else if (97 <=? c) && (c <=? 102) then c - 87
  else c - 55.

(** [int(s, base)] on a string of digits of that base. *)
Definition int_of (base : N) (s : str) : N :=
  fold_left (fun acc c => acc * base + hexval c) s 0.

(** [s.rstrip(';')] *)
Definition rstrip_semi (s : str) : str :=
  rev (dropwhile (fun c => c =? 59) (rev s)).

Definition numeric_ref (num : N) : str :=
  match assoc num invalid_charrefs with
  | Some c => [c]
  | None =>
      if ((55296 <=? num) && (num <=? 57343)) || (1114111 <? num)
      then [65533]
      else if invalid_codepoint num then []
      else [num]
  end.

(** The loop [for x in range(len(s)-1, 1, -1)] looking for the longest
    known prefix of the name. *)
Fixpoint longest_prefix (tbl : gmap str str) (x : nat) (s : str)
  : option str :=
  match x with
  | O | 1%nat => None
  | S x' =>
      match tbl !! take x s with
      | Some v => Some (v ++ drop x s)
      | None => longest_prefix tbl x' s
      end
  end.

(** [_replace_charref], on the text of group 1. *)
Definition replace_charref (tbl : gmap str str) (s : str) : str :=
  match s with
  | 35 :: c :: rest =>
      if (c =? 120) || (c =? 88)
      then numeric_ref (int_of 16 (rstrip_semi rest))
      else numeric_ref (int_of 10 (rstrip_semi (c :: rest)))
  | _ =>
      match tbl !! s with
      | Some v => v
      | None =>
          match longest_prefix tbl (length s - 1) s with
          | Some r => r
          | None => 38 :: s
          end
      end
  end.

Definition hexdigit (c : N) : bool :=
  range 48 57 c || range 97 102 c || range 65 70 c.

(** [&(#[0-9]+;?|#[xX][0-9a-fA-F]+;?|[^\t\n\f <&#;]{1,32};?)] *)
Definition charref : re :=
  Seq (Lit (lit "&"))
    (Grp 1
       (Alt (cat [Lit (lit "#"); plus (range 48 57); opt 59])
       (Alt (cat [Lit (lit "#"); Cls (oneof (lit "xX")); plus hexdigit;
                  opt 59])
            (cat [Rep (fun c => negb (oneof [TAB; NL; FF; SP; 60; 38; 35; 59] c))
                      1 (Some 32%nat) true;
                  opt 59])))).

Definition unescape_with (tbl : gmap str str) (s : str) : str :=
  if existsb (N.eqb 38) s
  then sub_fn charref (fun _ g => replace_charref tbl (group 1 g)) s
  else s.

(** [html.unescape] *)
Definition unescape (s : str) : str := unescape_with html5 s.

End Html.

(* ===================================================================== *)
(** ** [base64.b64decode] *)
(* ===================================================================== *)

Module Base64.

(** [table_a2b_base64]: the value of a character of the alphabet. *)
Definition value (c : N) : option N :=
  if (65 <=? c) && (c <=? 90) then Some (c - 65)
  else if (97 <=? c) && (c <=? 122) then Some (c - 71)
  else if (48 <=? c) && (c <=? 57) then Some (c + 4)
  else if c =? 43 then Some 62
  else if c =? 47 then Some 63
  else None.

(** The decoding loop of [binascii.a2b_base64] without strict mode:
    characters outside the alphabet are skipped, a complete pad sequence
    ends the input, and leftover characters of an incomplete quad are an
    error.  [acc] holds the decoded bytes, last first. *)
Fixpoint a2b (s : str) (quad_pos : nat) (leftchar : N) (pads : nat)
         (acc : list N) : option (list N) :=
  match s with
  | [] => if (quad_pos =? 0)%nat then Some (rev acc) else None
  | c :: s' =>
      if c =? 61 then
        if (2 <=? quad_pos)%nat && (4 <=? quad_pos + S pads)%nat
        then Some (rev acc)
        else a2b s' quad_pos leftchar
                 (if (2 <=? quad_pos)%nat then S pads else pads) acc
      else
        match value c with
        | None => a2b s' quad_pos leftchar pads acc
        | Some v =>
            match quad_pos with
            | 0%nat => a2b s' 1%nat v 0%nat acc
            | 1%nat =>
                a2b s' 2%nat (N.land v 15) 0%nat
                    (N.lor (N.shiftl leftchar 2) (N.shiftr v 4) :: acc)
            | 2%nat =>
                a2b s' 3%nat (N.land v 3) 0%nat
                    (N.lor (N.shiftl leftchar 4) (N.shiftr v 2) :: acc)
            | _ =>
                a2b s' 0%nat 0 0%nat
                    (N.lor (N.shiftl leftchar 6) v :: acc)
            end
        end
  end.

(** [base64.b64decode(s)] for a [str] argument: the text is first
    encoded as ASCII, which fails on any other character; [None] stands
    for the exceptions ([ValueError], [binascii.Error]). *)
Definition b64decode (s : str) : option (list N) :=
  if forallb (fun c => c <? 128) s then a2b s 0%nat 0 0%nat [] else None.

End Base64.

(* ===================================================================== *)
(** ** [hashlib.md5] *)
(* ===================================================================== *)

Module Md5.

Definition mask32 : N := 4294967295.
Definition add32 (a b : N) : N := N.land (a + b) mask32.
Definition not32 (a : N) : N := N.lxor a mask32.
Definition rotl32 (x : N) (c : N) : N :=
  N.land (N.lor (N.shiftl x c) (N.shiftr x (32 - c))) mask32.

Definition K : list N :=
  [ 3614090360; 3905402710; 606105819; 3250441966;
    4118548399; 1200080426; 2821735955; 4249261313;
    1770035416; 2336552879; 4294925233; 2304563134;
    1804603682; 4254626195; 2792965006; 1236535329;
    4129170786; 3225465664; 643717713; 3921069994;
    3593408605; 38016083; 3634488961; 3889429448;
    568446438; 3275163606; 4107603335; 1163531501;
    2850285829; 4243563512; 1735328473; 2368359562;
    4294588738; 2272392833; 1839030562; 4259657740;
    2763975236; 1272893353; 4139469664; 3200236656;
    681279174; 3936430074; 3572445317; 76029189;
    3654602809; 3873151461; 530742520; 3299628645;
    4096336452; 1126891415; 2878612391; 4237533241;
    1700485571; 2399980690; 4293915773; 2240044497;
    1873313359; 4264355552; 2734768916; 1309151649;
    4149444226; 3174756917; 718787259; 3951481745 ].

Definition S : list N :=
  [ 7; 12; 17; 22; 7; 12; 17; 22; 7; 12; 17; 22; 7; 12; 17; 22;
    5; 9; 14; 20; 5; 9; 14; 20; 5; 9; 14; 20; 5; 9; 14; 20;
    4; 11; 16; 23; 4; 11; 16; 23; 4; 11; 16; 23; 4; 11; 16; 23;
    6; 10; 15; 21; 6; 10; 15; 21; 6; 10; 15; 21; 6; 10; 15; 21 ].

(** Little-endian bytes of a word. *)
Fixpoint le_bytes (n : nat) (x : N) : list N :=
  match n with
  | O => []
  | Datatypes.S n' => N.land x 255 :: le_bytes n' (N.shiftr x 8)
  end.

(** Message padding: a one bit, zeros up to 56 modulo 64, and the bit
    length on eight bytes. *)
Definition pad (msg : list N) : list N :=
  let len := length msg in
  let zeros := ((119 - len mod 64) mod 64)%nat in
  msg ++ [128] ++ repeat 0 zeros
      ++ le_bytes 8 (N.land (8 * N.of_nat len) 18446744073709551615).

Fixpoint words (l : list N) : list N :=
  match l with
  | a :: b :: c :: d :: l' =>
      (a + 256 * b + 65536 * c + 16777216 * d) :: words l'
  | _ => []
  end.

Record state := St { sa : N; sb : N; sc : N; sd : N }.

Definition step (M : list N) (st : state) (i : nat) : state :=
  let '(St a b c d) := st in
  let '(f, g) :=
    if (i <? 16)%nat then
      (N.lor (N.land b c) (N.land (not32 b) d), i)
    else if (i <? 32)%nat then
      (N.lor (N.land d b) (N.land (not32 d) c), ((5 * i + 1) mod 16)%nat)
    else if (i <? 48)%nat then
      (N.lxor (N.lxor b c) d, ((3 * i + 5) mod 16)%nat)
    else
      (N.lxor c (N.lor b (not32 d)), ((7 * i) mod 16)%nat) in
  let f' := add32 (add32 (add32 f a) (nth i K 0)) (nth g M 0) in
  St d (add32 b (rotl32 f' (nth i S 0))) b c.

Definition block (st : state) (M : list N) : state :=
  let '(St a b c d) := fold_left (step M) (List.seq 0 64) st in
  St (add32 (sa st) a) (add32 (sb st) b) (add32 (sc st) c)
     (add32 (sd st) d).

Fixpoint blocks (n : nat) (ws : list N) (st : state) : state :=
  match n with
  | O => st
  | Datatypes.S n' => blocks n' (drop 16 ws) (block st (take 16 ws))
  end.

Definition init : state := St 1732584193 4023233417 2562383102 271733878.

(** [hashlib.md5(data).digest()] *)
Definition digest (msg : list N) : list N :=
  let ws := words (pad msg) in
  let '(St a b c d) := blocks (length ws / 16) ws init in
  le_bytes 4 a ++ le_bytes 4 b ++ le_bytes 4 c ++ le_bytes 4 d.

Definition hexchar (x : N) : N := if x <? 10 then 48 + x else 87 + x.

(** [hashlib.md5(data).hexdigest()] *)
Definition hexdigest (msg : list N) : str :=
  flat_map (fun b => [hexchar (N.shiftr b 4); hexchar (N.land b 15)])
           (digest msg).

End Md5.

(* ===================================================================== *)
(** ** Exceptions *)
(* ===================================================================== *)

Inductive exn : Type :=
| TypeError | ValueError | KeyError | AttributeError | OSError
| NotModelled.   (* a library behaviour outside of this model *)

(** The outcome of a Python call: a value or a raised exception. *)
Inductive result (A : Type) : Type :=
| Ok (a : A)
| Raise (e : exn).
Arguments Ok {A} a.
Arguments Raise {A} e.

#[global] Instance result_fmap : FMap result :=
  fun A B f x =>
    match x with
    | Ok a => Ok (f a)
    | Raise e => Raise e
    end.

#[global] Instance result_bind : MBind result :=
  fun A B f x =>
    match x with
    | Ok a => f a
    | Raise e => Raise e
    end.

(** A loop body run over a list, stopping at the first exception. *)
Fixpoint rmap {A B} (f : A -> result B) (l : list A) : result (list B) :=
  match l with
  | [] => Ok []
  | a :: l' => b ← f a; bs ← rmap f l'; Ok (b :: bs)
  end.

(** [re.sub] with a replacement function that may raise: the exception of
    the first failing call leaves [re.sub]. *)
Fixpoint sub_go_result (r : re) (repl : str -> caps -> result str)
         (skip : nat) (s : str) : result str :=
  match s with
  | [] =>
      match skip with
      | O => match match_at r [] with
             | Some (_, g) => repl [] g
             | None => Ok []
             end
      | S _ => Ok []
      end
  | c :: s' =>
      match skip with
      | S j => sub_go_result r repl j s'
      | O =>
          match match_at r s with
          | Some (n, g) =>
              t ← repl (take n s) g;
              rest ← match n with
                     | O => u ← sub_go_result r repl O s'; Ok (c :: u)
                     | S j => sub_go_result r repl j s'
                     end;
              Ok (t ++ rest)
          | None => u ← sub_go_result r repl O s'; Ok (c :: u)
          end
      end
  end.

Definition sub_fn_result (r : re) (repl : str -> caps -> result str)
           (s : str) : result str :=
  sub_go_result r repl O s.

(* ===================================================================== *)
(** ** [xml.etree.ElementTree] *)
(* ===================================================================== *)

Module ET.

#[local] Unset Elimination Schemes.
(** A parsed XML element: tag, attributes, text before the first child
    ([None] when there is none) and children in document order. *)
Inductive element : Type :=
| Element (tag : str) (attrib : gmap str str) (text : option str)
          (children : list element).
#[local] Set Elimination Schemes.

Definition tag (e : element) : str := let 'Element t _ _ _ := e in t.
Definition attrib (e : element) : gmap str str :=
  let 'Element _ a _ _ := e in a.
Definition text (e : element) : option str :=
  let 'Element _ _ t _ := e in t.
Definition children (e : element) : list element :=
  let 'Element _ _ _ c := e in c.

(** [e.find(t)]: the first child with tag [t]. *)
Definition find (t : string) (e : element) : option element :=
  List.find (fun c => str_eqb (tag c) (lit t)) (children e).

(** [e.findall(t)]: the children with tag [t], in document order. *)
Definition findall (t : string) (e : element) : list element :=
  List.filter (fun c => str_eqb (tag c) (lit t)) (children e).

(** [e.get(k)] *)
Definition get (k : string) (e : element) : option str :=
  attrib e !! lit k.

End ET.

(** Truth value of a [str] or [None]. *)
Definition truthy (o : option str) : bool :=
  match o with
  | Some (_ :: _) => true
  | _ => false
  end.

(* ===================================================================== *)
(** ** [datetime.strptime] and [isoformat] *)
(* ===================================================================== *)

Module Datetime.

Definition digit : N -> bool := range 48 57.

(** The regular expression [_strptime] builds for the format
    ['%Y%m%dT%H%M%S'] (matched ignoring case).  [\d] is taken as the
    ASCII digits. *)
Definition format_regex : re :=
  cat [ Grp 1 (cat [Cls digit; Cls digit; Cls digit; Cls digit]);
        Grp 2 (Alt (Seq (Lit (lit "1")) (Cls (range 48 50)))
              (Alt (Seq (Lit (lit "0")) (Cls (range 49 57)))
                   (Cls (range 49 57))));
        Grp 3 (Alt (Seq (Lit (lit "3")) (Cls (range 48 49)))
              (Alt (Seq (Cls (range 49 50)) (Cls digit))
              (Alt (Seq (Lit (lit "0")) (Cls (range 49 57)))
              (Alt (Cls (range 49 57))
                   (Seq (Lit (lit " ")) (Cls (range 49 57)))))));
        Cls (oneof (lit "Tt"));
        Grp 4 (Alt (Seq (Lit (lit "2")) (Cls (range 48 51)))
              (Alt (Seq (Cls (range 48 49)) (Cls digit))
                   (Cls digit)));
        Grp 5 (Alt (Seq (Cls (range 48 53)) (Cls digit)) (Cls digit));
        Grp 6 (Alt (Seq (Lit (lit "6")) (Cls (range 48 49)))
              (Alt (Seq (Cls (range 48 53)) (Cls digit))
                   (Cls digit))) ].

(** [int(s)] on digits, leading blanks ignored. *)
Definition int_of (s : str) : N :=
  fold_left (fun acc c => acc * 10 + (c - 48)) (dropwhile isspace s) 0.

Definition is_leap (y : N) : bool :=
  ((y mod 4 =? 0) && negb (y mod 100 =? 0)) || (y mod 400 =? 0).

Definition days_in_month (y m : N) : N :=
  if m =? 2 then (if is_leap y then 29 else 28)
  else if (m =? 4) || (m =? 6) || (m =? 9) || (m =? 11) then 30
  else 31.

(** [datetime.strptime(s, '%Y%m%dT%H%M%S').isoformat()]; [None] stands
    for [ValueError]. *)
Definition strptime_iso (s : str) : option str :=
  match match_at format_regex s with
  | Some (n, g) =>
      if negb (n =? length s)%nat then None else
      let y := int_of (group 1 g) in
      let mo := int_of (group 2 g) in
      let d := int_of (group 3 g) in
      let h := int_of (group 4 g) in
      let mi := int_of (group 5 g) in
      let sec := int_of (group 6 g) in
      if (y =? 0) || (days_in_month y mo <? d) || (59 <? sec) then None
      else Some (fmt_0d 4 y ++ lit "-" ++ fmt_0d 2 mo ++ lit "-"
                   ++ fmt_0d 2 d ++ lit "T" ++ fmt_0d 2 h ++ lit ":"
                   ++ fmt_0d 2 mi ++ lit ":" ++ fmt_0d 2 sec)
  | None => None
  end.

End Datetime.

(* ===================================================================== *)
(** ** Python values held in dictionaries *)
(* ===================================================================== *)

#[local] Unset Elimination Schemes.
Inductive value : Type :=
| VNone
| VStr (s : str)
| VInt (n : N)
| VBool (b : bool)
| VList (l : list value)
| VDict (d : gmap string value)     (* a dict with literal keys *)
| VAttrs (d : gmap str str).         (* a dict keyed by XML tag names *)
#[local] Set Elimination Schemes.

Abbreviation dict := (gmap string value).

Definition of_text (o : option str) : value :=
  match o with
  | Some s => VStr s
  | None => VNone
  end.

(** [bool(v)] *)
Definition is_truthy (v : value) : bool :=
  match v with
  | VNone => false
  | VStr s => negb (length s =? 0)%nat
  | VInt n => negb (n =? 0)
  | VBool b => b
  | VList l => negb (length l =? 0)%nat
  | VDict d => negb (size d =? 0)%nat
  | VAttrs d => negb (size d =? 0)%nat
  end.

(** [d[k]] *)
Definition getitem (d : dict) (k : string) : result value :=
  match d !! k with
  | Some v => Ok v
  | None => Raise KeyError
  end.

(** [d.get(k, default)] *)
Definition get_default (d : dict) (k : string) (default : value) : value :=
  match d !! k with
  | Some v => v
  | None => default
  end.

(** [d.get(k)] *)
Definition get (d : dict) (k : string) : value := get_default d k VNone.

(** [k in d] *)
Definition contains (d : dict) (k : string) : bool :=
  match d !! k with
  | Some _ => true
  | None => false
  end.

(** [f"{v}"] for the scalar values the sources format.  The [repr] of
    containers is not modelled. *)
Definition format_value (v : value) : result str :=
  match v with
  | VNone => Ok (lit "None")
  | VStr s => Ok s
  | VInt n => Ok (str_of_N n)
  | VBool true => Ok (lit "True")
  | VBool false => Ok (lit "False")
  | _ => Raise NotModelled
  end.

(** An argument that has to be a [str]. *)
Definition as_str (v : value) : result str :=
  match v with
  | VStr s => Ok s
  | _ => Raise TypeError
  end.

(** An argument that has to be a list of [str], as for [join]. *)
Definition as_str_list (v : value) : result (list str) :=
  match v with
  | VList l => rmap as_str l
  | _ => Raise TypeError
  end.

(* ===================================================================== *)
(** ** [enex_parser.py]: class [ENEXParser] *)
(* ===================================================================== *)

Module ENEXParser.

(** [<!\[CDATA\[(.*?)\]\]>] with [re.DOTALL] *)
Definition re_cdata : re :=
  cat [Lit (lit "<![CDATA["); Grp 1 (lazy_star any); Lit (lit "]]>")].
(** [<en-note[^>]*>] *)
Definition re_en_note_open : re :=
  cat [Lit (lit "<en-note"); star (notchr 62); Lit (lit ">")].
(** [</en-note>] *)
Definition re_en_note_close : re := Lit (lit "</en-note>").
(** [<en-media[^>]*/?>] *)
Definition re_en_media : re :=
  cat [Lit (lit "<en-media"); star (notchr 62); opt 47; Lit (lit ">")].
(** [<br\s*/?>] *)
Definition re_br : re :=
  cat [Lit (lit "<br"); star isspace; opt 47; Lit (lit ">")].
(** [</p>] *)
Definition re_p_close : re := Lit (lit "</p>").
(** [<[^>]+>] *)
Definition re_tag : re :=
  cat [Lit (lit "<"); plus (notchr 62); Lit (lit ">")].
(** [\n{3,}] *)
Definition re_nl3 : re := Rep (chr NL) 3 None true.

(** [_html_to_text] *)
Definition _html_to_text (html_content : option str) : str :=
  match html_content with
  | None | Some [] => []
  | Some html_content =>
      let text := sub_fn re_cdata (fun _ g => group 1 g) html_content in
      let text := sub re_en_note_open [] text in
      let text := sub re_en_note_close [] text in
      let text := sub re_en_media (lit "[Attachment]") text in
      let text := Html.unescape text in
      let text := sub re_br [NL] text in
      let text := sub re_p_close [NL; NL] text in
      let text := sub re_tag [] text in
      let text := sub re_nl3 [NL; NL] text in
      strip text
  end.

(** [_parse_date]: any exception inside the [try] gives the argument
    back; slicing [None] is one of them. *)
Definition _parse_date (date_str : option str) : option str :=
  match date_str with
  | None => None
  | Some s =>
      match Datetime.strptime_iso (take 15 s) with
      | Some iso => Some iso
      | None => Some s
      end
  end.

(** [_parse_attributes] *)
Definition _parse_attributes (attrs_elem : ET.element) : gmap str str :=
  fold_left
    (fun attrs child =>
       match ET.text child with
       | Some (c :: t) => <[ET.tag child := c :: t]> attrs
       | _ => attrs
       end)
    (ET.children attrs_elem) ∅.

(** [_parse_resource]; a payload that does not decode raises. *)
Definition _parse_resource (resource_elem : ET.element) : result dict :=
  let resource : dict := ∅ in
  let resource :=
    match ET.find "mime" resource_elem with
    | Some mime_elem => <["mime" := of_text (ET.text mime_elem)]> resource
    | None => resource
    end in
  let resource :=
    match ET.find "resource-attributes" resource_elem with
    | Some attrs =>
        match ET.find "file-name" attrs with
        | Some filename_elem =>
            <["filename" := of_text (ET.text filename_elem)]> resource
        | None => resource
        end
    | None => resource
    end in
  match ET.find "data" resource_elem with
  | Some data_elem =>
      match ET.get "encoding" data_elem, ET.text data_elem with
      | Some encoding, Some (c :: t) =>
          if str_eqb encoding (lit "base64") then
            match Base64.b64decode (c :: t) with
            | Some bytes =>
                Ok (<["size" := VInt (N.of_nat (length bytes))]> resource)
            | None => Raise ValueError
            end
          else Ok resource
      | _, _ => Ok resource
      end
  | None => Ok resource
  end.

(** The loop over [findall('resource')], keeping the truthy results. *)
Fixpoint parse_resources (l : list ET.element) : result (list value) :=
  match l with
  | [] => Ok []
  | resource_elem :: l' =>
      resource ← _parse_resource resource_elem;
      rest ← parse_resources l';
      Ok (if is_truthy (VDict resource) then VDict resource :: rest
          else rest)
  end.

(** [_parse_note] *)
Definition _parse_note (note_elem : ET.element) : result dict :=
  let note : dict := ∅ in
  let note :=
    <["title" := match ET.find "title" note_elem with
                 | Some title_elem => of_text (ET.text title_elem)
                 | None => VStr (lit "Untitled")
                 end]> note in
  let note :=
    match ET.find "content" note_elem with
    | Some content_elem =>
        <["content_text" := VStr (_html_to_text (ET.text content_elem))]>
          (<["content_html" := of_text (ET.text content_elem)]> note)
    | None =>
        <["content_text" := VStr []]> (<["content_html" := VStr []]> note)
    end in
  let note :=
    match ET.find "created" note_elem with
    | Some created_elem =>
        <["created" := of_text (_parse_date (ET.text created_elem))]> note
    | None => note
    end in
  let note :=
    match ET.find "updated" note_elem with
    | Some updated_elem =>
        <["modified" := of_text (_parse_date (ET.text updated_elem))]> note
    | None => note
    end in
  let tags :=
    flat_map (fun tag_elem =>
                match ET.text tag_elem with
                | Some (c :: t) => [VStr (c :: t)]
                | _ => []
                end)
             (ET.findall "tag" note_elem) in
  let note := <["tags" := VList tags]> note in
  let note :=
    match ET.find "note-attributes" note_elem with
    | Some attrs => <["attributes" := VAttrs (_parse_attributes attrs)]> note
    | None => note
    end in
  resources ← parse_resources (ET.findall "resource" note_elem);
  Ok (<["resources" := VList resources]> note).

(** The loop of [parse_enex_file] over the [<note>] elements: a parsed
    note is appended when it is truthy. *)
Fixpoint parse_notes (l : list ET.element) : result (list dict) :=
  match l with
  | [] => Ok []
  | note_elem :: l' =>
      note ← _parse_note note_elem;
      rest ← parse_notes l';
      Ok (if is_truthy (VDict note) then note :: rest else rest)
  end.

(** [parse_enex_file], from the root element [ET.parse] returns. *)
Definition parse_enex_file (root : ET.element) : result (list dict) :=
  parse_notes (ET.findall "note" root).

End ENEXParser.

(* ===================================================================== *)
(** ** Files *)
(* ===================================================================== *)

Module FS.

Inductive content : Type :=
| Text (s : str)          (* written through a text handle, UTF-8 *)
| Bytes (b : list N).     (* written through a binary handle *)

(** The file system as the exporters see it: the files and directories
    written so far, and the paths on which the operating system refuses
    an operation (no permission, missing parent, full disk, ...). *)
Record fs : Type := Fs {
  files : gmap str content;
  dirs : gset str;
  denied : str -> bool
}.

(** A computation that reads and writes files and may raise. *)
Definition io (A : Type) : Type := fs -> result A * fs.

#[global] Instance io_ret : MRet io := fun A a st => (Ok a, st).
#[global] Instance io_bind : MBind io :=
  fun A B f c st =>
    match c st with
    | (Ok a, st') => f a st'
    | (Raise e, st') => (Raise e, st')
    end.

Definition raise {A} (e : exn) : io A := fun st => (Raise e, st).

(** A pure computation that may raise, inside [io]. *)
Definition lift {A} (r : result A) : io A := fun st => (r, st).

(** [Path(a) / b] for a relative name [b]. *)
Definition path_join (a b : str) : str := a ++ lit "/" ++ b.

(** [p.mkdir(parents=True, exist_ok=True)] *)
Definition mkdir (p : str) : io unit :=
  fun st =>
    if denied st p then (Raise OSError, st)
    else (Ok tt, Fs (files st) ({[p]} ∪ dirs st) (denied st)).

(** [with open(p, 'w') as f: f.write(...)]: the whole text of the block
    reaches the file, or [OSError] is raised and the file system is
    left as it was. *)
Definition write (p : str) (c : content) : io unit :=
  fun st =>
    if denied st p then (Raise OSError, st)
    else (Ok tt, Fs (<[p := c]> (files st)) (dirs st) (denied st)).

(** [with open(p, 'w') as f: body], where the body computes the text
    it writes and may itself raise: [open] fails first on a refused
    path; an exception of the body leaves the file created (the text
    written before the exception is not modelled). *)
Definition write_block (p : str) (body : result str) : io unit :=
  fun st =>
    if denied st p then (Raise OSError, st)
    else
      match body with
      | Ok s => (Ok tt, Fs (<[p := Text s]> (files st)) (dirs st) (denied st))
      | Raise e =>
          (Raise e, Fs (<[p := Text []]> (files st)) (dirs st) (denied st))
      end.

End FS.

Import FS.

(** [enumerate(l, start)] *)
Fixpoint enumerate {A} (start : N) (l : list A) : list (N * A) :=
  match l with
  | [] => []
  | a :: l' => (start, a) :: enumerate (start + 1) l'
  end.

(* ===================================================================== *)
(** ** [attachment_extractor.py]: class [AttachmentExtractor] *)
(* ===================================================================== *)

Module AttachmentExtractor.

(** The dictionary literal [mime_to_ext] of [_get_extension_from_mime]. *)
Definition mime_to_ext : gmap str str :=
  list_to_map
    [ (lit "image/jpeg", lit ".jpg");
      (lit "image/png", lit ".png");
      (lit "image/gif", lit ".gif");
      (lit "image/svg+xml", lit ".svg");
      (lit "image/webp", lit ".webp");
      (lit "application/pdf", lit ".pdf");
      (lit "text/plain", lit ".txt");
      (lit "text/html", lit ".html");
      (lit "application/msword", lit ".doc");
      (lit "application/vnd.openxmlformats-officedocument.wordprocessingml.document", lit ".docx");
      (lit "application/vnd.ms-excel", lit ".xls");
      (lit "application/vnd.openxmlformats-officedocument.spreadsheetml.sheet", lit ".xlsx");
      (lit "application/zip", lit ".zip");
      (lit "audio/mpeg", lit ".mp3");
      (lit "video/mp4", lit ".mp4") ].

(** [_get_extension_from_mime]: [mime_to_ext.get(mime_type, '.bin')];
    the argument is [None] when [<mime>] has no text. *)
Definition _get_extension_from_mime (mime_type : value) : str :=
  match mime_type with
  | VStr s => default (lit ".bin") (mime_to_ext !! s)
  | _ => lit ".bin"
  end.

(** The [else] branch of the file name choice: clean, truncate, and add
    the hash prefix. *)
Definition clean_and_prefix (data_hash filename : str) : str :=
  let clean_filename := strip (remove_char CR (remove_char NL filename)) in
  let clean_filename :=
    if (50 <? length clean_filename)%nat then
      match rsplit1 46 clean_filename with
      | Some (stem, ext) => take 40 stem ++ lit "." ++ ext
      | None => take 50 clean_filename
      end
    else clean_filename in
  match rsplit1 46 clean_filename with
  | Some (stem, ext) => data_hash ++ lit "_" ++ stem ++ lit "." ++ ext
  | None => data_hash ++ lit "_" ++ clean_filename
  end.

(** The file name declared under [resource-attributes/file-name]. *)
Definition declared_filename (resource_elem : ET.element) : option str :=
  match ET.find "resource-attributes" resource_elem with
  | Some attrs =>
      match ET.find "file-name" attrs with
      | Some filename_elem => ET.text filename_elem
      | None => None
      end
  | None => None
  end.

(** The name of the file on disk. *)
Definition resolve_filename (data_hash : str) (mime_type : value)
           (filename : option str) : str :=
  match filename with
  | Some (c :: t) => clean_and_prefix data_hash (c :: t)
  | _ => data_hash ++ _get_extension_from_mime mime_type
  end.

(** [_extract_resource]; [None] is Python's [None].  The warnings
    printed on the skipped resources are not modelled. *)
Definition _extract_resource (resource_elem : ET.element)
           (attachments_dir : str) (note_idx : N) : io (option dict) :=
  match ET.find "data" resource_elem with
  | None => mret None
  | Some data_elem =>
      match ET.text data_elem with
      | None | Some [] => mret None
      | Some data_text =>
          let encoding := default [] (ET.get "encoding" data_elem) in
          if negb (str_eqb encoding (lit "base64")) then mret None
          else
            match Base64.b64decode data_text with
            | None => mret None
            | Some attachment_data =>
                let data_hash := take 8 (Md5.hexdigest attachment_data) in
                let mime_type :=
                  match ET.find "mime" resource_elem with
                  | Some mime_elem => of_text (ET.text mime_elem)
                  | None => VStr (lit "application/octet-stream")
                  end in
                let original := declared_filename resource_elem in
                let filename :=
                  resolve_filename data_hash mime_type original in
                let file_path := path_join attachments_dir filename in
                _ ← write file_path (Bytes attachment_data);
                mret (Some
                  (<["note_index" := VInt note_idx]>
                  (<["file_path" := VStr file_path]>
                  (<["size" := VInt (N.of_nat (length attachment_data))]>
                  (<["mime_type" := mime_type]>
                  (<["original_filename" := of_text original]>
                  (<["filename" := VStr filename]>
                  (<["hash" := VStr data_hash]> (∅ : dict)))))))))
            end
      end
  end.

(** The inner loop of [extract_attachments_from_enex]: the resources of
    one note, in order; a truthy result is appended to [attachments]
    and recorded in [attachment_map] under its content hash. *)
Fixpoint extract_resources (l : list ET.element) (attachments_dir : str)
         (note_idx : N) (attachments : list dict)
         (attachment_map : gmap str dict)
  : io (list dict * gmap str dict) :=
  match l with
  | [] => mret (attachments, attachment_map)
  | resource_elem :: l' =>
      attachment_info ←
        _extract_resource resource_elem attachments_dir note_idx;
      match attachment_info with
      | Some info =>
          if is_truthy (VDict info) then
            match info !! "hash" with
            | Some (VStr h) =>
                extract_resources l' attachments_dir note_idx
                  (attachments ++ [info]) (<[h := info]> attachment_map)
            | _ => raise KeyError
            end
          else extract_resources l' attachments_dir note_idx
                 attachments attachment_map
      | None => extract_resources l' attachments_dir note_idx
                  attachments attachment_map
      end
  end.

(** One entry of [note_attachments]: the note title and its attachment
    list. *)
Record note_entry : Type := NoteEntry {
  entry_idx : N;
  entry_title : value;
  entry_attachments : list dict
}.

(** The outer loop over [enumerate(root.findall('note'), 1)]. *)
Fixpoint extract_notes (l : list (N * ET.element)) (attachments_dir : str)
         (attachment_map : gmap str dict)
         (note_attachments : list note_entry)
  : io (gmap str dict * list note_entry) :=
  match l with
  | [] => mret (attachment_map, note_attachments)
  | (note_idx, note_elem) :: l' =>
      let note_title :=
        match ET.find "title" note_elem with
        | Some t => of_text (ET.text t)
        | None => VStr (lit "Note_" ++ str_of_N note_idx)
        end in
      '(attachments, attachment_map) ←
        extract_resources (ET.findall "resource" note_elem)
          attachments_dir note_idx [] attachment_map;
      extract_notes l' attachments_dir attachment_map
        (match attachments with
         | [] => note_attachments
         | _ => note_attachments
                  ++ [NoteEntry note_idx note_title attachments]
         end)
  end.

(** The lines of the index for one attachment. *)
Definition index_attachment (attachment : dict) : result str :=
  filename ← (v ← getitem attachment "filename"; format_value v);
  mime ← (v ← getitem attachment "mime_type"; format_value v);
  size ← (v ← getitem attachment "size";
          match v with
          | VInt n => Ok (fmt_comma n)
          | VBool b => Ok (if b then lit "1" else lit "0")
          | VStr _ => Raise ValueError
          | _ => Raise TypeError
          end);
  original ← getitem attachment "original_filename";
  original_line ←
    (if is_truthy original
     then (o ← format_value original;
           Ok (lit "  - Original: " ++ o ++ [NL]))
     else Ok []);
  hash ← (v ← getitem attachment "hash"; format_value v);
  Ok (lit "- **" ++ filename ++ lit "**" ++ [NL]
      ++ lit "  - Type: " ++ mime ++ [NL]
      ++ lit "  - Size: " ++ size ++ lit " bytes" ++ [NL]
      ++ original_line
      ++ lit "  - Hash: " ++ hash ++ [NL]
      ++ [NL]).

Definition index_note (e : note_entry) : result str :=
  title ← format_value (entry_title e);
  items ← rmap index_attachment (entry_attachments e);
  Ok (lit "## Note " ++ fmt_04d (entry_idx e) ++ lit ": " ++ title
      ++ [NL; NL] ++ concat items).

(** [_create_attachment_index] *)
Definition _create_attachment_index (attachments_dir : str)
           (note_attachments : list note_entry) : io unit :=
  let total :=
    fold_left (fun n e => (n + length (entry_attachments e))%nat)
              note_attachments 0%nat in
  sections ← lift (rmap index_note note_attachments);
  let index_content :=
    lit "# Attachments Index" ++ [NL; NL]
    ++ lit "Total attachments: " ++ str_of_N (N.of_nat total) ++ [NL; NL]
    ++ concat sections in
  write (path_join attachments_dir (lit "README.md")) (Text index_content).

(** The result dictionary of [extract_attachments_from_enex]. *)
Record extraction : Type := Extraction {
  attachment_map : gmap str dict;
  note_attachments : list note_entry;
  attachments_dir : str
}.

(** [extract_attachments_from_enex], from the parsed root element. *)
Definition extract_attachments_from_enex (root : ET.element)
           (notebook_dir : str) : io extraction :=
  let attachments_dir := path_join notebook_dir (lit "attachments") in
  _ ← mkdir attachments_dir;
  '(attachment_map, note_attachments) ←
    extract_notes (enumerate 1 (ET.findall "note" root))
      attachments_dir ∅ [];
  _ ← _create_attachment_index attachments_dir note_attachments;
  mret (Extraction attachment_map note_attachments attachments_dir).

End AttachmentExtractor.

(* ===================================================================== *)
(** ** [enhanced_note_exporter.py]: class [EnhancedNoteExporter] *)
(* ===================================================================== *)

Module EnhancedNoteExporter.

Definition PAPERCLIP : N := 128206.   (* U+1F4CE *)

(** [_extract_resource]: as in [AttachmentExtractor], with the keys
    [resource_hash], [relative_path] and [is_image] added.
    [mime_type.startswith] raises when [<mime>] has no text. *)
Definition _extract_resource (resource_elem : ET.element)
           (attachments_dir : str) (note_idx : N) : io (option dict) :=
  match ET.find "data" resource_elem with
  | None => mret None
  | Some data_elem =>
      match ET.text data_elem with
      | None | Some [] => mret None
      | Some data_text =>
          let encoding := default [] (ET.get "encoding" data_elem) in
          if negb (str_eqb encoding (lit "base64")) then mret None
          else
            match Base64.b64decode data_text with
            | None => mret None
            | Some attachment_data =>
                let data_hash := take 8 (Md5.hexdigest attachment_data) in
                let mime_type :=
                  match ET.find "mime" resource_elem with
                  | Some mime_elem => of_text (ET.text mime_elem)
                  | None => VStr (lit "application/octet-stream")
                  end in
                let original :=
                  AttachmentExtractor.declared_filename resource_elem in
                let filename :=
                  AttachmentExtractor.resolve_filename
                    data_hash mime_type original in
                let file_path := path_join attachments_dir filename in
                _ ← write file_path (Bytes attachment_data);
                let resource_hash := of_text (ET.get "hash" data_elem) in
                match mime_type with
                | VStr mime =>
                    mret (Some
                      (<["is_image" :=
                           VBool (startswith (lit "image/") mime)]>
                      (<["note_index" := VInt note_idx]>
                      (<["relative_path" :=
                           VStr (lit "attachments/" ++ filename)]>
                      (<["file_path" := VStr file_path]>
                      (<["size" :=
                           VInt (N.of_nat (length attachment_data))]>
                      (<["mime_type" := mime_type]>
                      (<["original_filename" := of_text original]>
                      (<["filename" := VStr filename]>
                      (<["resource_hash" := resource_hash]>
                      (<["hash" := VStr data_hash]>
                         (∅ : dict))))))))))))
                | _ => raise AttributeError
                end
            end
      end
  end.

(** The dictionary [resource_lookup]: declared hash to resource, a later
    resource replacing an earlier one with the same hash. *)
Fixpoint build_lookup (resources : list dict) (lookup : gmap str dict)
  : result (gmap str dict) :=
  match resources with
  | [] => Ok lookup
  | resource :: l' =>
      match get resource "resource_hash" with
      | VStr (c :: t) => build_lookup l' (<[c :: t := resource]> lookup)
      | VList (_ :: _) => Raise TypeError     (* unhashable key *)
      | VDict d | VAttrs d =>
          if (size d =? 0)%nat then build_lookup l' lookup
          else Raise TypeError
      | _ => build_lookup l' lookup   (* falsy, or a key no text equals *)
      end
  end.

(** The pattern [hash=Q([^Q]+)Q], where Q is the double quote. *)
Definition re_hash : re :=
  cat [Lit (lit "hash=" ++ [DQUOTE]); Grp 1 (plus (notchr DQUOTE));
       Lit [DQUOTE]].

(** The nested function [replace_media]. *)
Definition replace_media (resource_lookup : gmap str dict)
           (media_tag : str) : result str :=
  let fallback := [NL; NL] ++ lit "[Attachment]" ++ [NL; NL] in
  match search re_hash media_tag with
  | Some (_, g) =>
      let resource_hash := group 1 g in
      match resource_lookup !! resource_hash with
      | Some resource =>
          is_image ← getitem resource "is_image";
          if is_truthy is_image then
            alt_text ← format_value
              (get_default resource "original_filename"
                           (VStr (lit "Image")));
            path ← (v ← getitem resource "relative_path"; format_value v);
            Ok ([NL; NL] ++ lit "![" ++ alt_text ++ lit "](" ++ path
                ++ lit ")" ++ [NL; NL])
          else
            link_text ← format_value
              (get_default resource "original_filename"
                           (VStr (lit "Attachment")));
            path ← (v ← getitem resource "relative_path"; format_value v);
            Ok ([NL; NL] ++ lit "[" ++ [PAPERCLIP] ++ lit " "
                ++ link_text ++ lit "](" ++ path ++ lit ")" ++ [NL; NL])
      | None => Ok fallback
      end
  | None => Ok fallback
  end.

(** [<tag[^>]*>] *)
Definition re_open (name : string) : re :=
  cat [Lit (lit "<" ++ lit name); star (notchr 62); Lit (lit ">")].
(** [</tag>] *)
Definition re_close (name : string) : re :=
  Lit (lit "</" ++ lit name ++ lit ">").
(** [<tag[^>]*>(.*?)</tag>] with [re.DOTALL] *)
Definition re_pair (name : string) : re :=
  cat [Lit (lit "<" ++ lit name); star (notchr 62); Lit (lit ">");
       Grp 1 (lazy_star any); re_close name].
(** The pattern [<a[^>]+href=Q([^Q]+)Q[^>]*>(.*?)</a>] with
    [re.DOTALL], where Q is the double quote. *)
Definition re_link : re :=
  cat [Lit (lit "<a"); plus (notchr 62); Lit (lit "href=" ++ [DQUOTE]);
       Grp 1 (plus (notchr DQUOTE)); Lit [DQUOTE]; star (notchr 62);
       Lit (lit ">"); Grp 2 (lazy_star any); Lit (lit "</a>")].
(** [\n{4,}] *)
Definition re_nl4 : re := Rep (chr NL) 4 None true.
(** [[ \t]+\n] *)
Definition re_trailing : re := Seq (plus (oneof [SP; TAB])) (Lit [NL]).

(** The rewrites of [_html_to_markdown_with_images] that follow the
    [en-media] replacement and come before the whitespace clean-up:
    structural tags, headings, formatting, links, lists, and the
    removal of the remaining tags. *)
Definition convert_tags (text : str) : str :=
  let text := sub ENEXParser.re_en_note_open [] text in
  let text := sub ENEXParser.re_en_note_close [] text in
  let text := sub ENEXParser.re_br [NL] text in
  let text := sub (re_open "p") [NL; NL] text in
  let text := sub (re_close "p") [NL; NL] text in
  let text := sub (re_open "div") [NL; NL] text in
  let text := sub (re_close "div") [NL; NL] text in
  let text :=
    sub_fn (re_pair "h1")
      (fun _ g => [NL; NL] ++ lit "# " ++ group 1 g ++ [NL; NL]) text in
  let text :=
    sub_fn (re_pair "h2")
      (fun _ g => [NL; NL] ++ lit "## " ++ group 1 g ++ [NL; NL]) text in
  let text :=
    sub_fn (re_pair "h3")
      (fun _ g => [NL; NL] ++ lit "### " ++ group 1 g ++ [NL; NL]) text in
  let text :=
    sub_fn (re_pair "strong")
      (fun _ g => lit "**" ++ group 1 g ++ lit "**") text in
  let text :=
    sub_fn (re_pair "b")
      (fun _ g => lit "**" ++ group 1 g ++ lit "**") text in
  let text :=
    sub_fn (re_pair "em")
      (fun _ g => lit "*" ++ group 1 g ++ lit "*") text in
  let text :=
    sub_fn (re_pair "i")
      (fun _ g => lit "*" ++ group 1 g ++ lit "*") text in
  let text :=
    sub_fn re_link
      (fun _ g => lit "[" ++ group 2 g ++ lit "](" ++ group 1 g ++ lit ")")
      text in
  let text := sub (re_open "ul") [NL] text in
  let text := sub (re_close "ul") [NL] text in
  let text := sub (re_open "ol") [NL] text in
  let text := sub (re_close "ol") [NL] text in
  let text := sub (re_open "li") ([NL] ++ lit "- ") text in
  let text := sub (re_close "li") [] text in
  sub ENEXParser.re_tag [] text.

(** [_html_to_markdown_with_images] *)
Definition _html_to_markdown_with_images (html_content : option str)
           (resources : list dict) : result str :=
  match html_content with
  | None | Some [] => Ok []
  | Some html_content =>
      resource_lookup ← build_lookup resources ∅;
      let text :=
        sub_fn ENEXParser.re_cdata (fun _ g => group 1 g) html_content in
      text ← sub_fn_result ENEXParser.re_en_media
               (fun media_tag _ => replace_media resource_lookup media_tag)
               text;
      let text := convert_tags text in
      let text := sub re_nl4 [NL; NL; NL] text in
      let text := sub re_trailing [NL] text in
      let text := Html.unescape text in
      Ok (strip text)
  end.

(** The loop over [findall('resource')] in [export_notes_with_images]. *)
Fixpoint extract_resources (l : list ET.element) (attachments_dir : str)
         (note_idx : N) : io (list dict) :=
  match l with
  | [] => mret []
  | resource_elem :: l' =>
      resource ← _extract_resource resource_elem attachments_dir note_idx;
      rest ← extract_resources l' attachments_dir note_idx;
      mret (match resource with
            | Some r => if is_truthy (VDict r) then r :: rest else rest
            | None => rest
            end)
  end.

(** The part of the loop body of [export_notes_with_images] that turns
    one [<note>] element into Markdown: extract its resources, then
    convert its content with them. *)
Definition note_markdown (note_elem : ET.element) (attachments_dir : str)
           (note_idx : N) : io str :=
  let content_html :=
    match ET.find "content" note_elem with
    | Some content_elem => ET.text content_elem
    | None => Some []
    end in
  resources ←
    extract_resources (ET.findall "resource" note_elem)
      attachments_dir note_idx;
  lift (_html_to_markdown_with_images content_html resources).

End EnhancedNoteExporter.

(* ===================================================================== *)
(** ** [json.dump] with [indent=2, ensure_ascii=False] *)
(* ===================================================================== *)

Module Json.

#[local] Unset Elimination Schemes.
Inductive json : Type :=
| JNull
| JBool (b : bool)
| JInt (n : N)
| JStr (s : str)
| JArr (l : list json)
| JObj (l : list (string * json)).    (* keys in insertion order *)
#[local] Set Elimination Schemes.

Definition hex4 (c : N) : str :=
  List.map (fun k => Md5.hexchar (N.land (N.shiftr c k) 15)) [12; 8; 4; 0].

Definition escape_char (c : N) : str :=
  if c =? 34 then lit "\" ++ [DQUOTE]
  else if c =? 92 then [BSLASH; BSLASH]
  else if c =? 10 then lit "\n"
  else if c =? 13 then lit "\r"
  else if c =? 9 then lit "\t"
  else if c =? 8 then lit "\b"
  else if c =? 12 then lit "\f"
  else if c <? 32 then lit "\u" ++ hex4 c
  else [c].

Definition quote (s : str) : str :=
  [DQUOTE] ++ flat_map escape_char s ++ [DQUOTE].

Definition indent (n : nat) : str := repeat SP n.

Fixpoint dumps (ind : nat) (j : json) {struct j} : str :=
  match j with
  | JNull => lit "null"
  | JBool true => lit "true"
  | JBool false => lit "false"
  | JInt n => str_of_N n
  | JStr s => quote s
  | JArr [] => lit "[]"
  | JArr l =>
      lit "[" ++ [NL]
      ++ (fix items (l : list json) : str :=
            match l with
            | [] => []
            | [x] => indent (ind + 2) ++ dumps (ind + 2) x ++ [NL]
            | x :: l' =>
                indent (ind + 2) ++ dumps (ind + 2) x ++ lit "," ++ [NL]
                ++ items l'
            end) l
      ++ indent ind ++ lit "]"
  | JObj [] => lit "{}"
  | JObj l =>
      lit "{" ++ [NL]
      ++ (fix items (l : list (string * json)) : str :=
            match l with
            | [] => []
            | [(k, x)] =>
                indent (ind + 2) ++ quote (lit k) ++ lit ": "
                ++ dumps (ind + 2) x ++ [NL]
            | (k, x) :: l' =>
                indent (ind + 2) ++ quote (lit k) ++ lit ": "
                ++ dumps (ind + 2) x ++ lit "," ++ [NL] ++ items l'
            end) l
      ++ indent ind ++ lit "}"
  end.

(** The JSON form of a value; dictionaries, whose insertion order the
    finite maps do not keep, are not serialised by the sources. *)
Fixpoint of_value (v : value) : result json :=
  match v with
  | VNone => Ok JNull
  | VStr s => Ok (JStr s)
  | VInt n => Ok (JInt n)
  | VBool b => Ok (JBool b)
  | VList l =>
      items ← (fix go (l : list value) : result (list json) :=
                 match l with
                 | [] => Ok []
                 | x :: l' => j ← of_value x; js ← go l'; Ok (j :: js)
                 end) l;
      Ok (JArr items)
  | _ => Raise NotModelled
  end.

End Json.

(* ===================================================================== *)
(** ** [enex_to_individual_notes.py]: class [IndividualNoteExporter] *)
(* ===================================================================== *)

Module IndividualNoteExporter.

(** The character class of the unsafe characters: less-than,
    greater-than, colon, double quote, slash, backslash, bar, question
    mark and star. *)
Definition unsafe_chars : str := lit "<>:" ++ [DQUOTE] ++ lit "/\|?*".
Definition re_unsafe : re := Cls (oneof unsafe_chars).
(** [\s+] *)
Definition re_spaces : re := plus isspace.

(** [sanitize_filename]; [re.sub] raises [TypeError] on a title that is
    not a string. *)
Definition sanitize_filename (title : value) (max_length : nat)
  : result str :=
  title ← as_str title;
  let safe_title := sub re_unsafe (lit "_") title in
  let safe_title := strip (sub re_spaces (lit " ") safe_title) in
  let safe_title :=
    if (max_length <? length safe_title)%nat
    then strip (take max_length safe_title)
    else safe_title in
  let safe_title :=
    match safe_title with
    | [] => lit "Untitled"
    | _ => safe_title
    end in
  Ok safe_title.

(** [filename = f"{i:04d}_{safe_title}.md"] *)
Definition note_filename (i : N) (title : value) : result str :=
  safe_title ← sanitize_filename title 100;
  Ok (fmt_04d i ++ lit "_" ++ safe_title ++ lit ".md").

(** [', '.join(note['tags'])] *)
Definition joined_tags (note : dict) : result str :=
  v ← getitem note "tags";
  l ← as_str_list v;
  Ok (join (lit ", ") l).

(** One line of the attachments list, for a resource with a file name. *)
Definition resource_line (resource : value) : result str :=
  match resource with
  | VDict resource =>
      if contains resource "filename" then
        name ← (v ← getitem resource "filename"; format_value v);
        mime ← (if contains resource "mime"
                then (m ← (v ← getitem resource "mime"; format_value v);
                      Ok (lit " (" ++ m ++ lit ")"))
                else Ok []);
        size ← (if contains resource "size"
                then (v ← getitem resource "size";
                      match v with
                      | VInt n =>
                          Ok (lit " - " ++ fmt_comma n ++ lit " bytes")
                      | VBool b =>
                          Ok (lit " - " ++ (if b then lit "1" else lit "0")
                              ++ lit " bytes")
                      | VStr _ => Raise ValueError
                      | _ => Raise TypeError
                      end)
                else Ok []);
        Ok (lit "- " ++ name ++ mime ++ size ++ [NL])
      else Ok []
  | _ => Raise NotModelled
  end.

(** The text written into the file of one note. *)
Definition note_text (title : str) (note : dict) : result str :=
  created ← (if contains note "created"
             then (c ← (v ← getitem note "created"; format_value v);
                   Ok (lit "**Created:** " ++ c ++ lit "  " ++ [NL]))
             else Ok []);
  modified ← (if contains note "modified"
              then (c ← (v ← getitem note "modified"; format_value v);
                    Ok (lit "**Modified:** " ++ c ++ lit "  " ++ [NL]))
              else Ok []);
  tags ← (if is_truthy (get note "tags")
          then (t ← joined_tags note;
                Ok (lit "**Tags:** " ++ t ++ lit "  " ++ [NL]))
          else Ok []);
  let content := get_default note "content_text" (VStr []) in
  content ←
    (if negb (is_truthy content) && contains note "content_html"
     then (html ← getitem note "content_html";
           match html with
           | VStr s => Ok (VStr (ENEXParser._html_to_text (Some s)))
           | _ => if is_truthy html then Raise TypeError else Ok (VStr [])
           end)
     else Ok content);
  content ← as_str content;
  resources ←
    (if is_truthy (get note "resources")
     then (v ← getitem note "resources";
           match v with
           | VList l =>
               lines ← rmap resource_line l;
               Ok ([NL; NL] ++ lit "---" ++ [NL; NL]
                   ++ lit "## Attachments" ++ [NL; NL] ++ concat lines)
           | _ => Raise NotModelled
           end)
     else Ok []);
  Ok (lit "# " ++ title ++ [NL; NL]
      ++ created ++ modified ++ tags
      ++ [NL] ++ lit "---" ++ [NL; NL]
      ++ content ++ resources).

(** The body of the loop of [export_notes_individually] for the note
    number [i]: write its file and give back its line of the index. *)
Definition export_note (output_dir : str) (i : N) (note : dict)
  : io str :=
  let title := get_default note "title" (VStr (lit "Untitled")) in
  filename ← lift (note_filename i title);
  title ← lift (as_str title);
  let file_path := path_join output_dir filename in
  _ ← write_block file_path (note_text title note);
  tags ← lift (if is_truthy (get note "tags")
               then (t ← joined_tags note;
                     Ok (lit " - *Tags: " ++ t ++ lit "*"))
               else Ok []);
  mret (str_of_N i ++ lit ". [" ++ title ++ lit "](" ++ filename ++ lit ")"
        ++ tags ++ [NL]).

(** The loop over [enumerate(notes, 1)]. *)
Fixpoint export_notes (output_dir : str) (l : list (N * dict))
  : io (list str) :=
  match l with
  | [] => mret []
  | (i, note) :: l' =>
      line ← export_note output_dir i note;
      lines ← export_notes output_dir l';
      mret (line :: lines)
  end.

(** One entry of [notes_summary]. *)
Definition summary (i : N) (note : dict) : result Json.json :=
  title ← Json.of_value (get_default note "title" (VStr (lit "Untitled")));
  created ← Json.of_value (get_default note "created" (VStr []));
  modified ← Json.of_value (get_default note "modified" (VStr []));
  tags ← Json.of_value (get_default note "tags" (VList []));
  Ok (Json.JObj
        [ ("index", Json.JInt i); ("title", title); ("created", created);
          ("modified", modified); ("tags", tags);
          ("has_attachments",
            Json.JBool (is_truthy (get note "resources"))) ]).

(** [export_notes_individually], from the parsed root element.  The
    stem of the input path, the time stamp of the directory name and
    the two readings of the clock are parameters. *)
Definition export_notes_individually (output_base_dir : str)
           (root : ET.element) (notebook_name timestamp : str)
           (now_index now_metadata : str) : io str :=
  notes ← lift (ENEXParser.parse_enex_file root);
  let output_dir :=
    path_join output_base_dir (notebook_name ++ lit "_" ++ timestamp) in
  _ ← mkdir output_dir;
  let count := str_of_N (N.of_nat (length notes)) in
  lines ← export_notes output_dir (enumerate 1 notes);
  let index_content :=
    lit "# " ++ notebook_name ++ [NL; NL]
    ++ lit "Exported: " ++ now_index ++ [NL]
    ++ lit "Total notes: " ++ count ++ [NL; NL]
    ++ lit "## Notes Index" ++ [NL; NL]
    ++ concat lines in
  let index_path := path_join output_dir (lit "README.md") in
  _ ← write index_path (Text index_content);
  let metadata :=
    summaries ← rmap (fun '(i, note) => summary i note)
                     (enumerate 1 notes);
    Ok (Json.JObj
          [ ("notebook_name", Json.JStr notebook_name);
            ("export_date", Json.JStr now_metadata);
            ("note_count", Json.JInt (N.of_nat (length notes)));
            ("output_directory", Json.JStr output_dir);
            ("notes_summary", Json.JArr summaries) ]) in
  let metadata_path := path_join output_dir (lit "metadata.json") in
  _ ← write_block metadata_path (Json.dumps 0 <$> metadata);
  mret output_dir.

End IndividualNoteExporter.

(* ===================================================================== *)
(** ** Vocabulary of the specification *)
(* ===================================================================== *)

(** The decoded bytes of a resource with valid base64 data: a [<data>]
    element with text, declared as base64, whose text decodes. *)
Definition payload (resource_elem : ET.element) : option (list N) :=
  match ET.find "data" resource_elem with
  | Some data_elem =>
      match ET.text data_elem with
      | Some (c :: t) =>
          if str_eqb (default [] (ET.get "encoding" data_elem)) (lit "base64")
          then Base64.b64decode (c :: t)
          else None
      | _ => None
      end
  | None => None
  end.

(** The MIME type of a resource as the extractors read it. *)
Definition mime_of (resource_elem : ET.element) : value :=
  match ET.find "mime" resource_elem with
  | Some mime_elem => of_text (ET.text mime_elem)
  | None => VStr (lit "application/octet-stream")
  end.

(** The content hash: the first eight hexadecimal characters of the MD5
    digest. *)
Definition content_hash (bytes : list N) : str :=
  take 8 (Md5.hexdigest bytes).

(** The resolved file name of a resource that declares a file name, in
    the words of the specification: newlines and carriage returns
    removed, surrounding whitespace stripped; a cleaned name of more than
    50 characters has its stem (the text before the last dot) cut to 40
    characters and keeps its extension, or is cut to 50 characters when
    it has no dot; the content hash and an underscore come first. *)
Definition spec_resolved_filename (hash declared : str) : str :=
  let cleaned := strip (List.filter (fun c => negb ((c =? NL) || (c =? CR)))
                                    declared) in
  let shortened :=
    if (length cleaned <=? 50)%nat then cleaned
    else match rsplit1 46 cleaned with
         | Some (stem, ext) => take 40 stem ++ lit "." ++ ext
         | None => take 50 cleaned
         end in
  hash ++ lit "_" ++ shortened.

(** The file a resource is written to. *)
Definition attachment_path (attachments_dir : str)
           (resource_elem : ET.element) (bytes : list N) : str :=
  path_join attachments_dir
    (AttachmentExtractor.resolve_filename (content_hash bytes)
       (mime_of resource_elem)
       (AttachmentExtractor.declared_filename resource_elem)).

(** A resource the extraction has to skip: no [<data>] element, no text
    in it, an encoding other than base64, or a text that does not
    decode. *)
Definition skipped (resource_elem : ET.element) : Prop :=
  match ET.find "data" resource_elem with
  | None => True
  | Some data_elem =>
      truthy (ET.text data_elem) = false
      \/ default [] (ET.get "encoding" data_elem) <> lit "base64"
      \/ exists t, ET.text data_elem = Some t /\ Base64.b64decode t = None
  end.

(** A tag at the start of a text, as [<[^>]+>] sees it: a less-than sign,
    a character other than the greater-than sign, and a greater-than sign
    somewhere after. *)
Definition tag_at (s : str) : bool :=
  match s with
  | a :: c :: rest => (a =? 60) && negb (c =? 62) && existsb (N.eqb 62) rest
  | _ => false
  end.

(** No tag starts anywhere in the text. *)
Fixpoint tagfree (s : str) : bool :=
  match s with
  | [] => true
  | _ :: s' => negb (tag_at s) && tagfree s'
  end.

(** The text contains something that reads as a tag: a less-than sign, a
    non-empty run without greater-than sign, and a greater-than sign. *)
Definition contains_tag (s : str) : Prop :=
  exists pre t post,
    s = pre ++ [60] ++ t ++ [62] ++ post
    /\ t <> [] /\ Forall (fun c => c <> 62) t.

(** The text [_html_to_text] hands to [html.unescape]: the CDATA markers,
    the note wrappers and the media placeholders are already rewritten. *)
Definition before_unescape (body : str) : str :=
  sub ENEXParser.re_en_media (lit "[Attachment]")
    (sub ENEXParser.re_en_note_close []
       (sub ENEXParser.re_en_note_open []
          (sub_fn ENEXParser.re_cdata (fun _ g => group 1 g) body))).

(** A character a file name must not contain. *)
Definition unsafe (c : N) : bool :=
  oneof IndividualNoteExporter.unsafe_chars c.

(** Whitespace runs are collapsed: a whitespace character is a space and
    no whitespace follows it. *)
Fixpoint spaced (s : str) : bool :=
  match s with
  | [] => true
  | c :: s' =>
      (negb (isspace c)
       || ((c =? SP) && match s' with
                        | [] => true
                        | d :: _ => negb (isspace d)
                        end))
      && spaced s'
  end.

(** No whitespace at either end. *)
Definition trimmed (s : str) : bool :=
  match s with [] => true | c :: _ => negb (isspace c) end
  && match rev s with [] => true | c :: _ => negb (isspace c) end.

(** The title after the replacement of the unsafe characters, the
    collapse of the whitespace runs and the trim, before truncation. *)
Definition cleaned_title (title : str) : str :=
  strip (sub IndividualNoteExporter.re_spaces (lit " ")
           (sub IndividualNoteExporter.re_unsafe (lit "_") title)).

Fixpoint pow10 (k : nat) : N :=
  match k with
  | O => 1
  | S k' => 10 * pow10 k'
  end.

(** [_parse_resource] can measure the resource: a base64 payload, if
    there is one, decodes. *)
Definition resource_decodes (resource_elem : ET.element) : bool :=
  match ET.find "data" resource_elem with
  | Some data_elem =>
      match ET.get "encoding" data_elem, ET.text data_elem with
      | Some encoding, Some (c :: t) =>
          if str_eqb encoding (lit "base64")
          then match Base64.b64decode (c :: t) with
               | Some _ => true
               | None => false
               end
          else true
      | _, _ => true
      end
  | None => true
  end.

(** A well-formed ENEX document: the XML has been parsed into [root], and
    the base64 payloads of its resources decode. *)
Definition well_formed (root : ET.element) : bool :=
  forallb (fun note_elem =>
             forallb resource_decodes (ET.findall "resource" note_elem))
          (ET.findall "note" root).

(** No four newlines in a row. *)
Fixpoint no_four_newlines (s : str) : bool :=
  match s with
  | [] => true
  | _ :: s' => (span (Re.chr NL) None s <? 4)%nat && no_four_newlines s'
  end.

(** A space or a tab. *)
Definition blank : N -> bool := oneof [SP; TAB].

(** No space or tab right before a newline. *)
Fixpoint no_trailing_blank (s : str) : bool :=
  match s with
  | c :: s' =>
      match s' with
      | d :: _ => negb (blank c && (d =? NL))
      | [] => true
      end && no_trailing_blank s'
  | [] => true
  end.

(** The value of the [hash] attribute of a media placeholder. *)
Definition media_hash (media_tag : str) : option str :=
  match search EnhancedNoteExporter.re_hash media_tag with
  | Some (_, g) => Some (group 1 g)
  | None => None
  end.

(** The resource a media placeholder refers to. *)
Definition matched_resource (resource_lookup : gmap str dict)
           (media_tag : str) : option dict :=
  h ← media_hash media_tag; resource_lookup !! h.

(** The three renderings of a media placeholder. *)
Definition marker : str := [NL; NL] ++ lit "[Attachment]" ++ [NL; NL].

Definition image_reference (alt_text path : str) : str :=
  [NL; NL] ++ lit "![" ++ alt_text ++ lit "](" ++ path ++ lit ")"
  ++ [NL; NL].

Definition paperclip_link (link_text path : str) : str :=
  [NL; NL] ++ lit "[" ++ [EnhancedNoteExporter.PAPERCLIP] ++ lit " "
  ++ link_text ++ lit "](" ++ path ++ lit ")" ++ [NL; NL].

(** Steps 1 to 4 of the conversion: CDATA markers, media placeholders,
    and the rewriting and removal of tags. *)
Definition tags_converted (html_content : str) (resources : list dict)
  : result str :=
  resource_lookup ← EnhancedNoteExporter.build_lookup resources ∅;
  text ← sub_fn_result ENEXParser.re_en_media
           (fun media_tag _ =>
              EnhancedNoteExporter.replace_media resource_lookup media_tag)
           (sub_fn ENEXParser.re_cdata (fun _ g => group 1 g) html_content);
  Ok (EnhancedNoteExporter.convert_tags text).

(** The conversion with its steps in the order the specification lists
    them: entity decoding (step 5) and then the whitespace clean-up
    (step 6: newline runs, blanks before newlines, trim). *)
Definition spec_order_markdown (html_content : str) (resources : list dict)
  : result str :=
  text ← tags_converted html_content resources;
  let text := Html.unescape text in
  let text := sub EnhancedNoteExporter.re_nl4 [NL; NL; NL] text in
  let text := sub EnhancedNoteExporter.re_trailing [NL] text in
  Ok (strip text).

Definition scalar (v : value) : bool :=
  match v with
  | VNone | VStr _ | VInt _ | VBool _ => true
  | _ => false
  end.

(** A resource descriptor of the shape [_extract_resource] builds: the
    keys the conversion reads are there and hold scalars. *)
Definition descriptor (r : dict) : bool :=
  scalar (get r "resource_hash")
  && contains r "is_image"
  && match r !! "relative_path" with
     | Some v => scalar v
     | None => false
     end
  && scalar (get_default r "original_filename" VNone).

(** A computation that leaves the refused paths as they are. *)
Definition keeps_denied {A} (c : io A) : Prop :=
  forall st, denied (snd (c st)) = denied st.

(** ** Sample documents *)

Module Sample.

Definition elem (t : string) (text : option str)
           (children : list ET.element) : ET.element :=
  ET.Element (lit t) ∅ text children.

(** [<data encoding=... hash=...>text</data>] *)
Definition data (encoding hash text : string) : ET.element :=
  ET.Element (lit "data")
    (<[lit "hash" := lit hash]> (<[lit "encoding" := lit encoding]> ∅))
    (Some (lit text)) [].

(** An image of the three bytes 1, 2, 3 without a declared file name. *)
Definition unnamed_png : ET.element :=
  elem "resource" None
    [data "base64" "abc123" "AQID"; elem "mime" (Some (lit "image/png")) []].

(** The same bytes under a declared file name. *)
Definition named_png : ET.element :=
  elem "resource" None
    [ data "base64" "abc123" "AQID";
      elem "mime" (Some (lit "image/png")) [];
      elem "resource-attributes" None
        [elem "file-name" (Some (lit " holiday photo.png")) []] ].

(** A resource of an unknown type. *)
Definition unknown_type : ET.element :=
  elem "resource" None
    [ data "base64" "ffff" "AQID";
      elem "mime" (Some (lit "application/x-thing")) [] ].

(** A resource with an unsupported encoding. *)
Definition plain_encoded : ET.element :=
  elem "resource" None
    [data "plain" "abc123" "AQID"; elem "mime" (Some (lit "image/png")) []].

(** A resource whose text is not valid base64. *)
Definition broken_payload : ET.element :=
  elem "resource" None
    [data "base64" "abc123" "A"; elem "mime" (Some (lit "image/png")) []].

(** An empty file system on which nothing is refused. *)
Definition empty_fs : fs := Fs ∅ ∅ (fun _ => false).

(** A file system that refuses one path. *)
Definition refusing (p : str) : fs := Fs ∅ ∅ (fun q => str_eqb p q).

(** A note with a title, a body and resources. *)
Definition note (title body : string) (resources : list ET.element)
  : ET.element :=
  elem "note" None
    ([ elem "title" (Some (lit title)) [];
       elem "content" (Some (lit body)) [];
       elem "created" (Some (lit "20240115T120000Z")) [];
       elem "tag" (Some (lit "travel")) [] ] ++ resources).

(** An export with two notes. *)
Definition two_notes : ET.element :=
  elem "en-export" None
    [ note "A/B: Test" "<en-note>Hello<br/>World</en-note>" [];
      note "Second" "<en-note><p>Text</p></en-note>" [named_png] ].

(** A note body that places the image between two words. *)
Definition body_with_image : str :=
  lit "<en-note>See <en-media hash=" ++ [DQUOTE] ++ lit "abc123"
  ++ [DQUOTE] ++ lit "/> here</en-note>".

(** A note holding the unnamed image and a body that refers to it. *)
Definition note_with_image : ET.element :=
  elem "note" None
    [ elem "title" (Some (lit "Picture")) [];
      elem "content" (Some body_with_image) [];
      unnamed_png ].

(** The descriptor the enhanced exporter builds for the unnamed image. *)
Definition png_descriptor : dict :=
  match EnhancedNoteExporter._extract_resource unnamed_png
          (lit "out/attachments") 1 empty_fs with
  | (Ok (Some info), _) => info
  | _ => ∅
  end.

(** The directory and the first note file of the sample export. *)
Definition export_dir : str := lit "exports/nb_20240101_120000".
Definition first_note_path : str :=
  path_join export_dir (lit "0001_A_B_ Test.md").
Definition second_note_path : str :=
  path_join export_dir (lit "0002_Second.md").

(** The individual export of the two sample notes on a file system. *)
Definition export_two_notes (st : fs) : result str * fs :=
  IndividualNoteExporter.export_notes_individually (lit "exports")
    two_notes (lit "nb") (lit "20240101_120000")
    (lit "2024-01-01T12:00:00") (lit "2024-01-01T12:00:01") st.

End Sample.

(* ===================================================================== *)
(** * More of the sources *)
(* ===================================================================== *)

(** The embedder of [final_image_embedder.py], the export of
    [enhanced_note_exporter.py] and the Markdown export of
    [enex_parser.py], followed by the vocabulary of the properties
    proved about them in the last part of the file. *)

(* ===================================================================== *)
(** ** More [str] methods *)
(* ===================================================================== *)

Module Text.

(** [s.split('\n')]: the lines of [s]; never an empty list. *)
Fixpoint split_lines (s : str) : list str :=
  match s with
  | [] => [[]]
  | c :: s' =>
      if c =? NL then [] :: split_lines s'
      else match split_lines s' with
           | l :: ls => (c :: l) :: ls
           | [] => [[c]]
           end
  end.

(** [p in s] for two texts. *)
Fixpoint contains (p s : str) : bool :=
  startswith p s
  || match s with
     | [] => false
     | _ :: s' => contains p s'
     end.

(** [s.endswith(p)] *)
Definition endswith (p s : str) : bool := startswith (rev p) (rev s).

(** The first code points of the blocks of ten decimal digits (Unicode
    category Nd, version 14, the one of Python 3.11): the characters
    [\d] matches in a [str] pattern and [int] reads. *)
Definition decimal_blocks : list N :=
  [ 48; 1632; 1776; 1984; 2406; 2534; 2662; 2790; 2918; 3046; 3174; 3302;
    3430; 3558; 3664; 3792; 3872; 4160; 4240; 6112; 6160; 6470; 6608;
    6784; 6800; 6992; 7088; 7232; 7248; 42528; 43216; 43264; 43472;
    43504; 43600; 44016; 65296; 66720; 68912; 69734; 69872; 69942; 70096;
    70384; 70736; 70864; 71248; 71360; 71472; 71904; 72016; 72784; 73040;
    73120; 92768; 92864; 93008; 120782; 120792; 120802; 120812; 120822;
    123200; 123632; 125264; 130032 ].

(** The value of a decimal digit, if [c] is one. *)
Definition digit_value (c : N) : option N :=
  match List.find (fun b => (b <=? c) && (c <? b + 10)) decimal_blocks with
  | Some b => Some (c - b)
  | None => None
  end.

(** The class [\d]. *)
Definition isdecimal (c : N) : bool :=
  match digit_value c with
  | Some _ => true
  | None => false
  end.

(** [int(s)] on a text of decimal digits. *)
Definition int_of (s : str) : N :=
  fold_left (fun acc c => 10 * acc + default 0 (digit_value c)) s 0.

(** ['emoji' in s.lower()].  [str.lower] maps only [E] to [e], [M] to
    [m], [O] to [o] and [J] to [j]; it maps [I] to [i] and U+0130 to
    [i] followed by U+0307, and no other character to a text that
    holds one of these five letters. *)
Definition lower_contains_emoji (s : str) : bool :=
  match search (cat [ Cls (oneof (lit "eE")); Cls (oneof (lit "mM"));
                      Cls (oneof (lit "oO")); Cls (oneof (lit "jJ"));
                      Cls (oneof (lit "iI" ++ [304])) ]) s with
  | Some _ => true
  | None => false
  end.

End Text.

(* ===================================================================== *)
(** ** [final_image_embedder.py]: class [FinalImageEmbedder] *)
(* ===================================================================== *)

Module FinalImageEmbedder.

(** The dictionary literal of [_get_extension_from_mime]. *)
Definition mime_to_ext : gmap str str :=
  list_to_map
    [ (lit "image/jpeg", lit ".jpg");
      (lit "image/png", lit ".png");
      (lit "image/gif", lit ".gif");
      (lit "image/svg+xml", lit ".svg");
      (lit "image/webp", lit ".webp") ].

(** [_get_extension_from_mime]: [mime_to_ext.get(mime_type, '.bin')];
    a list or a dictionary is no key. *)
Definition _get_extension_from_mime (mime_type : value) : result str :=
  match mime_type with
  | VStr s => Ok (default (lit ".bin") (mime_to_ext !! s))
  | VList _ | VDict _ | VAttrs _ => Raise TypeError
  | _ => Ok (lit ".bin")
  end.

(** [_analyze_resource]: the metadata of one [<resource>] element.  The
    hash is computed from any text of [<data>] that decodes, whatever
    its declared encoding. *)
Definition _analyze_resource (resource_elem : ET.element) : dict :=
  let mime_type :=
    match ET.find "mime" resource_elem with
    | Some mime_elem => of_text (ET.text mime_elem)
    | None => VStr []
    end in
  let filename := AttachmentExtractor.declared_filename resource_elem in
  let data_hash :=
    match ET.find "data" resource_elem with
    | Some data_elem =>
        match ET.text data_elem with
        | Some (c :: t) =>
            match Base64.b64decode (c :: t) with
            | Some attachment_data =>
                VStr (take 8 (Md5.hexdigest attachment_data))
            | None => VNone
            end
        | _ => VNone
        end
    | None => VNone
    end in
  <["is_image" := VBool match mime_type with
                        | VStr (c :: t) => startswith (lit "image/") (c :: t)
                        | _ => false
                        end]>
  (<["hash" := data_hash]>
  (<["filename" := of_text filename]>
  (<["mime_type" := mime_type]> (∅ : dict)))).

(** The line that replaces a line with a marker in
    [_smart_embed_images]: the file name is built again from the
    metadata of the resource. *)
Definition image_line (resource : dict) : result str :=
  declared ← getitem resource "filename";
  filename ←
    (if is_truthy declared then
       match declared with
       | VStr name =>
           let clean_filename :=
             strip (remove_char CR (remove_char NL name)) in
           let clean_filename :=
             if (50 <? length clean_filename)%nat then
               match rsplit1 46 clean_filename with
               | Some (stem, ext) => take 40 stem ++ lit "." ++ ext
               | None => take 50 clean_filename
               end
             else clean_filename in
           h ← (v ← getitem resource "hash"; format_value v);
           Ok (h ++ lit "_" ++ clean_filename)
       | _ => Raise AttributeError
       end
     else
       mime_type ← getitem resource "mime_type";
       ext ← _get_extension_from_mime mime_type;
       h ← (v ← getitem resource "hash"; format_value v);
       Ok (h ++ ext));
  let relative_path := lit "attachments/" ++ filename in
  let alt_text :=
    match declared with
    | VStr (c :: t) => c :: t
    | _ => lit "Image"
    end in
  let reference :=
    lit "![" ++ alt_text ++ lit "](" ++ relative_path ++ lit ")" in
  if Text.endswith (lit ".svg") filename
     && ((length alt_text <? 20)%nat
         || Text.contains (lit "1f") filename
         || Text.lower_contains_emoji filename)
  then Ok reference
  else Ok ([NL] ++ reference ++ [NL]).

(** The loop of [_smart_embed_images] over the lines; [image_resources]
    holds the images that are still to be placed. *)
Fixpoint embed_lines (lines : list str) (image_resources : list dict)
  : result (list str) :=
  match lines with
  | [] => Ok []
  | line :: lines' =>
      if Text.contains (lit "[Attachment]") line then
        match image_resources with
        | resource :: image_resources' =>
            new_line ← image_line resource;
            new_lines ← embed_lines lines' image_resources';
            Ok (new_line :: new_lines)
        | [] =>
            new_lines ← embed_lines lines' [];
            Ok (line :: new_lines)
        end
      else
        new_lines ← embed_lines lines' image_resources;
        Ok (line :: new_lines)
  end.

(** [[r for r in resources if r['is_image']]] *)
Fixpoint images (resources : list dict) : result (list dict) :=
  match resources with
  | [] => Ok []
  | r :: resources' =>
      is_image ← getitem r "is_image";
      rest ← images resources';
      Ok (if is_truthy is_image then r :: rest else rest)
  end.

(** [_smart_embed_images] *)
Definition _smart_embed_images (content : str) (resources : list dict)
  : result str :=
  image_resources ← images resources;
  match image_resources with
  | [] => Ok content
  | _ =>
      new_lines ← embed_lines (Text.split_lines content) image_resources;
      Ok (join [NL] new_lines)
  end.

(** The dictionary [note_resources] of [create_smart_embedded_version]:
    the metadata of the resources of each note, under the number of the
    note (the numbers of [enumerate] are distinct). *)
Definition note_resources (root : ET.element) : gmap N (list dict) :=
  list_to_map
    (List.map (fun '(note_idx, note_elem) =>
                 (note_idx,
                  List.filter (fun r => is_truthy (VDict r))
                    (List.map _analyze_resource
                       (ET.findall "resource" note_elem))))
              (enumerate 1 (ET.findall "note" root))).

(** The names [glob("[0-9]*.md")] selects. *)
Definition is_note_file (name : str) : bool :=
  match name with
  | c :: _ => range 48 57 c && Text.endswith (lit ".md") name
  | [] => false
  end.

(** The number in front of a note file name:
    [re.match(r'(\d+)_', name)] and [int] of its group. *)
Definition note_number (name : str) : option N :=
  match match_at (Seq (Grp 1 (plus Text.isdecimal)) (Lit (lit "_"))) name with
  | Some (_, g) => Some (Text.int_of (group 1 g))
  | None => None
  end.

(** The step of [create_smart_embedded_version] for one file of the
    notes directory: the new content of the file, or [None] for a name
    the loop passes over.  The listing of the directory and the copying
    and writing of the files are not modelled. *)
Definition embedded_content (root : ET.element) (name content : str)
  : option (result str) :=
  if is_note_file name then
    match note_number name with
    | None => None
    | Some note_idx =>
        Some (_smart_embed_images content
                (default [] (note_resources root !! note_idx)))
    end
  else None.

End FinalImageEmbedder.

(* ===================================================================== *)
(** ** [enhanced_note_exporter.py]: the export of the notes *)
(* ===================================================================== *)

Module EnhancedExport.

(** [sanitize_filename]: the copy of this class. *)
Definition sanitize_filename (title : value) (max_length : nat)
  : result str :=
  title ← as_str title;
  let safe_title :=
    sub (Cls (oneof (lit "<>:" ++ [DQUOTE] ++ lit "/\|?*"))) (lit "_")
        title in
  let safe_title := strip (sub (plus isspace) (lit " ") safe_title) in
  let safe_title :=
    if (max_length <? length safe_title)%nat
    then strip (take max_length safe_title)
    else safe_title in
  let safe_title :=
    match safe_title with
    | [] => lit "Untitled"
    | _ => safe_title
    end in
  Ok safe_title.

(** [_parse_date]: the copy of this class. *)
Definition _parse_date (date_str : option str) : option str :=
  match date_str with
  | None => None
  | Some s =>
      match Datetime.strptime_iso (take 15 s) with
      | Some iso => Some iso
      | None => Some s
      end
  end.

(** The framed picture and the variation selector of the index. *)
Definition PICTURE : str := [128444; 65039].   (* U+1F5BC U+FE0F *)

(** One line of the list of additional attachments. *)
Definition attachment_line (resource : dict) : result str :=
  name ← format_value
    (get_default resource "original_filename" (VStr (lit "Attachment")));
  path ← (v ← getitem resource "relative_path"; format_value v);
  mime ← (if contains resource "mime_type"
          then (m ← (v ← getitem resource "mime_type"; format_value v);
                Ok (lit " (" ++ m ++ lit ")"))
          else Ok []);
  size ← (if contains resource "size"
          then (v ← getitem resource "size";
                match v with
                | VInt n => Ok (lit " - " ++ fmt_comma n ++ lit " bytes")
                | VBool b =>
                    Ok (lit " - " ++ (if b then lit "1" else lit "0")
                        ++ lit " bytes")
                | VStr _ => Raise ValueError
                | _ => Raise TypeError
                end)
          else Ok []);
  Ok (lit "- [" ++ [EnhancedNoteExporter.PAPERCLIP] ++ lit " " ++ name ++ lit "](" ++ path
      ++ lit ")" ++ mime ++ size ++ [NL]).

(** [[r for r in resources if r['is_image']]] and its complement. *)
Fixpoint select_images (keep : bool) (resources : list dict)
  : result (list dict) :=
  match resources with
  | [] => Ok []
  | r :: resources' =>
      is_image ← getitem r "is_image";
      rest ← select_images keep resources';
      Ok (if Bool.eqb (is_truthy is_image) keep then r :: rest else rest)
  end.

(** The text written into the file of one note. *)
Definition note_text (title : str) (created modified : option str)
           (tags : list str) (content_markdown : str)
           (resources : list dict) : result str :=
  let created_line :=
    match created with
    | Some (c :: t) => lit "**Created:** " ++ (c :: t) ++ lit "  " ++ [NL]
    | _ => []
    end in
  let modified_line :=
    match modified with
    | Some (c :: t) => lit "**Modified:** " ++ (c :: t) ++ lit "  " ++ [NL]
    | _ => []
    end in
  let tags_line :=
    match tags with
    | [] => []
    | _ => lit "**Tags:** " ++ join (lit ", ") tags ++ lit "  " ++ [NL]
    end in
  non_image_resources ← select_images false resources;
  additional ←
    match non_image_resources with
    | [] => Ok []
    | _ =>
        lines ← rmap attachment_line non_image_resources;
        Ok ([NL; NL] ++ lit "---" ++ [NL; NL]
            ++ lit "## Additional Attachments" ++ [NL; NL] ++ concat lines)
    end;
  Ok (lit "# " ++ title ++ [NL; NL]
      ++ created_line ++ modified_line ++ tags_line
      ++ [NL] ++ lit "---" ++ [NL; NL]
      ++ content_markdown ++ additional).

(** The body of the loop of [export_notes_with_images] for the note
    number [note_idx]: extract its resources, write its file and give
    back its line of the index. *)
Definition export_note (output_dir attachments_dir : str) (note_idx : N)
           (note_elem : ET.element) : io str :=
  let title :=
    match ET.find "title" note_elem with
    | Some title_elem => of_text (ET.text title_elem)
    | None => VStr (lit "Untitled")
    end in
  let content_html :=
    match ET.find "content" note_elem with
    | Some content_elem => ET.text content_elem
    | None => Some []
    end in
  let created :=
    match ET.find "created" note_elem with
    | Some created_elem => _parse_date (ET.text created_elem)
    | None => Some []
    end in
  let modified :=
    match ET.find "updated" note_elem with
    | Some updated_elem => _parse_date (ET.text updated_elem)
    | None => Some []
    end in
  let tags :=
    flat_map (fun tag_elem =>
                match ET.text tag_elem with
                | Some (c :: t) => [c :: t]
                | _ => []
                end)
             (ET.findall "tag" note_elem) in
  resources ←
    EnhancedNoteExporter.extract_resources
      (ET.findall "resource" note_elem) attachments_dir note_idx;
  safe_title ← lift (sanitize_filename title 100);
  let filename := fmt_04d note_idx ++ lit "_" ++ safe_title ++ lit ".md" in
  let file_path := path_join output_dir filename in
  content_markdown ←
    lift (EnhancedNoteExporter._html_to_markdown_with_images
            content_html resources);
  title ← lift (as_str title);
  _ ← write_block file_path
        (note_text title created modified tags content_markdown resources);
  images ← lift (select_images true resources);
  let tags_part :=
    match tags with
    | [] => []
    | _ => lit " - *Tags: " ++ join (lit ", ") tags ++ lit "*"
    end in
  let images_part :=
    match images with
    | [] => []
    | _ => lit " - " ++ PICTURE ++ lit " "
           ++ str_of_N (N.of_nat (length images)) ++ lit " image(s)"
    end in
  mret (str_of_N note_idx ++ lit ". [" ++ title ++ lit "](" ++ filename
        ++ lit ")" ++ tags_part ++ images_part ++ [NL]).

(** The loop over [enumerate(root.findall('note'), 1)]. *)
Fixpoint export_notes (output_dir attachments_dir : str)
         (l : list (N * ET.element)) : io (list str) :=
  match l with
  | [] => mret []
  | (note_idx, note_elem) :: l' =>
      line ← export_note output_dir attachments_dir note_idx note_elem;
      lines ← export_notes output_dir attachments_dir l';
      mret (line :: lines)
  end.

(** [export_notes_with_images], from the parsed root element.  The stem
    of the input path, the time stamp of the directory name and the
    reading of the clock are parameters. *)
Definition export_notes_with_images (output_base_dir : str)
           (root : ET.element) (notebook_name timestamp now : str)
  : io str :=
  let output_dir :=
    path_join output_base_dir
      (notebook_name ++ lit "_with_images_" ++ timestamp) in
  _ ← mkdir output_dir;
  let attachments_dir := path_join output_dir (lit "attachments") in
  _ ← mkdir attachments_dir;
  let notes := ET.findall "note" root in
  lines ← export_notes output_dir attachments_dir (enumerate 1 notes);
  let heading := lit "## Notes with Embedded Images" ++ [NL; NL] in
  let index_content :=
    lit "# " ++ notebook_name ++ [NL; NL]
    ++ lit "Exported: " ++ now ++ [NL]
    ++ heading ++ concat lines in
  let index_content :=
    sub (Lit heading)
        (lit "Total notes: " ++ str_of_N (N.of_nat (length notes))
         ++ [NL; NL] ++ heading)
        index_content in
  _ ← write (path_join output_dir (lit "README.md")) (Text index_content);
  mret output_dir.

End EnhancedExport.

(* ===================================================================== *)
(** ** [enex_parser.py]: the export to one Markdown file *)
(* ===================================================================== *)

Module ENEXParserExport.

(** The argument of [', '.join]: a list of texts, or a text, which is
    joined character by character. *)
Definition joinable (v : value) : result (list str) :=
  match v with
  | VList l => rmap as_str l
  | VStr s => Ok (List.map (fun c => [c]) s)
  | VDict _ | VAttrs _ => Raise NotModelled
  | _ => Raise TypeError
  end.

(** The text [export_to_markdown] writes for the note number [i]. *)
Definition section (i : N) (note : dict) : result str :=
  title ← (v ← getitem note "title"; format_value v);
  created ← (if contains note "created"
             then (c ← (v ← getitem note "created"; format_value v);
                   Ok (lit "**Created:** " ++ c ++ [NL]))
             else Ok []);
  modified ← (if contains note "modified"
              then (c ← (v ← getitem note "modified"; format_value v);
                    Ok (lit "**Modified:** " ++ c ++ [NL]))
              else Ok []);
  tags ← (if is_truthy (get note "tags")
          then (l ← (v ← getitem note "tags"; joinable v);
                Ok (lit "**Tags:** " ++ join (lit ", ") l ++ [NL]))
          else Ok []);
  content ← as_str (get_default note "content_text" (VStr []));
  Ok (lit "## " ++ str_of_N i ++ lit ". " ++ title ++ [NL; NL]
      ++ created ++ modified ++ tags ++ [NL]
      ++ content ++ [NL; NL] ++ lit "---" ++ [NL; NL]).

(** [export_to_markdown]; the reading of the clock is a parameter. *)
Definition export_to_markdown (notes : list dict) (output_path : str)
           (now : str) : io unit :=
  write_block output_path
    (sections ← rmap (fun '(i, note) => section i note)
                     (enumerate 1 notes);
     Ok (lit "# Evernote Export" ++ [NL; NL]
         ++ lit "Exported: " ++ now ++ [NL; NL]
         ++ lit "Total notes: " ++ str_of_N (N.of_nat (length notes))
         ++ [NL; NL]
         ++ lit "---" ++ [NL; NL]
         ++ concat sections)).

End ENEXParserExport.

(* ===================================================================== *)
(** ** Vocabulary of the further properties *)
(* ===================================================================== *)

(** A lower-case hexadecimal digit. *)
Definition hex_lower (c : N) : bool := range 48 57 c || range 97 102 c.

(** No three newlines in a row. *)
Fixpoint no_three_newlines (s : str) : bool :=
  match s with
  | [] => true
  | _ :: s' => (span (Re.chr NL) None s <? 3)%nat && no_three_newlines s'
  end.

(** The [size] the parser and the extractors record for decoded bytes. *)
Definition size_of (bytes : list N) : value :=
  VInt (N.of_nat (length bytes)).

(** The keys the descriptors of both extractors hold. *)
Definition shared_keys : list string :=
  ["hash"; "filename"; "original_filename"; "mime_type"; "size";
   "file_path"; "note_index"].

(** The declared hash of a resource: the attribute [hash] of [<data>]. *)
Definition declared_hash (resource_elem : ET.element) : value :=
  match ET.find "data" resource_elem with
  | Some data_elem => of_text (ET.get "hash" data_elem)
  | None => VNone
  end.

(** The resources of a note that carry a valid base64 payload. *)
Definition valid_resources (note_elem : ET.element) : list ET.element :=
  List.filter (fun r => match payload r with Some _ => true | None => false end)
              (ET.findall "resource" note_elem).

(** Note number and number of attachments of the entries of
    [note_attachments]. *)
Definition listed (entries : list AttachmentExtractor.note_entry)
  : list (N * nat) :=
  List.map (fun en => (AttachmentExtractor.entry_idx en,
                       length (AttachmentExtractor.entry_attachments en)))
           entries.

(** The notes with at least one valid resource, with the number of
    their valid resources. *)
Definition expected_listing (l : list (N * ET.element)) : list (N * nat) :=
  flat_map (fun '(i, e) =>
              match length (valid_resources e) with
              | O => []
              | n => [(i, n)]
              end) l.

(** A descriptor that can be looked up by its hash and whose file is on
    disk. *)
Definition recorded (attachment_map : gmap str dict) (st : fs)
           (a : dict) : Prop :=
  exists h p,
    a !! "hash" = Some (VStr h) /\ is_Some (attachment_map !! h)
    /\ a !! "file_path" = Some (VStr p) /\ is_Some (files st !! p).

(** A file system that refuses nothing. *)
Definition permissive (st : fs) : Prop := forall p, denied st p = false.

(** The shape of the descriptors the attachment extractor builds, as far
    as the index reads them. *)
Definition indexable (a : dict) : bool :=
  match a !! "filename", a !! "mime_type", a !! "size",
        a !! "original_filename", a !! "hash" with
  | Some (VStr _), Some mime, Some (VInt _), Some original, Some (VStr _) =>
      scalar mime && scalar original
  | _, _, _, _, _ => false
  end.

(** The pattern finds nothing in the text: it matches at no position. *)
Definition unmatched (r : re) (s : str) : Prop :=
  forall k, match_at r (drop k s) = None.

(** The text holds neither a less-than sign nor an ampersand. *)
Definition markup_free (s : str) : bool :=
  forallb (fun c => negb (c =? 60) && negb (c =? 38)) s.

(** [int(s)] on a text of decimal digits. *)
Definition decimal (s : str) : N :=
  fold_left (fun acc c => 10 * acc + (c - 48)) s 0.

(** A decimal digit. *)
Definition is_digit (c : N) : bool := range 48 57 c.

(** The Markdown image reference [![alt](attachments/name)]. *)
Definition reference_to (alt_text name : str) : str :=
  lit "![" ++ alt_text ++ lit "](" ++ (lit "attachments/" ++ name) ++ lit ")".

(** A text or [None]. *)
Definition text_or_none (v : value) : bool :=
  match v with
  | VNone | VStr _ => true
  | _ => false
  end.

(** A key that is absent or holds a value with property [p]. *)
Definition absent_or (p : value -> bool) (d : dict) (k : string) : bool :=
  match d !! k with
  | Some v => p v
  | None => true
  end.

(** The shape of the records [_parse_resource] returns. *)
Definition parsed_resource (v : value) : bool :=
  match v with
  | VDict d =>
      absent_or text_or_none d "filename"
      && absent_or text_or_none d "mime"
      && absent_or (fun v => match v with VInt _ => true | _ => false end)
                   d "size"
  | _ => false
  end.

(** The shape of the records [_parse_note] returns, apart from the
    title. *)
Definition parsed_note (note : dict) : bool :=
  absent_or text_or_none note "created"
  && absent_or text_or_none note "modified"
  && match note !! "tags" with
     | Some (VList l) =>
         forallb (fun v => match v with VStr _ => true | _ => false end) l
     | _ => false
     end
  && match note !! "content_text" with
     | Some (VStr _) => true
     | _ => false
     end
  && absent_or text_or_none note "content_html"
  && match note !! "resources" with
     | Some (VList l) => forallb parsed_resource l
     | _ => false
     end.

(** The title of a note is a text: the note has no [<title>] element,
    or one with text. *)
Definition titled (note_elem : ET.element) : bool :=
  match ET.find "title" note_elem with
  | Some title_elem =>
      match ET.text title_elem with
      | Some _ => true
      | None => false
      end
  | None => true
  end.

(** A parsed note with a text as title. *)
Definition exportable (note : dict) : Prop :=
  parsed_note note = true /\ exists title, note !! "title" = Some (VStr title).

(** A computation that leaves every file outside of [inside] as it is,
    removes no file, and creates no directory outside of [made]. *)
Definition confined (inside : str -> bool) (made : gset str) {A}
           (c : io A) : Prop :=
  forall st,
    (forall p, inside p = false ->
               files (snd (c st)) !! p = files st !! p)
    /\ (forall p, is_Some (files st !! p) ->
                  is_Some (files (snd (c st)) !! p))
    /\ dirs (snd (c st)) ⊆ made ∪ dirs st.

(** The paths below a directory. *)
Definition below (dir : str) (p : str) : bool :=
  startswith (dir ++ lit "/") p.

(** A resource the enhanced exporter can describe: it is passed over,
    or its MIME type is a text. *)
Definition typed (resource_elem : ET.element) : bool :=
  match payload resource_elem, mime_of resource_elem with
  | Some _, VStr _ => true
  | Some _, _ => false
  | None, _ => true
  end.

(** The shape of the descriptors the enhanced exporter builds, as far
    as the note file reads them. *)
Definition listable (r : dict) : bool :=
  descriptor r
  && match r !! "is_image", r !! "relative_path", r !! "mime_type",
           r !! "size" with
     | Some (VBool _), Some (VStr _), Some mime, Some (VInt _) => scalar mime
     | _, _, _, _ => false
     end.

(** The title of a note as the exporters read it. *)
Definition title_of (note_elem : ET.element) : value :=
  match ET.find "title" note_elem with
  | Some title_elem => of_text (ET.text title_elem)
  | None => VStr (lit "Untitled")
  end.

(** Every note has a text as title and resources the enhanced exporter
    can describe. *)
Definition describable (note_elem : ET.element) : bool :=
  titled note_elem && forallb typed (ET.findall "resource" note_elem).

(** The value a lookup of [_parse_attributes] gives for a tag: the text
    of the last child with this tag and a text that is not empty. *)
Definition last_text (tag : str) (children : list ET.element)
  : option str :=
  match List.find (fun c => str_eqb (ET.tag c) tag && truthy (ET.text c))
                  (rev children) with
  | Some c => ET.text c
  | None => None
  end.

(* ===================================================================== *)
(** ** More sample data *)
(* ===================================================================== *)

Module MoreSamples.

(** The named image again, its base64 text broken by a blank. *)
Definition named_png_copy : ET.element :=
  Sample.elem "resource" None
    [ Sample.data "base64" "other" "AQ ID";
      Sample.elem "mime" (Some (lit "image/png")) [];
      Sample.elem "resource-attributes" None
        [Sample.elem "file-name" (Some (lit " holiday photo.png")) []] ].

(** An export whose second note holds a payload that does not decode. *)
Definition broken_export : ET.element :=
  Sample.elem "en-export" None
    [ Sample.note "First" "<en-note>Hello</en-note>" [];
      Sample.note "Second" "<en-note>World</en-note>"
        [Sample.named_png; Sample.broken_payload] ].

(** An export whose second note has a [<title>] element without text. *)
Definition untitled_export : ET.element :=
  Sample.elem "en-export" None
    [ Sample.note "First" "<en-note>Hello</en-note>" [];
      Sample.elem "note" None
        [ Sample.elem "title" None [];
          Sample.elem "content" (Some (lit "<en-note>World</en-note>")) [] ] ].

End MoreSamples.

(* ===================================================================== *)
(** * Properties *)
(* ===================================================================== *)

(** ** Strings *)

Lemma str_eqb_eq (a b : str) : str_eqb a b = true <-> a = b.
Proof.
  revert b. induction a as [|x a IH]; intros [|y b]; simpl; split;
    try done.
  - intros [Hxy Hab]%andb_prop. apply N.eqb_eq in Hxy.
    apply IH in Hab. by subst.
  - intros [= -> ->]. rewrite N.eqb_refl. by apply IH.
Qed.

Lemma str_eqb_neq (a b : str) : str_eqb a b = false <-> a <> b.
Proof.
  rewrite <- str_eqb_eq. destruct (str_eqb a b); split; congruence.
Qed.

Lemma rsplit1_join (c : N) (s a b : str) :
  rsplit1 c s = Some (a, b) -> a ++ [c] ++ b = s.
Proof.
  revert a b. induction s as [|x s IH]; intros a b; simpl; [done|].
  destruct (rsplit1 c s) as [[a' b']|].
  - intros [= <- <-]. simpl. f_equal. by apply IH.
  - destruct (N.eqb_spec x c) as [->|]; [|done].
    by intros [= <- <-].
Qed.

Lemma remove_both (s : str) :
  remove_char CR (remove_char NL s)
  = List.filter (fun c => negb ((c =? NL) || (c =? CR))) s.
Proof.
  unfold remove_char. induction s as [|x s IH]; simpl; [done|].
  destruct (x =? NL) eqn:E1; simpl; [done|].
  destruct (x =? CR) eqn:E2; simpl; by rewrite IH.
Qed.

(** ** The attachment extractor *)

Lemma prefix_hash (h s : str) :
  match rsplit1 46 s with
  | Some (stem, ext) => h ++ lit "_" ++ stem ++ lit "." ++ ext
  | None => h ++ lit "_" ++ s
  end = h ++ lit "_" ++ s.
Proof.
  destruct (rsplit1 46 s) as [[a b]|] eqn:E; [|done].
  apply rsplit1_join in E. by rewrite <- E.
Qed.

Lemma clean_and_prefix_spec (h declared : str) :
  AttachmentExtractor.clean_and_prefix h declared
  = spec_resolved_filename h declared.
Proof.
  unfold AttachmentExtractor.clean_and_prefix, spec_resolved_filename.
  rewrite prefix_hash, remove_both.
  set (cleaned := strip _).
  destruct (Nat.ltb_spec 50 (length cleaned)) as [Hlt|Hge].
  - destruct (Nat.leb_spec (length cleaned) 50); [lia|done].
  - destruct (Nat.leb_spec (length cleaned) 50); [done|lia].
Qed.

(** What [_extract_resource] does on a resource with a valid payload whose
    target path is writable. *)
Lemma extract_valid (r : ET.element) (dir : str) (idx : N) (st : fs)
      (bytes : list N) :
  payload r = Some bytes ->
  denied st (attachment_path dir r bytes) = false ->
  exists info,
    AttachmentExtractor._extract_resource r dir idx st
    = (Ok (Some info),
       Fs (<[attachment_path dir r bytes := Bytes bytes]> (files st))
          (dirs st) (denied st))
    /\ info !! "hash" = Some (VStr (content_hash bytes))
    /\ info !! "filename"
       = Some (VStr (AttachmentExtractor.resolve_filename
                       (content_hash bytes) (mime_of r)
                       (AttachmentExtractor.declared_filename r)))
    /\ info !! "original_filename"
       = Some (of_text (AttachmentExtractor.declared_filename r)).
Proof.
  unfold payload, AttachmentExtractor._extract_resource, attachment_path.
  intros Hp Hd.
  destruct (ET.find "data" r) as [d|]; [|done].
  destruct (ET.text d) as [[|c t]|]; try done.
  destruct (str_eqb _ _); [|done]. simpl.
  rewrite Hp. fold (content_hash bytes). fold (mime_of r).
  unfold mbind, io_bind, write. rewrite Hd.
  eexists. split; [reflexivity|]. by simplify_map_eq.
Qed.

(** A valid payload whose target path is refused: the exception leaves
    [_extract_resource]. *)
Lemma extract_denied (r : ET.element) (dir : str) (idx : N) (st : fs)
      (bytes : list N) :
  payload r = Some bytes ->
  denied st (attachment_path dir r bytes) = true ->
  AttachmentExtractor._extract_resource r dir idx st = (Raise OSError, st).
Proof.
  unfold payload, AttachmentExtractor._extract_resource, attachment_path.
  intros Hp Hd.
  destruct (ET.find "data" r) as [d|]; [|done].
  destruct (ET.text d) as [[|c t]|]; try done.
  destruct (str_eqb _ _); [|done]. simpl.
  rewrite Hp. fold (content_hash bytes). fold (mime_of r).
  unfold mbind, io_bind, write. by rewrite Hd.
Qed.

(** A skipped resource: no result, no exception, no change of the file
    system. *)
Lemma extract_skipped (r : ET.element) (dir : str) (idx : N) (st : fs) :
  skipped r ->
  AttachmentExtractor._extract_resource r dir idx st = (Ok None, st).
Proof.
  unfold skipped, AttachmentExtractor._extract_resource.
  destruct (ET.find "data" r) as [d|]; [|done].
  destruct (ET.text d) as [[|c t]|]; try done.
  intros [H|[H|(t' & [= <-] & H)]]; [done| |].
  - apply str_eqb_neq in H. by rewrite H.
  - destruct (str_eqb _ _); [|done]. simpl. by rewrite H.
Qed.

(** Nothing else can happen: a resource is skipped or has a payload. *)
Lemma skipped_or_payload (r : ET.element) :
  skipped r \/ exists bytes, payload r = Some bytes.
Proof.
  unfold skipped, payload.
  destruct (ET.find "data" r) as [d|]; [|by left].
  destruct (ET.text d) as [[|c t]|]; try (left; by left).
  destruct (str_eqb _ _) eqn:E.
  - destruct (Base64.b64decode (c :: t)) eqn:E'; [right; eauto|].
    left. right. right. eauto.
  - left. right. left. by apply str_eqb_neq.
Qed.

(** A payload that is not base64 text makes the resource a skipped one. *)
Lemma broken_payload_skipped :
  skipped Sample.broken_payload
  /\ AttachmentExtractor._extract_resource Sample.broken_payload
       (lit "out/attachments") 1 Sample.empty_fs
     = (Ok None, Sample.empty_fs).
Proof.
  assert (Hs : skipped Sample.broken_payload).
  { right. right. vm_compute. eauto. }
  split; [exact Hs|]. by apply extract_skipped.
Qed.

(** ** Claims on the attachment extractor *)

(** C2. For every resource with valid base64 data, the content hash that
    attachment extraction assigns is the first eight hexadecimal
    characters of the MD5 digest of the decoded bytes; hence any other
    resource with the same decoded bytes, whatever its declared file
    name, receives the same content hash. *)
Theorem C2_content_hash (r : ET.element) (dir : str) (idx : N) (st : fs)
        (bytes : list N)
        (Hvalid : payload r = Some bytes)
        (Hwritable : denied st (attachment_path dir r bytes) = false) :
  exists info st',
    AttachmentExtractor._extract_resource r dir idx st = (Ok (Some info), st')
    /\ info !! "hash" = Some (VStr (take 8 (Md5.hexdigest bytes)))
    /\ forall r2 dir2 idx2 st2 info2 st2',
         payload r2 = Some bytes ->
         AttachmentExtractor._extract_resource r2 dir2 idx2 st2
         = (Ok (Some info2), st2') ->
         info2 !! "hash" = info !! "hash".
Proof.
  destruct (extract_valid r dir idx st bytes Hvalid Hwritable)
    as (info & Hrun & Hhash & _).
  exists info. eexists. split; [exact Hrun|]. split; [exact Hhash|].
  intros r2 dir2 idx2 st2 info2 st2' Hp2 Hrun2. rewrite Hhash.
  destruct (denied st2 (attachment_path dir2 r2 bytes)) eqn:Hd.
  - rewrite (extract_denied _ _ _ _ _ Hp2 Hd) in Hrun2. discriminate.
  - destruct (extract_valid r2 dir2 idx2 st2 bytes Hp2 Hd)
      as (info' & Hrun' & Hhash' & _).
    rewrite Hrun' in Hrun2. by injection Hrun2 as <- _.
Qed.

Lemma C2_content_hash_witness :
  payload Sample.named_png = Some [1; 2; 3]
  /\ denied Sample.empty_fs
       (attachment_path (lit "out/attachments") Sample.named_png [1; 2; 3])
     = false
  /\ exists info st',
       AttachmentExtractor._extract_resource Sample.named_png
         (lit "out/attachments") 1 Sample.empty_fs = (Ok (Some info), st')
       /\ info !! "hash" = Some (VStr (take 8 (Md5.hexdigest [1; 2; 3])))
       /\ forall r2 dir2 idx2 st2 info2 st2',
            payload r2 = Some [1; 2; 3] ->
            AttachmentExtractor._extract_resource r2 dir2 idx2 st2
            = (Ok (Some info2), st2') ->
            info2 !! "hash" = info !! "hash".
Proof.
  split; [vm_compute; reflexivity|]. split; [reflexivity|].
  apply (C2_content_hash Sample.named_png (lit "out/attachments") 1
           Sample.empty_fs [1; 2; 3]); vm_compute; reflexivity.
Defined.

(** C4. For every resource that declares a file name, the resolved
    on-disk name is the content hash, an underscore, and the declared
    name cleaned of newlines, carriage returns and surrounding
    whitespace and, beyond 50 characters, shortened to a 40-character
    stem plus extension (or to 50 characters without extension). *)
Theorem C4_declared_filename (r : ET.element) (dir : str) (idx : N)
        (st : fs) (bytes : list N) (declared : str)
        (Hvalid : payload r = Some bytes)
        (Hdeclared : AttachmentExtractor.declared_filename r = Some declared)
        (Hnonempty : declared <> [])
        (Hwritable : denied st (attachment_path dir r bytes) = false) :
  exists info st',
    AttachmentExtractor._extract_resource r dir idx st = (Ok (Some info), st')
    /\ info !! "filename"
       = Some (VStr (spec_resolved_filename (content_hash bytes) declared)).
Proof.
  destruct (extract_valid r dir idx st bytes Hvalid Hwritable)
    as (info & Hrun & _ & Hname & _).
  exists info. eexists. split; [exact Hrun|].
  rewrite Hname, Hdeclared. destruct declared as [|c t]; [done|].
  simpl. by rewrite clean_and_prefix_spec.
Qed.

Lemma C4_declared_filename_witness :
  payload Sample.named_png = Some [1; 2; 3]
  /\ AttachmentExtractor.declared_filename Sample.named_png
     = Some (lit " holiday photo.png")
  /\ lit " holiday photo.png" <> []
  /\ denied Sample.empty_fs
       (attachment_path (lit "out/attachments") Sample.named_png [1; 2; 3])
     = false
  /\ exists info st',
       AttachmentExtractor._extract_resource Sample.named_png
         (lit "out/attachments") 1 Sample.empty_fs = (Ok (Some info), st')
       /\ info !! "filename"
          = Some (VStr (spec_resolved_filename (content_hash [1; 2; 3])
                          (lit " holiday photo.png"))).
Proof.
  split; [vm_compute; reflexivity|]. split; [vm_compute; reflexivity|].
  split; [discriminate|]. split; [reflexivity|].
  apply (C4_declared_filename Sample.named_png (lit "out/attachments") 1
           Sample.empty_fs [1; 2; 3] (lit " holiday photo.png"));
    [vm_compute; reflexivity .. | discriminate | reflexivity].
Defined.

(** C5, as stated, counts fourteen entries in the MIME table; the table
    of the sources has fifteen. *)
Lemma C5_table_size_counterexample :
  size AttachmentExtractor.mime_to_ext <> 14%nat.
Proof. vm_compute. discriminate. Qed.

(** C5, amended. For every resource that declares no file name, the
    resolved name is the content hash followed by the extension the
    fifteen-entry MIME table gives for its type, and [.bin] for every
    type that is not in the table (or is missing). *)
Theorem C5_generated_filename (r : ET.element) (dir : str) (idx : N)
        (st : fs) (bytes : list N)
        (Hvalid : payload r = Some bytes)
        (Hundeclared :
           truthy (AttachmentExtractor.declared_filename r) = false)
        (Hwritable : denied st (attachment_path dir r bytes) = false) :
  size AttachmentExtractor.mime_to_ext = 15%nat
  /\ (forall m, AttachmentExtractor.mime_to_ext !! m = None ->
        AttachmentExtractor._get_extension_from_mime (VStr m) = lit ".bin")
  /\ AttachmentExtractor._get_extension_from_mime VNone = lit ".bin"
  /\ exists info st',
       AttachmentExtractor._extract_resource r dir idx st
       = (Ok (Some info), st')
       /\ info !! "filename"
          = Some (VStr (content_hash bytes
                        ++ match mime_of r with
                           | VStr m =>
                               default (lit ".bin")
                                 (AttachmentExtractor.mime_to_ext !! m)
                           | _ => lit ".bin"
                           end)).
Proof.
  split; [vm_compute; reflexivity|].
  split.
  { intros m Hm. unfold AttachmentExtractor._get_extension_from_mime.
    by rewrite Hm. }
  split; [reflexivity|].
  destruct (extract_valid r dir idx st bytes Hvalid Hwritable)
    as (info & Hrun & _ & Hname & _).
  exists info. eexists. split; [exact Hrun|].
  rewrite Hname. unfold AttachmentExtractor.resolve_filename.
  destruct (AttachmentExtractor.declared_filename r) as [[|c t]|];
    try done.
Qed.

Lemma C5_generated_filename_witness :
  payload Sample.unknown_type = Some [1; 2; 3]
  /\ truthy (AttachmentExtractor.declared_filename Sample.unknown_type)
     = false
  /\ denied Sample.empty_fs
       (attachment_path (lit "out/attachments") Sample.unknown_type [1; 2; 3])
     = false
  /\ exists info st',
       AttachmentExtractor._extract_resource Sample.unknown_type
         (lit "out/attachments") 1 Sample.empty_fs = (Ok (Some info), st')
       /\ info !! "filename" = Some (VStr (lit "5289df73.bin")).
Proof.
  split; [vm_compute; reflexivity|]. split; [reflexivity|].
  split; [reflexivity|].
  destruct (C5_generated_filename Sample.unknown_type (lit "out/attachments")
              1 Sample.empty_fs [1; 2; 3]) as (_ & _ & _ & info & st' & H1 & H2);
    [vm_compute; reflexivity | reflexivity | reflexivity |].
  exists info, st'. split; [exact H1|]. rewrite H2.
  vm_compute. reflexivity.
Defined.

(** C9. A resource whose [<data>] element is absent or empty, whose
    encoding is not base64, or whose text does not decode, yields no
    resource descriptor, writes nothing and raises nothing, and the
    extraction of the other resources of the note goes on as if it were
    not there. *)
Theorem C9_skipped_resource (r : ET.element) (Hskip : skipped r) :
  (forall dir idx st,
      AttachmentExtractor._extract_resource r dir idx st = (Ok None, st))
  /\ forall before after dir idx attachments attachment_map st,
       AttachmentExtractor.extract_resources (before ++ r :: after)
         dir idx attachments attachment_map st
       = AttachmentExtractor.extract_resources (before ++ after)
           dir idx attachments attachment_map st.
Proof.
  split; [intros; by apply extract_skipped|].
  intros before after dir idx.
  induction before as [|x before IH]; intros attachments amap st; simpl.
  - unfold mbind, io_bind. by rewrite extract_skipped.
  - unfold mbind, io_bind.
    destruct (AttachmentExtractor._extract_resource x dir idx st)
      as [[[info|]|e] st']; [|apply IH|done].
    repeat case_match; try done; apply IH.
Qed.

Lemma C9_skipped_resource_witness :
  skipped Sample.plain_encoded
  /\ (forall dir idx st,
        AttachmentExtractor._extract_resource Sample.plain_encoded dir idx st
        = (Ok None, st))
  /\ forall before after dir idx attachments attachment_map st,
       AttachmentExtractor.extract_resources
         (before ++ Sample.plain_encoded :: after)
         dir idx attachments attachment_map st
       = AttachmentExtractor.extract_resources (before ++ after)
           dir idx attachments attachment_map st.
Proof.
  assert (Hs : skipped Sample.plain_encoded).
  { right. left. vm_compute. discriminate. }
  split; [exact Hs|]. exact (C9_skipped_resource Sample.plain_encoded Hs).
Defined.

(** ** The regular expression engine *)

#[local] Arguments N.eqb : simpl never.
#[local] Arguments N.leb : simpl never.
#[local] Arguments N.ltb : simpl never.

Lemma lit_lt : lit "<" = [60].
Proof. reflexivity. Qed.

Lemma lit_gt : lit ">" = [62].
Proof. reflexivity. Qed.

Lemma span_le (p : N -> bool) (hi : option nat) (s : str) :
  (span p hi s <= length s)%nat.
Proof.
  revert hi. induction s as [|c s IH]; intros hi.
  - destruct hi as [[|h]|]; simpl; lia.
  - destruct hi as [[|h]|]; simpl; [lia| |];
      destruct (p c); simpl; try lia.
    + specialize (IH (Some h)). lia.
    + specialize (IH None). lia.
Qed.

Lemma span_all (p : N -> bool) (s : str) :
  Forall (fun c => p c = true) (take (span p None s) s).
Proof.
  induction s as [|c s IH]; simpl; [constructor|].
  destruct (p c) eqn:E; simpl; [|constructor].
  constructor; [exact E|exact IH].
Qed.

Lemma span_stop (p : N -> bool) (s : str) :
  match drop (span p None s) s with
  | [] => True
  | c :: _ => p c = false
  end.
Proof.
  induction s as [|c s IH]; simpl; [done|].
  destruct (p c) eqn:E; simpl; [exact IH|exact E].
Qed.

Lemma try_down_none {A} (n lo : nat) (f : nat -> option A) :
  (forall j, (lo <= j <= n)%nat -> f j = None) -> try_down n lo f = None.
Proof.
  induction n as [|n IH]; intros H; simpl.
  - destruct (0 <? lo)%nat eqn:E; [done|].
    apply Nat.ltb_ge in E. rewrite H; [done|lia].
  - destruct (S n <? lo)%nat eqn:E; [done|].
    apply Nat.ltb_ge in E. rewrite H; [|lia].
    apply IH. intros j Hj. apply H. lia.
Qed.

Lemma try_down_top {A} (n lo : nat) (f : nat -> option A) :
  (lo <= n)%nat ->
  (forall j, (lo <= j < n)%nat -> f j = None) ->
  try_down n lo f = f n.
Proof.
  intros Hle H. destruct n as [|n]; simpl.
  - destruct (Nat.ltb_spec 0 lo); [lia|]. by destruct (f 0%nat).
  - destruct (Nat.ltb_spec (S n) lo); [lia|].
    destruct (f (S n)); [done|].
    apply try_down_none. intros j Hj. apply H. lia.
Qed.

Lemma try_down_first {A} (n lo : nat) (f : nat -> option A) (x : A) :
  (lo <= n)%nat -> f n = Some x -> try_down n lo f = Some x.
Proof.
  intros Hle H. destruct n as [|n]; simpl.
  - destruct (Nat.ltb_spec 0 lo); [lia|]. by rewrite H.
  - destruct (Nat.ltb_spec (S n) lo); [lia|]. by rewrite H.
Qed.

Lemma match_length (s : str) (j : nat) :
  (j <= length s)%nat -> (length s - length (drop j s))%nat = j.
Proof. intros H. rewrite length_drop. lia. Qed.

(** A greedy repetition on its own takes the longest run. *)
Lemma match_at_rep (p : N -> bool) (lo : nat) (s : str) :
  match_at (Rep p lo None true) s
  = if (span p None s <? lo)%nat then None else Some (span p None s, []).
Proof.
  unfold match_at. simpl.
  destruct (Nat.ltb_spec (span p None s) lo) as [|Hle]; [done|].
  apply try_down_first; [done|].
  by rewrite match_length by apply span_le.
Qed.

(** A single character class. *)
Lemma match_at_cls (p : N -> bool) (s : str) :
  match_at (Cls p) s
  = match s with
    | c :: _ => if p c then Some (1%nat, []) else None
    | [] => None
    end.
Proof.
  unfold match_at. destruct s as [|c s]; simpl; [done|].
  destruct (p c); [|done]. do 2 f_equal. lia.
Qed.

Lemma span_inside (p : N -> bool) (s : str) (j : nat) :
  (j < span p None s)%nat ->
  exists y rest, drop j s = y :: rest /\ p y = true.
Proof.
  revert j. induction s as [|c s IH]; intros j; simpl; [lia|].
  destruct (p c) eqn:E; [|lia].
  destruct j as [|j]; intros Hj; [by exists c, s|].
  apply IH. lia.
Qed.

(** The pattern [<[^>]+>]: a less-than sign, the longest run without
    greater-than sign, which must not be empty, and a greater-than
    sign. *)
Lemma match_at_tag (c : N) (s1 : str) :
  match_at ENEXParser.re_tag (c :: s1)
  = if c =? 60 then
      if (1 <=? span (notchr 62) None s1)%nat
         && startswith [62] (drop (span (notchr 62) None s1) s1)
      then Some (S (S (span (notchr 62) None s1)), [])
      else None
    else None.
Proof.
  unfold match_at, ENEXParser.re_tag. simpl cat. rewrite lit_lt, lit_gt.
  cbn [m startswith]. rewrite (N.eqb_sym 60 c), andb_true_r.
  destruct (c =? 60); [|done]. cbn [length drop]. rewrite drop_0.
  unfold plus. cbn [m].
  set (n := span (notchr 62) None s1).
  pose proof (span_le (notchr 62) None s1) as Hle. fold n in Hle.
  destruct (Nat.ltb_spec n 1) as [Hn|Hn].
  { destruct (Nat.leb_spec 1 n); [lia|reflexivity]. }
  destruct (Nat.leb_spec 1 n); [|lia]. cbn [andb]. rewrite try_down_top; [|done|].
  - destruct (drop n s1) as [|y rest] eqn:Ed; [done|]. simpl.
    rewrite drop_0. destruct (62 =? y); [|done]. do 2 f_equal.
    assert (length (drop n s1) = S (length rest)) as Hlen by by rewrite Ed.
    rewrite length_drop in Hlen. lia.
  - intros j Hj. destruct (span_inside (notchr 62) s1 j) as (y & rest & -> & Hy);
      [unfold n in Hj; lia|].
    unfold notchr in Hy. rewrite (N.eqb_sym 62 y).
    by destruct (y =? 62).
Qed.

Lemma tag_match_nonempty (s : str) (n : nat) (g : caps) :
  match_at ENEXParser.re_tag s = Some (n, g) -> n <> 0%nat.
Proof.
  destruct s as [|c s1]; [done|]. rewrite match_at_tag.
  repeat case_match; try done. intros H'. inversion H'. lia.
Qed.

Lemma tag_match_start (c : N) (s : str) :
  c <> 60 -> match_at ENEXParser.re_tag (c :: s) = None.
Proof.
  intros Hc. rewrite match_at_tag. by destruct (N.eqb_spec c 60).
Qed.

Lemma no_gt_in (s : str) :
  Forall (fun c => notchr 62 c = true) s -> existsb (N.eqb 62) s = false.
Proof.
  induction 1 as [|c s Hc _ IH]; simpl; [done|].
  rewrite IH, orb_false_r. unfold notchr in Hc. rewrite N.eqb_sym.
  by destruct (c =? 62).
Qed.

(** Where [<[^>]+>] does not match at a less-than sign, no tag starts. *)
Lemma tag_unmatched (s : str) :
  match_at ENEXParser.re_tag (60 :: s) = None -> tag_at (60 :: s) = false.
Proof.
  rewrite match_at_tag. rewrite N.eqb_refl.
  destruct s as [|c rest]; [done|]. cbn [tag_at]. rewrite N.eqb_refl.
  destruct (N.eqb_spec c 62) as [->|Hc]; [done|]. cbn [negb andb].
  set (n := span (notchr 62) None (c :: rest)).
  assert (1 <= n)%nat as Hn.
  { unfold n. simpl. unfold notchr at 1.
    destruct (N.eqb_spec c 62); [done|]. simpl. lia. }
  destruct (Nat.leb_spec 1 n); [|lia]. cbn [andb].
  pose proof (span_stop (notchr 62) (c :: rest)) as Hstop. fold n in Hstop.
  pose proof (span_all (notchr 62) (c :: rest)) as Hall. fold n in Hall.
  destruct (drop n (c :: rest)) as [|y tl] eqn:Ed.
  - intros _.
    assert (Heq : take n (c :: rest) = c :: rest).
    { rewrite <- (take_drop n (c :: rest)) at 2. by rewrite Ed, app_nil_r. }
    rewrite Heq in Hall. apply no_gt_in in Hall. simpl in Hall.
    apply orb_false_elim in Hall. by destruct Hall.
  - cbn [startswith]. unfold notchr in Hstop. rewrite (N.eqb_sym 62 y).
    by destruct (y =? 62).
Qed.

(** ** Substitution and tags *)

Lemma sub_go_no_gt (r : re) (repl : str -> caps -> str) :
  (forall t g, existsb (N.eqb 62) (repl t g) = false) ->
  forall s k,
    existsb (N.eqb 62) s = false ->
    existsb (N.eqb 62) (sub_go r repl k s) = false.
Proof.
  intros Hrepl. induction s as [|c s IH]; intros k Hs.
  - destruct k; simpl; [|done]. by repeat case_match.
  - simpl in Hs. apply orb_false_elim in Hs as [Hc Hs].
    destruct k as [|j]; simpl; [|by apply IH].
    destruct (match_at r (c :: s)) as [[n g]|].
    + rewrite existsb_app, Hrepl. simpl.
      destruct n; simpl; [rewrite Hc|]; by apply IH.
    + simpl. rewrite Hc. by apply IH.
Qed.

Lemma tag_at_other (c : N) (s : str) : c <> 60 -> tag_at (c :: s) = false.
Proof.
  intros Hc. destruct s as [|d s]; [done|]. simpl.
  by destruct (N.eqb_spec c 60).
Qed.

Lemma tag_at_no_gt (s : str) :
  existsb (N.eqb 62) s = false -> tag_at (60 :: s) = false.
Proof.
  destruct s as [|d s]; [done|]. simpl.
  intros [_ ->]%orb_false_elim. by rewrite andb_false_r.
Qed.

Lemma tagfree_app_clean (a b : str) :
  Forall (fun c => c <> 60) a -> tagfree b = true -> tagfree (a ++ b) = true.
Proof.
  intros Ha Hb. induction Ha as [|x a Hx _ IH]; [done|].
  cbn [app tagfree]. by rewrite tag_at_other, IH.
Qed.

Lemma tagfree_suffix (a b : str) : tagfree (a ++ b) = true -> tagfree b = true.
Proof.
  induction a as [|x a IH]; [done|]. cbn [app tagfree].
  intros [_ H]%andb_prop. by apply IH.
Qed.

Lemma tagfree_head (s : str) : tagfree s = true -> tag_at s = false.
Proof.
  destruct s as [|c s]; [done|]. cbn [tagfree].
  intros [H _]%andb_prop. by destruct (tag_at (c :: s)).
Qed.

(** A substitution whose matches are never empty and never start at a
    greater-than sign, and whose replacement has no angle bracket, leaves
    no tag, provided that no tag starts where the pattern fails to match
    at a less-than sign. *)
Lemma sub_go_tagfree (r : re) (repl : str -> caps -> str) :
  (forall s n g, match_at r s = Some (n, g) -> n <> 0%nat) ->
  (forall s, match_at r (62 :: s) = None) ->
  match_at r [] = None ->
  (forall t g, Forall (fun c => c <> 60 /\ c <> 62) (repl t g)) ->
  forall s,
    (forall pre s', s = pre ++ 60 :: s' ->
                    match_at r (60 :: s') = None ->
                    tag_at (60 :: s') = false) ->
    forall k, tagfree (sub_go r repl k s) = true.
Proof.
  intros Hne Hgt Hnil Hrepl.
  assert (Hrepl_gt : forall t g, existsb (N.eqb 62) (repl t g) = false).
  { intros t g. specialize (Hrepl t g).
    induction Hrepl as [|x l [_ Hx] _ IH]; simpl; [done|].
    rewrite IH, orb_false_r. by apply N.eqb_neq. }
  assert (Hrepl_lt : forall t g, Forall (fun c => c <> 60) (repl t g)).
  { intros t g. eapply Forall_impl; [apply Hrepl|]. by intros x [? _]. }
  induction s as [|c s IH]; intros Hin k.
  - destruct k; simpl; [|done]. by rewrite Hnil.
  - assert (IH' : forall k, tagfree (sub_go r repl k s) = true).
    { apply IH. intros pre s' -> Hm. by apply (Hin (c :: pre) s'). }
    destruct k as [|j]; simpl; [|apply IH'].
    destruct (match_at r (c :: s)) as [[n g]|] eqn:E.
    + destruct n as [|j]; [by apply Hne in E|].
      by apply tagfree_app_clean.
    + cbn [tagfree]. rewrite IH', andb_true_r. apply negb_true_iff.
      destruct (N.eqb_spec c 60) as [->|Hc]; [|by apply tag_at_other].
      pose proof (Hin [] s eq_refl E) as Hs.
      destruct s as [|d rest]; [simpl; by rewrite Hnil|].
      cbn [tag_at] in Hs. rewrite N.eqb_refl in Hs. cbn [andb] in Hs.
      destruct (N.eqb_spec d 62) as [->|Hd].
      * simpl. rewrite Hgt. cbn [tag_at]. by rewrite N.eqb_refl.
      * apply tag_at_no_gt, sub_go_no_gt; [done|]. simpl.
        cbn [negb andb] in Hs. rewrite Hs, orb_false_r.
        apply N.eqb_neq. congruence.
Qed.

Lemma tagfree_strip_tags (s : str) :
  tagfree (sub ENEXParser.re_tag [] s) = true.
Proof.
  apply sub_go_tagfree.
  - apply tag_match_nonempty.
  - intros s'. by apply tag_match_start.
  - done.
  - constructor.
  - intros _ s' _. apply tag_unmatched.
Qed.

Lemma tagfree_collapse (s : str) :
  tagfree s = true -> tagfree (sub ENEXParser.re_nl3 [NL; NL] s) = true.
Proof.
  intros Hs. apply sub_go_tagfree.
  - intros s' n g. unfold ENEXParser.re_nl3. rewrite match_at_rep.
    destruct (Nat.ltb_spec (span (Re.chr NL) None s') 3); [done|].
    intros [= <- _]. lia.
  - intros s'. unfold ENEXParser.re_nl3. by rewrite match_at_rep.
  - done.
  - by repeat constructor.
  - intros pre s' -> _. by apply tagfree_head, (tagfree_suffix pre).
Qed.

Lemma tagfree_sound (s : str) : tagfree s = true -> ~ contains_tag s.
Proof.
  intros Hs (pre & t & post & -> & Ht & Hall).
  apply tagfree_suffix, tagfree_head in Hs.
  destruct t as [|c t]; [done|]. simpl in Hs.
  apply Forall_cons in Hall as [Hc Hall].
  apply N.eqb_neq in Hc. rewrite Hc in Hs. cbn [negb andb] in Hs.
  rewrite existsb_app in Hs. simpl in Hs.
  by rewrite orb_true_r in Hs.
Qed.

Lemma contains_tag_inside (pre mid post : str) :
  contains_tag mid -> contains_tag (pre ++ mid ++ post).
Proof.
  intros (a & t & b & -> & Ht & Hall).
  exists (pre ++ a), t, (b ++ post). split; [|done].
  by rewrite <- !app_assoc.
Qed.

Lemma dropwhile_suffix (p : N -> bool) (s : str) :
  exists pre, s = pre ++ dropwhile p s.
Proof.
  induction s as [|c s [pre IH]]; simpl; [by exists []|].
  destruct (p c); [|by exists []].
  exists (c :: pre). simpl. by f_equal.
Qed.

Lemma strip_inside (s : str) : exists pre post, s = pre ++ strip s ++ post.
Proof.
  unfold strip, rstrip, lstrip.
  destruct (dropwhile_suffix isspace s) as [pre Hpre].
  destruct (dropwhile_suffix isspace (rev (dropwhile isspace s)))
    as [post Hpost].
  exists pre, (rev post). rewrite Hpre at 1. f_equal.
  rewrite <- rev_app_distr, <- Hpost. by rewrite rev_involutive.
Qed.

(** C10. In [_html_to_text] the entities are decoded before the
    remaining tags are stripped, so whatever reads as a tag after the
    decoding, escaped in the note body or not, is removed: the converted
    text of any body contains no tag, and the escaped bold tag of the
    example leaves only its content. *)
Theorem C10_decoded_tags_are_stripped :
  (forall c t,
      ENEXParser._html_to_text (Some (c :: t))
      = strip (sub ENEXParser.re_nl3 [NL; NL]
                 (sub ENEXParser.re_tag []
                    (sub ENEXParser.re_p_close [NL; NL]
                       (sub ENEXParser.re_br [NL]
                          (Html.unescape (before_unescape (c :: t))))))))
  /\ (forall body, ~ contains_tag (ENEXParser._html_to_text body))
  /\ ENEXParser._html_to_text (Some (lit "&lt;b&gt;bold&lt;/b&gt;"))
     = lit "bold".
Proof.
  split; [reflexivity|]. split; [|vm_compute; reflexivity].
  intros [[|c t]|]; try (intros (pre & x & post & H & _); by destruct pre).
  unfold ENEXParser._html_to_text. fold (before_unescape (c :: t)).
  set (u := sub ENEXParser.re_tag [] _).
  intros Htag.
  destruct (strip_inside (sub ENEXParser.re_nl3 [NL; NL] u))
    as (pre & post & Heq).
  apply (contains_tag_inside pre _ post) in Htag. rewrite <- Heq in Htag.
  revert Htag. apply tagfree_sound, tagfree_collapse, tagfree_strip_tags.
Qed.

(** ** File names *)

Lemma sub_go_Forall (Q : N -> Prop) (r : re) (repl : str -> caps -> str) :
  (forall t g, Forall Q (repl t g)) ->
  forall s k, Forall Q s -> Forall Q (sub_go r repl k s).
Proof.
  intros Hrepl. induction s as [|c s IH]; intros k Hs.
  - destruct k; simpl; [|done]. by repeat case_match.
  - apply Forall_cons in Hs as [Hc Hs].
    destruct k as [|j]; simpl; [|by apply IH].
    destruct (match_at r (c :: s)) as [[n g]|].
    + apply Forall_app. split; [done|].
      destruct n; [constructor; [done|]|]; by apply IH.
    + constructor; [done|by apply IH].
Qed.

Lemma sub_cls_Forall (Q : N -> Prop) (p : N -> bool) (t : str) :
  Forall Q t -> (forall c, p c = false -> Q c) ->
  forall s k, Forall Q (sub_go (Cls p) (fun _ _ => t) k s).
Proof.
  intros Ht Hp. induction s as [|c s IH]; intros k.
  - destruct k; simpl; done.
  - destruct k as [|j]; [|apply IH].
    cbn [sub_go]. rewrite match_at_cls.
    destruct (p c) eqn:E.
    + apply Forall_app. split; [done|apply IH].
    + constructor; [by apply Hp|apply IH].
Qed.

Lemma Forall_strip (Q : N -> Prop) (s : str) :
  Forall Q s -> Forall Q (strip s).
Proof.
  destruct (strip_inside s) as (pre & post & Heq). rewrite Heq at 1.
  intros [_ [H _]%Forall_app]%Forall_app. exact H.
Qed.

Lemma length_dropwhile (p : N -> bool) (s : str) :
  (length (dropwhile p s) <= length s)%nat.
Proof.
  induction s as [|c s IH]; simpl; [lia|]. destruct (p c); simpl; lia.
Qed.

Lemma length_strip (s : str) : (length (strip s) <= length s)%nat.
Proof.
  unfold strip, rstrip, lstrip. rewrite length_rev.
  etransitivity; [apply length_dropwhile|]. rewrite length_rev.
  apply length_dropwhile.
Qed.

Lemma dropwhile_head (p : N -> bool) (s : str) :
  match dropwhile p s with
  | [] => True
  | c :: _ => p c = false
  end.
Proof.
  induction s as [|c s IH]; simpl; [done|]. by destruct (p c) eqn:E.
Qed.

Lemma rstrip_prefix (s : str) : exists post, s = rstrip s ++ post.
Proof.
  unfold rstrip. destruct (dropwhile_suffix isspace (rev s)) as [pre H].
  exists (rev pre). rewrite <- rev_app_distr, <- H. by rewrite rev_involutive.
Qed.

Lemma trimmed_strip (s : str) : trimmed (strip s) = true.
Proof.
  unfold trimmed. apply andb_true_intro. split.
  - unfold strip. destruct (rstrip_prefix (lstrip s)) as [post Hpost].
    pose proof (dropwhile_head isspace s) as Hh. fold (lstrip s) in Hh.
    destruct (rstrip (lstrip s)) as [|c r]; [done|].
    rewrite Hpost in Hh. simpl in Hh. by rewrite Hh.
  - unfold strip, rstrip. rewrite rev_involutive.
    pose proof (dropwhile_head isspace (rev (lstrip s))) as Hh.
    destruct (dropwhile isspace (rev (lstrip s))); [done|]. by rewrite Hh.
Qed.

Lemma spaced_suffix (a b : str) : spaced (a ++ b) = true -> spaced b = true.
Proof.
  induction a as [|x a IH]; [done|]. cbn [app spaced].
  intros [_ H]%andb_prop. by apply IH.
Qed.

Lemma spaced_prefix (a b : str) : spaced (a ++ b) = true -> spaced a = true.
Proof.
  induction a as [|x a IH]; [done|]. cbn [app spaced].
  intros [Hx H]%andb_prop. rewrite (IH H), andb_true_r.
  destruct (isspace x); [|done]. cbn [negb orb] in *.
  apply andb_prop in Hx as [-> Hx]. destruct a; [done|]. exact Hx.
Qed.

Lemma spaced_strip (s : str) : spaced s = true -> spaced (strip s) = true.
Proof.
  destruct (strip_inside s) as (pre & post & Heq). rewrite Heq at 1.
  intros H. by apply spaced_suffix, spaced_prefix in H.
Qed.

Lemma spaced_take (n : nat) (s : str) :
  spaced s = true -> spaced (take n s) = true.
Proof.
  rewrite <- (take_drop n s) at 1. apply spaced_prefix.
Qed.

Lemma match_at_spaces (c : N) (s : str) :
  match_at IndividualNoteExporter.re_spaces (c :: s)
  = if isspace c then Some (S (span isspace None s), []) else None.
Proof.
  unfold IndividualNoteExporter.re_spaces, plus. rewrite match_at_rep.
  simpl. by destruct (isspace c).
Qed.

(** After the skipped part of a whitespace run comes no whitespace. *)
Lemma spaces_resume (t s : str) :
  match sub_go IndividualNoteExporter.re_spaces (fun _ _ => t)
              (span isspace None s) s with
  | [] => True
  | d :: _ => isspace d = false
  end.
Proof.
  induction s as [|c s IH]; [done|].
  cbn [span]. destruct (isspace c) eqn:E; [exact IH|].
  cbn [sub_go]. by rewrite match_at_spaces, E.
Qed.

Lemma spaced_sub (s : str) (k : nat) :
  spaced (sub_go IndividualNoteExporter.re_spaces (fun _ _ => lit " ") k s)
  = true.
Proof.
  revert k. induction s as [|c s IH]; intros k.
  - by destruct k.
  - destruct k as [|j]; [|apply IH].
    cbn [sub_go]. rewrite match_at_spaces.
    destruct (isspace c) eqn:E.
    + change (lit " ") with [SP]. cbn [app spaced]. rewrite IH, andb_true_r.
      pose proof (spaces_resume [SP] s) as Hr.
      destruct (sub_go _ _ _ s); [done|]. by rewrite Hr.
    + cbn [spaced]. by rewrite E, IH.
Qed.

Lemma digits_aux_Forall (Q : N -> Prop) (fuel : nat) (n : N) (acc : str) :
  (forall d, d < 10 -> Q (48 + d)) -> Forall Q acc ->
  Forall Q (digits_aux fuel n acc).
Proof.
  intros HQ. revert n acc. induction fuel as [|f IH]; intros n acc Hacc;
    simpl; [done|].
  assert (Forall Q ((48 + n mod 10) :: acc)) as Hacc'.
  { constructor; [|done]. apply HQ. by apply N.mod_lt. }
  destruct (n / 10 =? 0); [done|]. by apply IH.
Qed.

Lemma digits_aux_length (fuel : nat) (k : nat) (n : N) (acc : str) :
  n < pow10 (S k) ->
  (length (digits_aux fuel n acc) <= length acc + S k)%nat.
Proof.
  revert k n acc. induction fuel as [|f IH]; intros k n acc Hn; simpl;
    [lia|].
  destruct (N.eqb_spec (n / 10) 0) as [|Hne]; simpl; [lia|].
  destruct k as [|k].
  - exfalso. apply Hne. apply N.div_small. simpl in Hn. lia.
  - etransitivity; [apply (IH k)|simpl; lia].
    apply N.Div0.div_lt_upper_bound. exact Hn.
Qed.

Lemma fmt_04d_length (i : N) : i < 10000 -> length (fmt_04d i) = 4%nat.
Proof.
  intros Hi. unfold fmt_04d, fmt_0d, str_of_N.
  pose proof (digits_aux_length (S (N.size_nat i)) 3 i [] Hi) as Hlen.
  rewrite length_app, repeat_length. cbn [length Nat.add] in Hlen. lia.
Qed.

Lemma fmt_04d_safe (i : N) : Forall (fun c => unsafe c = false) (fmt_04d i).
Proof.
  unfold fmt_04d, fmt_0d, str_of_N. apply Forall_app. split.
  - induction (4 - _)%nat; simpl; by constructor.
  - apply digits_aux_Forall; [|constructor].
    intros d Hd.
    assert (d = 0 \/ d = 1 \/ d = 2 \/ d = 3 \/ d = 4 \/ d = 5 \/ d = 6
            \/ d = 7 \/ d = 8 \/ d = 9) as Hcases by lia.
    destruct Hcases as [->|[->|[->|[->|[->|[->|[->|[->|[->| ->]]]]]]]]];
      reflexivity.
Qed.

Lemma dropwhile_keeps_last (p : N -> bool) (l : str) (c : N) :
  p c = false -> exists l', dropwhile p (l ++ [c]) = l' ++ [c].
Proof.
  intros Hc. induction l as [|x l [l' IH]]; simpl.
  - rewrite Hc. by exists [].
  - destruct (p x); [by exists l'|]. by exists (x :: l).
Qed.

Lemma strip_head (c : N) (s : str) :
  isspace c = false ->
  exists r post, strip (c :: s) = c :: r /\ c :: s = (c :: r) ++ post.
Proof.
  intros Hc. unfold strip, lstrip. cbn [dropwhile]. rewrite Hc.
  destruct (rstrip_prefix (c :: s)) as [post Hpost].
  unfold rstrip in *. cbn [rev] in *.
  destruct (dropwhile_keeps_last isspace (rev s) c Hc) as [l' Hl'].
  rewrite Hl' in *. rewrite rev_app_distr in *. cbn [rev app] in *.
  by exists (rev l'), post.
Qed.

(** What [sanitize_filename] returns on a string. *)
Lemma sanitize_filename_spec (title : str) :
  exists safe_title,
    IndividualNoteExporter.sanitize_filename (VStr title) 100 = Ok safe_title
    /\ Forall (fun c => unsafe c = false) safe_title
    /\ (length safe_title <= 100)%nat
    /\ spaced safe_title = true
    /\ trimmed safe_title = true
    /\ safe_title <> []
    /\ (cleaned_title title = [] -> safe_title = lit "Untitled")
    /\ (cleaned_title title <> [] ->
        (exists rest, cleaned_title title = safe_title ++ rest)
        /\ ((length (cleaned_title title) <= 100)%nat ->
            safe_title = cleaned_title title)).
Proof.
  unfold IndividualNoteExporter.sanitize_filename.
  cbn [as_str mbind result_bind]. fold (cleaned_title title).
  assert (Hsafe : Forall (fun c => unsafe c = false) (cleaned_title title)).
  { apply Forall_strip, sub_go_Forall; [by repeat constructor|].
    apply sub_cls_Forall; [by repeat constructor|done]. }
  assert (Hsp : spaced (cleaned_title title) = true).
  { apply spaced_strip, spaced_sub. }
  pose proof (trimmed_strip
                (sub IndividualNoteExporter.re_spaces (lit " ")
                   (sub IndividualNoteExporter.re_unsafe (lit "_") title)))
    as Htr.
  fold (cleaned_title title) in Htr.
  set (cl := cleaned_title title) in *.
  destruct (Nat.ltb_spec 100 (length cl)) as [Hlong|Hshort].
  - (* the title is cut *)
    destruct cl as [|c rest] eqn:Ecl; [simpl in Hlong; lia|].
    assert (Hc : isspace c = false).
    { unfold trimmed in Htr. apply andb_prop in Htr as [Hc _].
      by apply negb_true_iff in Hc. }
    cbn [take].
    destruct (strip_head c (take 99 rest) Hc) as (r & post & Hs & Hpre).
    rewrite Hs. eexists. split; [reflexivity|]. rewrite <- Hs.
    split.
    { apply Forall_strip.
      change (c :: take 99 rest) with (take 100%nat (c :: rest)).
      by apply Forall_take. }
    split.
    { etransitivity; [apply length_strip|].
      change (c :: take 99 rest) with (take 100%nat (c :: rest)).
      rewrite length_take. lia. }
    split; [by apply spaced_strip, (spaced_take 100%nat (c :: rest))|].
    split; [apply trimmed_strip|].
    split; [by rewrite Hs|].
    split; [done|]. intros _. split; [|lia].
    exists (post ++ drop 100%nat (c :: rest)). rewrite Hs.
    rewrite <- (take_drop 100%nat (c :: rest)) at 1. cbn [take].
    rewrite Hpre. by rewrite <- app_assoc.
  - destruct cl as [|c rest] eqn:Ecl.
    + eexists. split; [reflexivity|].
      set (u := lit "Untitled"). vm_compute in u. subst u.
      split; [by repeat constructor|]. split; [simpl; lia|].
      by repeat split.
    + eexists. split; [reflexivity|]. repeat split; try done.
      * exists []. by rewrite app_nil_r.
Qed.

(** C7, as stated, bounds the file name by 105 characters; a title of a
    hundred letters gives a name of 108: the four digits and the
    underscore, the hundred letters, and the suffix [.md]. *)
Lemma C7_length_counterexample :
  exists filename,
    IndividualNoteExporter.note_filename 1 (VStr (repeat 97 100%nat))
    = Ok filename
    /\ (105 < length filename)%nat.
Proof.
  eexists. split; [vm_compute; reflexivity|]. vm_compute. lia.
Qed.

(** C7, amended. For every note title and every sequence number below
    10000, the Markdown file name is the four-digit number, an
    underscore, the sanitized title and [.md]; it contains none of the
    unsafe characters, and its length does not exceed 108 (5 for the
    prefix, at most 100 for the sanitized title, 3 for the suffix).  The
    sanitized title has its whitespace runs collapsed and trimmed, is a
    prefix of at most 100 characters of the cleaned title, and is
    [Untitled] when the cleaned title is empty. *)
Theorem C7_filename (i : N) (title : str) (Hi : i < 10000) :
  exists safe_title filename,
    IndividualNoteExporter.sanitize_filename (VStr title) 100 = Ok safe_title
    /\ IndividualNoteExporter.note_filename i (VStr title) = Ok filename
    /\ filename = fmt_04d i ++ lit "_" ++ safe_title ++ lit ".md"
    /\ Forall (fun c => unsafe c = false) filename
    /\ (length filename <= 108)%nat
    /\ (length safe_title <= 100)%nat
    /\ spaced safe_title = true
    /\ trimmed safe_title = true
    /\ (cleaned_title title = [] -> safe_title = lit "Untitled")
    /\ (cleaned_title title <> [] ->
        (exists rest, cleaned_title title = safe_title ++ rest)
        /\ ((length (cleaned_title title) <= 100)%nat ->
            safe_title = cleaned_title title)).
Proof.
  destruct (sanitize_filename_spec title)
    as (safe & Hrun & Hsafe & Hlen & Hsp & Htr & _ & Hdef & Hpre).
  exists safe. eexists. split; [exact Hrun|].
  unfold IndividualNoteExporter.note_filename. rewrite Hrun.
  cbn [mbind result_bind]. split; [reflexivity|]. split; [reflexivity|].
  split.
  { apply Forall_app. split; [apply fmt_04d_safe|].
    apply Forall_app. split; [by repeat constructor|].
    apply Forall_app. split; [done|by repeat constructor]. }
  split.
  { rewrite !length_app, fmt_04d_length by done.
    change (length (lit "_")) with 1%nat.
    change (length (lit ".md")) with 3%nat. lia. }
  done.
Qed.

Lemma C7_filename_witness :
  1 < 10000
  /\ exists safe_title filename,
       IndividualNoteExporter.sanitize_filename (VStr (lit "A/B: Test")) 100
       = Ok safe_title
       /\ IndividualNoteExporter.note_filename 1 (VStr (lit "A/B: Test"))
          = Ok filename
       /\ filename = lit "0001_A_B_ Test.md"
       /\ Forall (fun c => unsafe c = false) filename
       /\ (length filename <= 108)%nat.
Proof.
  split; [reflexivity|].
  destruct (C7_filename 1 (lit "A/B: Test"))
    as (safe & filename & H1 & H2 & H3 & H4 & H5 & _); [reflexivity|].
  exists safe, filename. split; [exact H1|]. split; [exact H2|].
  split; [|split; [exact H4|exact H5]].
  assert (Ok filename = Ok (lit "0001_A_B_ Test.md")) as [= ->];
    [|reflexivity].
  rewrite <- H2. vm_compute. reflexivity.
Defined.

(** ** The parser *)

Lemma insert_truthy (k : string) (v : value) (d : dict) :
  is_truthy (VDict (<[k := v]> d)) = true.
Proof.
  cbn [is_truthy]. apply negb_true_iff, Nat.eqb_neq.
  intros H%map_size_empty_iff. by apply insert_non_empty in H.
Qed.

Lemma parse_note_truthy (e : ET.element) (note : dict) :
  ENEXParser._parse_note e = Ok note -> is_truthy (VDict note) = true.
Proof.
  unfold ENEXParser._parse_note.
  destruct (ENEXParser.parse_resources _) as [rs|]; [|done].
  cbn [mbind result_bind]. intros [= <-]. apply insert_truthy.
Qed.

Lemma parse_resources_ok (l : list ET.element) :
  forallb resource_decodes l = true ->
  exists rs, ENEXParser.parse_resources l = Ok rs.
Proof.
  induction l as [|r l IH]; [by exists []|]. cbn [forallb].
  intros [Hr Hl]%andb_prop. destruct (IH Hl) as [rs Hrs].
  cbn [ENEXParser.parse_resources]. rewrite Hrs.
  assert (exists d, ENEXParser._parse_resource r = Ok d) as [d ->].
  { unfold resource_decodes in Hr. unfold ENEXParser._parse_resource.
    destruct (ET.find "data" r) as [data|]; [|by eexists].
    destruct (ET.get "encoding" data); [|by eexists].
    destruct (ET.text data) as [[|c t]|]; try by eexists.
    destruct (str_eqb _ _); [|by eexists].
    destruct (Base64.b64decode _); [by eexists|done]. }
  cbn [mbind result_bind]. by eexists.
Qed.

Lemma parse_note_ok (e : ET.element) :
  forallb resource_decodes (ET.findall "resource" e) = true ->
  exists note, ENEXParser._parse_note e = Ok note.
Proof.
  intros H. destruct (parse_resources_ok _ H) as [rs Hrs].
  unfold ENEXParser._parse_note. rewrite Hrs. by eexists.
Qed.

(** The truthiness filter of [parse_enex_file] never drops a note. *)
Lemma parse_notes_all (l : list ET.element) (notes : list dict) :
  ENEXParser.parse_notes l = Ok notes ->
  Forall2 (fun e n => ENEXParser._parse_note e = Ok n) l notes.
Proof.
  revert notes. induction l as [|e l IH]; intros notes; simpl.
  - intros [= <-]. constructor.
  - destruct (ENEXParser._parse_note e) as [note|] eqn:E; [|done].
    cbn [mbind result_bind].
    destruct (ENEXParser.parse_notes l) as [rest|]; [|done].
    cbn [mbind result_bind].
    pose proof (parse_note_truthy e note E) as Ht. cbn [is_truthy] in Ht.
    rewrite Ht. intros [= <-]. constructor; [done|]. by apply IH.
Qed.

Lemma parse_notes_ok (l : list ET.element) :
  forallb (fun e => forallb resource_decodes (ET.findall "resource" e)) l
  = true ->
  exists notes, ENEXParser.parse_notes l = Ok notes.
Proof.
  induction l as [|e l IH]; [by exists []|]. cbn [forallb].
  intros [He Hl]%andb_prop. destruct (IH Hl) as [rest Hrest].
  destruct (parse_note_ok e He) as [note Hnote].
  cbn [ENEXParser.parse_notes]. rewrite Hnote, Hrest.
  cbn [mbind result_bind]. by eexists.
Qed.

(** C1, code defect. [_parse_resource] decodes the payload of a
    resource without a handler, where the extractors guard the same
    call and pass the resource over.  So a document whose XML parses
    but which holds one payload that does not decode makes
    [parse_enex_file] raise [ValueError]: the sample has two [<note>]
    elements, the second with such a resource beside a valid one, and
    no record is returned where the claim promises two; the attachment
    extractor skips the same resource.  On the documents whose payloads
    all decode the claim holds: one record per [<note>] element, in
    document order, and the truthiness filter drops none. *)
Theorem C1_undecodable_payload_aborts_parsing :
  length (ET.findall "note" MoreSamples.broken_export) = 2%nat
  /\ ENEXParser.parse_enex_file MoreSamples.broken_export
     = Raise ValueError
  /\ AttachmentExtractor._extract_resource Sample.broken_payload
       (lit "out/attachments") 2 Sample.empty_fs
     = (Ok None, Sample.empty_fs)
  /\ forall root,
       well_formed root = true ->
       exists notes,
         ENEXParser.parse_enex_file root = Ok notes
         /\ length notes = length (ET.findall "note" root)
         /\ Forall2 (fun note_elem note =>
                       ENEXParser._parse_note note_elem = Ok note)
                    (ET.findall "note" root) notes.
Proof.
  split; [vm_compute; reflexivity|].
  split; [vm_compute; reflexivity|].
  split.
  { apply extract_skipped. right. right. vm_compute. eauto. }
  intros root Hwf.
  destruct (parse_notes_ok _ Hwf) as [notes Hnotes].
  exists notes. split; [exact Hnotes|].
  apply parse_notes_all in Hnotes.
  split; [symmetry; by eapply Forall2_length|exact Hnotes].
Qed.

(** ** The whitespace clean-up of the Markdown conversion *)

Lemma match_at_nl4 (s : str) :
  match_at EnhancedNoteExporter.re_nl4 s
  = if (span (Re.chr NL) None s <? 4)%nat then None
    else Some (span (Re.chr NL) None s, []).
Proof. apply match_at_rep. Qed.

Lemma nl4_resume (t s : str) :
  span (Re.chr NL) None
       (sub_go EnhancedNoteExporter.re_nl4 (fun _ _ => t)
               (span (Re.chr NL) None s) s) = 0%nat.
Proof.
  induction s as [|c s IH]; [done|].
  cbn [span]. destruct (Re.chr NL c) eqn:E; [exact IH|].
  cbn [sub_go]. rewrite match_at_nl4. cbn [span]. rewrite E.
  cbn. by rewrite E.
Qed.

Lemma nl4_short (t s : str) :
  (span (Re.chr NL) None s < 4)%nat ->
  (span (Re.chr NL) None (sub_go EnhancedNoteExporter.re_nl4
                                 (fun _ _ => t) 0 s)
   <= span (Re.chr NL) None s)%nat.
Proof.
  induction s as [|c s IH]; intros Hs.
  - done.
  - cbn [sub_go]. rewrite match_at_nl4.
    destruct (Nat.ltb_spec (span (Re.chr NL) None (c :: s)) 4); [|lia].
    cbn [span] in *. destruct (Re.chr NL c); [|lia].
    specialize (IH ltac:(lia)). lia.
Qed.

Lemma no_four_sub (s : str) (k : nat) :
  no_four_newlines
    (sub_go EnhancedNoteExporter.re_nl4 (fun _ _ => [NL; NL; NL]) k s)
  = true.
Proof.
  revert k. induction s as [|c s IH]; intros k.
  - by destruct k.
  - destruct k as [|j]; [|apply IH].
    cbn [sub_go]. rewrite match_at_nl4.
    destruct (Nat.ltb_spec (span (Re.chr NL) None (c :: s)) 4) as [Hlt|Hge].
    + cbn [no_four_newlines]. rewrite IH, andb_true_r.
      apply Nat.ltb_lt. cbn [span] in *.
      destruct (Re.chr NL c); [|lia].
      pose proof (nl4_short [NL; NL; NL] s ltac:(lia)). lia.
    + cbn [span] in *. destruct (Re.chr NL c); [|lia].
      pose proof (nl4_resume [NL; NL; NL] s) as Hr.
      cbn [app no_four_newlines]. rewrite IH, andb_true_r.
      cbn [span]. change (Re.chr NL NL) with true. cbn iota.
      by rewrite Hr.
Qed.

Lemma match_at_trailing (s : str) :
  match_at EnhancedNoteExporter.re_trailing s
  = if (1 <=? span blank None s)%nat
       && startswith [NL] (drop (span blank None s) s)
    then Some (S (span blank None s), [])
    else None.
Proof.
  unfold match_at, EnhancedNoteExporter.re_trailing, plus. cbn [m].
  change (oneof [SP; TAB]) with blank. set (n := span blank None s).
  pose proof (span_le blank None s) as Hle. fold n in Hle.
  destruct (Nat.ltb_spec n 1) as [Hn|Hn].
  { destruct (Nat.leb_spec 1 n); [lia|reflexivity]. }
  destruct (Nat.leb_spec 1 n); [|lia]. cbn [andb].
  rewrite try_down_top; [|done|].
  - destruct (startswith [NL] (drop n s)) eqn:E; [|done].
    do 2 f_equal. cbn [length]. rewrite !length_drop. 
    destruct (drop n s) as [|y rest] eqn:Ed; [done|].
    assert (length (drop n s) = S (length rest)) as Hlen by by rewrite Ed.
    rewrite length_drop in Hlen. lia.
  - intros j Hj.
    destruct (span_inside blank s j) as (y & rest & -> & Hy);
      [unfold n in Hj; lia|].
    cbn [startswith]. destruct (N.eqb_spec NL y) as [<-|]; [done|done].
Qed.

Lemma trailing_unmatched (c : N) (s : str) :
  blank c = true ->
  match_at EnhancedNoteExporter.re_trailing (c :: s) = None ->
  match_at EnhancedNoteExporter.re_trailing s = None
  /\ startswith [NL] s = false.
Proof.
  intros Hc. rewrite !match_at_trailing. cbn [span]. rewrite Hc.
  cbn [drop]. change (1 <=? S _)%nat with true. cbn [andb].
  destruct (startswith [NL] (drop (span blank None s) s)) eqn:E; [done|].
  intros _. rewrite andb_false_r. split; [done|].
  destruct s as [|d rest]; [done|]. cbn [startswith].
  destruct (N.eqb_spec NL d) as [<-|]; [|done].
  cbn [span] in E. change (blank NL) with false in E. by rewrite drop_0 in E.
Qed.

Lemma no_trailing_sub (s : str) (k : nat) :
  no_trailing_blank
    (sub_go EnhancedNoteExporter.re_trailing (fun _ _ => [NL]) k s) = true.
Proof.
  revert k. induction s as [|c s IH]; intros k.
  - by destruct k.
  - destruct k as [|j]; [|apply IH].
    cbn [sub_go].
    destruct (match_at EnhancedNoteExporter.re_trailing (c :: s))
      as [[n g]|] eqn:E.
    + rewrite match_at_trailing in E.
      destruct (_ && _); [|done]. injection E as <- <-.
      cbn [app no_trailing_blank]. rewrite IH, andb_true_r.
      by destruct (sub_go _ _ _ s).
    + cbn [no_trailing_blank]. rewrite IH, andb_true_r.
      destruct (blank c) eqn:Hc; [|by destruct (sub_go _ _ _ s)].
      destruct (trailing_unmatched c s Hc E) as [Hs Hnl].
      destruct s as [|d rest]; [done|].
      cbn [sub_go]. rewrite Hs. cbn [startswith] in Hnl.
      rewrite andb_true_r, N.eqb_sym in Hnl. by rewrite Hnl.
Qed.

(** ** Resource descriptors *)

Lemma sub_go_result_ok (r : re) (repl : str -> caps -> result str) :
  (forall t g, exists x, repl t g = Ok x) ->
  forall s k, exists out, sub_go_result r repl k s = Ok out.
Proof.
  intros Hrepl. induction s as [|c s IH]; intros k.
  - destruct k; simpl; [|by eexists].
    destruct (match_at r []) as [[n g]|]; [apply Hrepl|by eexists].
  - destruct k as [|j]; [|apply IH]. cbn [sub_go_result].
    destruct (match_at r (c :: s)) as [[n g]|].
    + destruct (Hrepl (take n (c :: s)) g) as [x ->].
      cbn [mbind result_bind].
      destruct n as [|j]; [destruct (IH 0%nat) as [u ->]
                          |destruct (IH j) as [u ->]];
        cbn [mbind result_bind]; by eexists.
    + destruct (IH 0%nat) as [u ->]. cbn [mbind result_bind]. by eexists.
Qed.

Lemma format_scalar (v : value) :
  scalar v = true -> exists s, format_value v = Ok s.
Proof. destruct v as [| | |[]| | |]; try done; by eexists. Qed.

Lemma replace_media_ok (lookup : gmap str dict) (media_tag : str) :
  map_Forall (fun _ r => descriptor r = true) lookup ->
  exists t, EnhancedNoteExporter.replace_media lookup media_tag = Ok t.
Proof.
  intros Hl. unfold EnhancedNoteExporter.replace_media.
  destruct (search _ _) as [[? g]|]; [|by eexists].
  destruct (lookup !! group 1 g) as [r|] eqn:E; [|by eexists].
  apply Hl in E. unfold descriptor in E.
  apply andb_prop in E as [[[_ Him]%andb_prop Hp]%andb_prop Ho].
  unfold contains in Him. unfold getitem, get_default in *.
  destruct (r !! "is_image") as [im|]; [|done]. cbn [mbind result_bind].
  destruct (r !! "relative_path") as [p|]; [|done].
  destruct (format_scalar p Hp) as [ps Hps].
  destruct (r !! "original_filename") as [o|].
  - destruct (format_scalar o Ho) as [os Hos].
    destruct (is_truthy im); rewrite Hos; cbn [mbind result_bind];
      rewrite Hps; cbn [mbind result_bind]; by eexists.
  - destruct (is_truthy im); cbn [format_value mbind result_bind];
      rewrite Hps; cbn [mbind result_bind]; by eexists.
Qed.

Lemma build_lookup_ok (resources : list dict) (lookup : gmap str dict) :
  Forall (fun r => descriptor r = true) resources ->
  map_Forall (fun _ r => descriptor r = true) lookup ->
  exists lookup',
    EnhancedNoteExporter.build_lookup resources lookup = Ok lookup'
    /\ map_Forall (fun _ r => descriptor r = true) lookup'.
Proof.
  intros Hrs. revert lookup.
  induction Hrs as [|r rs Hr _ IH]; intros lookup Hl; [by eexists|].
  cbn [EnhancedNoteExporter.build_lookup].
  assert (Hs : scalar (get r "resource_hash") = true).
  { unfold descriptor in Hr. by repeat (apply andb_prop in Hr as [Hr _]). }
  destruct (get r "resource_hash") as [|[|c t]| | | | |]; try done;
    try by apply IH.
  apply IH. by apply map_Forall_insert_2.
Qed.

Lemma tags_converted_ok (html_content : str) (resources : list dict) :
  Forall (fun r => descriptor r = true) resources ->
  exists text, tags_converted html_content resources = Ok text.
Proof.
  intros Hrs. unfold tags_converted.
  destruct (build_lookup_ok resources ∅ Hrs) as (lookup & -> & Hl);
    [apply map_Forall_empty|].
  cbn [mbind result_bind]. unfold sub_fn_result.
  destruct (sub_go_result_ok ENEXParser.re_en_media
              (fun media_tag _ =>
                 EnhancedNoteExporter.replace_media lookup media_tag)
              ltac:(intros; by apply replace_media_ok)
              (sub_fn ENEXParser.re_cdata (fun _ g => group 1 g) html_content)
              0%nat) as [text ->].
  cbn [mbind result_bind]. by eexists.
Qed.

(** The descriptors [_extract_resource] returns have this shape. *)
Lemma extracted_descriptor (resource_elem : ET.element) (dir : str)
      (idx : N) (st st' : fs) (info : dict) :
  EnhancedNoteExporter._extract_resource resource_elem dir idx st
  = (Ok (Some info), st') ->
  descriptor info = true.
Proof.
  unfold EnhancedNoteExporter._extract_resource.
  repeat case_match; try done;
    unfold mbind, io_bind, write, mret, io_ret, raise;
    repeat case_match; try done.
  all: intros [= <- _]; unfold descriptor, get, get_default, contains.
  all: simplify_map_eq.
  all: by destruct (ET.get "hash" _),
            (AttachmentExtractor.declared_filename _).
Qed.

(** C6, as stated, has the entities decoded before the whitespace
    clean-up.  On a body with five encoded newlines the conversion keeps
    all five, where the order of the specification would leave three. *)
Lemma C6_order_counterexample :
  EnhancedNoteExporter._html_to_markdown_with_images
    (Some (lit "a&#10;&#10;&#10;&#10;&#10;b")) []
  = Ok (lit "a" ++ [NL; NL; NL; NL; NL] ++ lit "b")
  /\ spec_order_markdown (lit "a&#10;&#10;&#10;&#10;&#10;b") []
     = Ok (lit "a" ++ [NL; NL; NL] ++ lit "b").
Proof. split; vm_compute; reflexivity. Qed.

(** C6, amended. The conversion collapses the runs of four or more
    newlines to three and then removes the spaces and tabs before each
    newline on the text that still holds its entities; the entities are
    decoded after that, and only the trim of the whole document follows
    the decoding. *)
Theorem C6_cleanup_before_decoding (html_content : str)
        (resources : list dict)
        (Hbody : html_content <> [])
        (Hres : Forall (fun r => descriptor r = true) resources) :
  exists text collapsed cleaned out,
    tags_converted html_content resources = Ok text
    /\ collapsed = sub EnhancedNoteExporter.re_nl4 [NL; NL; NL] text
    /\ no_four_newlines collapsed = true
    /\ cleaned = sub EnhancedNoteExporter.re_trailing [NL] collapsed
    /\ no_trailing_blank cleaned = true
    /\ EnhancedNoteExporter._html_to_markdown_with_images
         (Some html_content) resources = Ok out
    /\ out = strip (Html.unescape cleaned)
    /\ trimmed out = true.
Proof.
  destruct (tags_converted_ok html_content resources Hres) as [text Htext].
  exists text. do 3 eexists. split; [exact Htext|].
  split; [reflexivity|]. split; [apply no_four_sub|].
  split; [reflexivity|]. split; [apply no_trailing_sub|].
  split; [|split; [reflexivity|apply trimmed_strip]].
  unfold tags_converted in Htext.
  unfold EnhancedNoteExporter._html_to_markdown_with_images.
  destruct html_content as [|c t]; [done|].
  destruct (EnhancedNoteExporter.build_lookup resources ∅) as [lookup|];
    [|done].
  cbn [mbind result_bind] in *.
  destruct (sub_fn_result _ _ _) as [text'|]; [|done].
  cbn [mbind result_bind] in *. by injection Htext as <-.
Qed.

Lemma C6_cleanup_before_decoding_witness :
  Sample.body_with_image <> []
  /\ Forall (fun r => descriptor r = true) [Sample.png_descriptor]
  /\ exists text collapsed cleaned out,
       tags_converted Sample.body_with_image [Sample.png_descriptor]
       = Ok text
       /\ collapsed = sub EnhancedNoteExporter.re_nl4 [NL; NL; NL] text
       /\ no_four_newlines collapsed = true
       /\ cleaned = sub EnhancedNoteExporter.re_trailing [NL] collapsed
       /\ no_trailing_blank cleaned = true
       /\ EnhancedNoteExporter._html_to_markdown_with_images
            (Some Sample.body_with_image) [Sample.png_descriptor] = Ok out
       /\ out = strip (Html.unescape cleaned)
       /\ trimmed out = true.
Proof.
  split; [discriminate|].
  assert (H : Forall (fun r => descriptor r = true) [Sample.png_descriptor]).
  { constructor; [vm_compute; reflexivity|constructor]. }
  split; [exact H|].
  apply (C6_cleanup_before_decoding Sample.body_with_image
           [Sample.png_descriptor]); [discriminate|exact H].
Defined.

(** ** Media placeholders *)

(** A placeholder without a hash, or whose hash no resource declares,
    becomes the generic marker. *)
Lemma replace_media_unmatched (lookup : gmap str dict) (media_tag : str) :
  matched_resource lookup media_tag = None ->
  EnhancedNoteExporter.replace_media lookup media_tag = Ok marker.
Proof.
  unfold matched_resource, media_hash, EnhancedNoteExporter.replace_media.
  destruct (search _ _) as [[? g]|]; [|done]. cbn [mbind option_bind].
  by intros ->.
Qed.

(** A placeholder of a resource becomes an image reference or a
    paperclip link to the relative path of the resource; the text shown
    is the value stored under [original_filename], formatted. *)
Lemma replace_media_matched (lookup : gmap str dict) (media_tag : str)
      (resource : dict) (is_image : bool) (name : value)
      (shown path : str) :
  matched_resource lookup media_tag = Some resource ->
  resource !! "is_image" = Some (VBool is_image) ->
  resource !! "relative_path" = Some (VStr path) ->
  resource !! "original_filename" = Some name ->
  format_value name = Ok shown ->
  EnhancedNoteExporter.replace_media lookup media_tag
  = Ok (if is_image then image_reference shown path
        else paperclip_link shown path).
Proof.
  unfold matched_resource, media_hash, EnhancedNoteExporter.replace_media.
  destruct (search _ _) as [[? g]|]; [|done]. cbn [mbind option_bind].
  intros -> Him Hp Ho Hs. unfold getitem, get_default.
  rewrite Him, Hp, Ho. cbn [mbind result_bind is_truthy].
  destruct is_image; rewrite Hs; reflexivity.
Qed.

(** Every descriptor [_extract_resource] builds holds the key
    [original_filename]: a lookup with a default returns the stored
    value, which is [None] when the resource declares no file name. *)
Lemma extracted_original_filename (resource_elem : ET.element) (dir : str)
      (idx : N) (st : fs) :
  match fst (EnhancedNoteExporter._extract_resource resource_elem dir idx st)
  with
  | Ok (Some resource) =>
      forall default,
        get_default resource "original_filename" default
        = of_text (AttachmentExtractor.declared_filename resource_elem)
  | _ => True
  end.
Proof.
  unfold EnhancedNoteExporter._extract_resource.
  repeat case_match; try done.
  all: unfold mbind, io_bind, write in *; repeat case_match; simplify_eq.
  all: try done.
  all: intros d; unfold get_default; by simplify_map_eq.
Qed.

(** C3, code defect. The descriptor of an extracted resource always
    holds the key [original_filename], so the defaults [Image] and
    [Attachment] of the lookup are never taken.  For an image resource
    without a declared file name the key holds [None] and the alt text
    reads [None]: the note with one such image converts to a text with
    the reference [![None](attachments/5289df73.png)], not the
    reference with the alt text [Image]. *)
Theorem C3_unnamed_image_alt_text :
  (forall resource_elem dir idx st,
      match
        fst (EnhancedNoteExporter._extract_resource resource_elem dir idx st)
      with
      | Ok (Some resource) =>
          get_default resource "original_filename" (VStr (lit "Image"))
          = of_text (AttachmentExtractor.declared_filename resource_elem)
          /\ get_default resource "original_filename"
               (VStr (lit "Attachment"))
             = of_text (AttachmentExtractor.declared_filename resource_elem)
      | _ => True
      end)
  /\ AttachmentExtractor.declared_filename Sample.unnamed_png = None
  /\ Sample.png_descriptor !! "original_filename" = Some VNone
  /\ fst (EnhancedNoteExporter.note_markdown Sample.note_with_image
            (lit "out/attachments") 1 Sample.empty_fs)
     = Ok (lit "See" ++ image_reference (lit "None")
                          (lit "attachments/5289df73.png")
           ++ lit " here")
  /\ fst (EnhancedNoteExporter.note_markdown Sample.note_with_image
            (lit "out/attachments") 1 Sample.empty_fs)
     <> Ok (lit "See" ++ image_reference (lit "Image")
                           (lit "attachments/5289df73.png")
            ++ lit " here").
Proof.
  split.
  { intros resource_elem dir idx st.
    pose proof (extracted_original_filename resource_elem dir idx st) as H.
    destruct (fst _) as [[resource|]|]; [|done..]. by split. }
  split; [vm_compute; reflexivity|].
  split; [vm_compute; reflexivity|].
  split; [vm_compute; reflexivity|].
  vm_compute. discriminate.
Qed.

(** ** Failing writes *)

Lemma keeps_denied_bind {A B} (c : io A) (f : A -> io B) :
  keeps_denied c -> (forall a, keeps_denied (f a)) -> keeps_denied (c ≫= f).
Proof.
  intros Hc Hf st. unfold mbind, io_bind. specialize (Hc st).
  destruct (c st) as [[a|e] st1]; simpl in *; [|done].
  by rewrite Hf.
Qed.

Lemma keeps_denied_ret {A} (a : A) : keeps_denied (mret a).
Proof. done. Qed.

Lemma keeps_denied_raise {A} (e : exn) : keeps_denied (@raise A e).
Proof. done. Qed.

Lemma keeps_denied_lift {A} (r : result A) : keeps_denied (lift r).
Proof. done. Qed.

Lemma keeps_denied_write (p : str) (c : content) : keeps_denied (write p c).
Proof. intros st. unfold write. by destruct (denied st p). Qed.

Lemma keeps_denied_write_block (p : str) (body : result str) :
  keeps_denied (write_block p body).
Proof.
  intros st. unfold write_block. by destruct (denied st p), body.
Qed.

Lemma keeps_denied_mkdir (p : str) : keeps_denied (mkdir p).
Proof. intros st. unfold mkdir. by destruct (denied st p). Qed.

Lemma keeps_denied_export_note (output_dir : str) (i : N) (note : dict) :
  keeps_denied (IndividualNoteExporter.export_note output_dir i note).
Proof.
  unfold IndividualNoteExporter.export_note.
  repeat (apply keeps_denied_bind; [|intros ?]);
    auto using @keeps_denied_lift, keeps_denied_write_block,
               @keeps_denied_ret.
Qed.

Lemma filename_needs_str (i : N) (title : value) (filename : str) :
  IndividualNoteExporter.note_filename i title = Ok filename ->
  exists s, title = VStr s.
Proof.
  unfold IndividualNoteExporter.note_filename,
    IndividualNoteExporter.sanitize_filename.
  destruct title; try done. by eexists.
Qed.

(** The note whose file is refused stops its own export. *)
Lemma export_note_denied (output_dir : str) (i : N) (note : dict)
      (filename : str) (st : fs) :
  IndividualNoteExporter.note_filename i
    (get_default note "title" (VStr (lit "Untitled"))) = Ok filename ->
  denied st (path_join output_dir filename) = true ->
  IndividualNoteExporter.export_note output_dir i note st
  = (Raise OSError, st).
Proof.
  intros Hf Hd. unfold IndividualNoteExporter.export_note.
  destruct (filename_needs_str _ _ _ Hf) as [s Hs].
  rewrite Hf, Hs. unfold mbind, io_bind, lift, write_block. cbn [as_str].
  by rewrite Hd.
Qed.

(** ... and with it the loop over the notes. *)
Lemma export_notes_raises (output_dir : str) (l : list (N * dict))
      (i : N) (note : dict) (filename : str) (st : fs) :
  In (i, note) l ->
  IndividualNoteExporter.note_filename i
    (get_default note "title" (VStr (lit "Untitled"))) = Ok filename ->
  denied st (path_join output_dir filename) = true ->
  exists e st',
    IndividualNoteExporter.export_notes output_dir l st = (Raise e, st').
Proof.
  intros Hin Hf. revert st.
  induction l as [|[i0 note0] l IH]; intros st Hd; [done|].
  cbn [IndividualNoteExporter.export_notes]. unfold mbind at 1, io_bind at 1.
  destruct Hin as [[= -> ->]|Hin].
  - rewrite (export_note_denied _ _ _ _ _ Hf Hd). by eexists _, _.
  - pose proof (keeps_denied_export_note output_dir i0 note0 st) as Hk.
    destruct (IndividualNoteExporter.export_note output_dir i0 note0 st)
      as [[line|e] st1]; [|by eexists _, _].
    simpl in Hk. destruct (IH Hin st1) as (e & st' & Hrun).
    { by rewrite Hk. }
    unfold mbind, io_bind. rewrite Hrun. by eexists _, _.
Qed.

Lemma keeps_denied_extract (r : ET.element) (dir : str) (idx : N) :
  keeps_denied (AttachmentExtractor._extract_resource r dir idx).
Proof.
  unfold AttachmentExtractor._extract_resource.
  repeat case_match; try apply keeps_denied_ret.
  all: apply keeps_denied_bind; [apply keeps_denied_write|].
  all: intros ?; apply keeps_denied_ret.
Qed.

Lemma keeps_denied_extract_resources (l : list ET.element) (dir : str)
      (idx : N) (attachments : list dict) (amap : gmap str dict) :
  keeps_denied
    (AttachmentExtractor.extract_resources l dir idx attachments amap).
Proof.
  revert attachments amap. induction l as [|r l IH]; intros attachments amap.
  - apply keeps_denied_ret.
  - cbn [AttachmentExtractor.extract_resources].
    apply keeps_denied_bind; [apply keeps_denied_extract|].
    intros [info|]; [|apply IH].
    repeat case_match; try apply IH; apply keeps_denied_raise.
Qed.

Lemma extract_resources_raises (l : list ET.element) (dir : str) (idx : N)
      (r : ET.element) (bytes : list N) :
  In r l -> payload r = Some bytes ->
  forall attachments amap st,
    denied st (attachment_path dir r bytes) = true ->
    exists e st',
      AttachmentExtractor.extract_resources l dir idx attachments amap st
      = (Raise e, st').
Proof.
  intros Hin Hp.
  induction l as [|x l IH]; intros attachments amap st Hd; [done|].
  cbn [AttachmentExtractor.extract_resources].
  unfold mbind at 1, io_bind at 1.
  destruct Hin as [->|Hin].
  - rewrite (extract_denied _ _ _ _ _ Hp Hd). by eexists _, _.
  - pose proof (keeps_denied_extract x dir idx st) as Hk.
    destruct (AttachmentExtractor._extract_resource x dir idx st)
      as [[info|e] st1]; [|by eexists _, _].
    simpl in Hk. rewrite <- Hk in Hd.
    destruct info as [info|]; [|by apply IH].
    repeat case_match; try (by apply IH); by eexists _, _.
Qed.

Lemma extract_notes_raises (l : list (N * ET.element)) (dir : str)
      (idx : N) (note_elem r : ET.element) (bytes : list N) :
  In (idx, note_elem) l ->
  In r (ET.findall "resource" note_elem) ->
  payload r = Some bytes ->
  forall amap entries st,
    denied st (attachment_path dir r bytes) = true ->
    exists e st',
      AttachmentExtractor.extract_notes l dir amap entries st
      = (Raise e, st').
Proof.
  intros Hin Hr Hp.
  induction l as [|[i0 e0] l IH]; intros amap entries st Hd; [done|].
  cbn [AttachmentExtractor.extract_notes].
  unfold mbind at 1, io_bind at 1.
  destruct Hin as [[= -> ->]|Hin].
  - destruct (extract_resources_raises _ dir idx r bytes Hr Hp [] amap st Hd)
      as (e & st' & ->). by eexists _, _.
  - pose proof (keeps_denied_extract_resources
                  (ET.findall "resource" e0) dir i0 [] amap st) as Hk.
    destruct (AttachmentExtractor.extract_resources _ dir i0 [] amap st)
      as [[[atts amap']|e] st1]; [|by eexists _, _].
    simpl in Hk. rewrite <- Hk in Hd. by apply IH.
Qed.

(** The loop over the notes stops at the first refused file: the notes
    before it are written, the notes after it are not looked at. *)
Lemma export_notes_stops (output_dir : str) (before after : list (N * dict))
      (i : N) (note : dict) (filename : str) (st st1 : fs)
      (lines : list str) :
  IndividualNoteExporter.export_notes output_dir before st = (Ok lines, st1) ->
  IndividualNoteExporter.note_filename i
    (get_default note "title" (VStr (lit "Untitled"))) = Ok filename ->
  denied st (path_join output_dir filename) = true ->
  IndividualNoteExporter.export_notes output_dir
    (before ++ (i, note) :: after) st = (Raise OSError, st1).
Proof.
  intros Hrun Hf. revert st lines Hrun.
  induction before as [|[i0 note0] before IH]; intros st lines Hrun Hd.
  - injection Hrun as _ <-. cbn [app IndividualNoteExporter.export_notes].
    unfold mbind, io_bind. by rewrite (export_note_denied _ _ _ _ _ Hf Hd).
  - cbn [app IndividualNoteExporter.export_notes] in *.
    unfold mbind at 1, io_bind at 1 in Hrun. unfold mbind at 1, io_bind at 1.
    pose proof (keeps_denied_export_note output_dir i0 note0 st) as Hk.
    destruct (IndividualNoteExporter.export_note output_dir i0 note0 st)
      as [[line|e] st0]; [|done].
    simpl in Hk. rewrite <- Hk in Hd.
    unfold mbind at 1, io_bind at 1 in Hrun. unfold mbind at 1, io_bind at 1.
    destruct (IndividualNoteExporter.export_notes output_dir before st0)
      as [[lines0|e] st2] eqn:E; [|done].
    injection Hrun as _ <-.
    by rewrite (IH st0 lines0 E Hd).
Qed.

(** The same for the resources of one note. *)
Lemma extract_resources_stops (before after : list ET.element) (dir : str)
      (idx : N) (r : ET.element) (bytes : list N) :
  payload r = Some bytes ->
  forall attachments amap st attachments' amap' st1,
    AttachmentExtractor.extract_resources before dir idx attachments amap st
    = (Ok (attachments', amap'), st1) ->
    denied st (attachment_path dir r bytes) = true ->
    AttachmentExtractor.extract_resources (before ++ r :: after) dir idx
      attachments amap st = (Raise OSError, st1).
Proof.
  intros Hp.
  induction before as [|x before IH];
    intros attachments amap st attachments' amap' st1 Hrun Hd.
  - injection Hrun as _ _ <-.
    cbn [app AttachmentExtractor.extract_resources].
    unfold mbind, io_bind. by rewrite (extract_denied _ _ _ _ _ Hp Hd).
  - cbn [app AttachmentExtractor.extract_resources] in *.
    unfold mbind at 1, io_bind at 1 in Hrun. unfold mbind at 1, io_bind at 1.
    pose proof (keeps_denied_extract x dir idx st) as Hk.
    destruct (AttachmentExtractor._extract_resource x dir idx st)
      as [[info|e] st0]; [|done].
    simpl in Hk. rewrite <- Hk in Hd.
    destruct info as [info|]; [|by eapply IH].
    repeat case_match; try done; by eapply IH.
Qed.

(** C8, as stated, lets the run go on after a failed write.  With the
    file of the first note refused, the export of the two sample notes
    raises [OSError]; the second note, which the same run writes on a
    file system that refuses nothing, is not written, and neither is the
    index. *)
Lemma C8_partial_success_counterexample :
  fst (Sample.export_two_notes (Sample.refusing Sample.first_note_path))
  = Raise OSError
  /\ files (snd (Sample.export_two_notes
                   (Sample.refusing Sample.first_note_path)))
     !! Sample.second_note_path = None
  /\ files (snd (Sample.export_two_notes
                   (Sample.refusing Sample.first_note_path)))
     !! path_join Sample.export_dir (lit "README.md") = None
  /\ fst (Sample.export_two_notes Sample.empty_fs) = Ok Sample.export_dir
  /\ is_Some (files (snd (Sample.export_two_notes Sample.empty_fs))
              !! Sample.second_note_path).
Proof.
  split; [vm_compute; reflexivity|]. split; [vm_compute; reflexivity|].
  split; [vm_compute; reflexivity|]. split; [vm_compute; reflexivity|].
  vm_compute. by eexists.
Qed.

(** C8, amended. An I/O failure while writing one note's Markdown file
    or one attachment's bytes is not handled: the exception leaves
    [export_notes_individually], respectively
    [extract_attachments_from_enex], so the run ends there and returns
    nothing to its caller. *)
Theorem C8_write_failure_propagates :
  (forall output_base_dir root notebook_name timestamp now_index
          now_metadata st notes i note filename,
      ENEXParser.parse_enex_file root = Ok notes ->
      In (i, note) (enumerate 1 notes) ->
      IndividualNoteExporter.note_filename i
        (get_default note "title" (VStr (lit "Untitled"))) = Ok filename ->
      denied st
        (path_join
           (path_join output_base_dir (notebook_name ++ lit "_" ++ timestamp))
           filename) = true ->
      exists e st',
        IndividualNoteExporter.export_notes_individually output_base_dir
          root notebook_name timestamp now_index now_metadata st
        = (Raise e, st'))
  /\ (forall root notebook_dir st idx note_elem r bytes,
         In (idx, note_elem) (enumerate 1 (ET.findall "note" root)) ->
         In r (ET.findall "resource" note_elem) ->
         payload r = Some bytes ->
         denied st
           (attachment_path (path_join notebook_dir (lit "attachments"))
              r bytes) = true ->
         exists e st',
           AttachmentExtractor.extract_attachments_from_enex root
             notebook_dir st = (Raise e, st')).
Proof.
  split.
  - intros base root nb ts n1 n2 st notes i note filename Hparse Hin Hf Hd.
    unfold IndividualNoteExporter.export_notes_individually.
    rewrite Hparse. unfold mbind at 1, io_bind at 1, lift at 1.
    unfold mbind at 1, io_bind at 1.
    pose proof (keeps_denied_mkdir (path_join base (nb ++ lit "_" ++ ts)) st)
      as Hk.
    destruct (mkdir _ st) as [[[]|e] st1]; [|by eexists _, _].
    simpl in Hk. rewrite <- Hk in Hd.
    destruct (export_notes_raises _ _ i note filename st1 Hin Hf Hd)
      as (e & st' & Hrun).
    unfold mbind at 1, io_bind at 1. rewrite Hrun. by eexists _, _.
  - intros root nbdir st idx note_elem r bytes Hin Hr Hp Hd.
    unfold AttachmentExtractor.extract_attachments_from_enex.
    unfold mbind at 1, io_bind at 1.
    pose proof (keeps_denied_mkdir (path_join nbdir (lit "attachments")) st)
      as Hk.
    destruct (mkdir _ st) as [[[]|e] st1]; [|by eexists _, _].
    simpl in Hk. rewrite <- Hk in Hd.
    destruct (extract_notes_raises _ _ idx note_elem r bytes Hin Hr Hp
                ∅ [] st1 Hd) as (e & st' & Hrun).
    unfold mbind at 1, io_bind at 1. rewrite Hrun. by eexists _, _.
Qed.

(** The title a parsed note carries. *)
Lemma parse_note_title (e : ET.element) (note : dict) :
  ENEXParser._parse_note e = Ok note ->
  note !! "title"
  = Some (match ET.find "title" e with
          | Some title_elem => of_text (ET.text title_elem)
          | None => VStr (lit "Untitled")
          end).
Proof.
  unfold ENEXParser._parse_note.
  destruct (ENEXParser.parse_resources _) as [rs|]; [|done].
  cbn [mbind result_bind]. intros [= <-].
  repeat case_match; by simplify_map_eq.
Qed.

Lemma C8_write_failure_propagates_witness :
  (exists e st',
      Sample.export_two_notes (Sample.refusing Sample.first_note_path)
      = (Raise e, st'))
  /\ exists e st',
       AttachmentExtractor.extract_attachments_from_enex Sample.two_notes
         (lit "nb")
         (Sample.refusing
            (attachment_path (lit "nb/attachments") Sample.named_png
               [1; 2; 3]))
       = (Raise e, st').
Proof.
  destruct C8_write_failure_propagates as [Hnotes Hattachments].
  split.
  - destruct (parse_notes_ok (ET.findall "note" Sample.two_notes))
      as [notes Hparse]; [vm_compute; reflexivity|].
    pose proof (parse_notes_all _ _ Hparse) as Hall.
    destruct notes as [|note notes].
    { apply Forall2_length in Hall. vm_compute in Hall. discriminate. }
    apply (Hnotes (lit "exports") Sample.two_notes (lit "nb")
             (lit "20240101_120000") (lit "2024-01-01T12:00:00")
             (lit "2024-01-01T12:00:01")
             (Sample.refusing Sample.first_note_path)
             (note :: notes) 1 note (lit "0001_A_B_ Test.md")).
    + exact Hparse.
    + by left.
    + change (ET.findall "note" Sample.two_notes)
        with [Sample.note "A/B: Test" "<en-note>Hello<br/>World</en-note>" [];
              Sample.note "Second" "<en-note><p>Text</p></en-note>"
                [Sample.named_png]] in Hall.
      apply Forall2_cons in Hall as [Hnote _].
      apply parse_note_title in Hnote. unfold get_default. rewrite Hnote.
      vm_compute. reflexivity.
    + vm_compute. reflexivity.
  - apply (Hattachments Sample.two_notes (lit "nb") _ 2
             (Sample.note "Second" "<en-note><p>Text</p></en-note>"
                [Sample.named_png])
             Sample.named_png [1; 2; 3]).
    + right. left. reflexivity.
    + left. reflexivity.
    + vm_compute. reflexivity.
    + vm_compute. reflexivity.
Defined.

(* ===================================================================== *)
(** * Further properties of the code *)
(* ===================================================================== *)

(** ** Hashes, file names and the extraction of attachments *)

Lemma le_bytes_length (n : nat) (x : N) : length (Md5.le_bytes n x) = n.
Proof. revert x. induction n as [|n IH]; intros x; simpl; [done|]. by rewrite IH. Qed.

Lemma le_bytes_byte (n : nat) (x : N) :
  Forall (fun b => b < 256) (Md5.le_bytes n x).
Proof.
  revert x. induction n as [|n IH]; intros x; simpl; constructor; [|apply IH].
  change 255 with (N.ones 8). rewrite N.land_ones.
  apply N.mod_lt. done.
Qed.

Lemma digest_shape (msg : list N) :
  length (Md5.digest msg) = 16%nat /\ Forall (fun b => b < 256) (Md5.digest msg).
Proof.
  unfold Md5.digest. destruct (Md5.blocks _ _ _) as [a b c d].
  split.
  - rewrite !length_app, !le_bytes_length. done.
  - repeat (apply Forall_app; split); apply le_bytes_byte.
Qed.

Lemma hexchar_lower (x : N) : x < 16 -> hex_lower (Md5.hexchar x) = true.
Proof.
  intros Hx. unfold hex_lower, Md5.hexchar, range.
  destruct (N.ltb_spec x 10).
  - apply orb_true_iff. left. apply andb_true_iff. split; apply N.leb_le; lia.
  - apply orb_true_iff. right. apply andb_true_iff. split; apply N.leb_le; lia.
Qed.

Lemma hexdigest_shape (msg : list N) :
  length (Md5.hexdigest msg) = 32%nat
  /\ Forall (fun c => hex_lower c = true) (Md5.hexdigest msg).
Proof.
  unfold Md5.hexdigest. destruct (digest_shape msg) as [Hl Hb].
  revert Hl Hb. generalize (Md5.digest msg) as d. intros d Hl Hb.
  assert (H : forall d : list N, Forall (fun b => b < 256) d ->
    length (flat_map (fun b => [Md5.hexchar (N.shiftr b 4);
                                Md5.hexchar (N.land b 15)]) d)
    = (2 * length d)%nat
    /\ Forall (fun c => hex_lower c = true)
         (flat_map (fun b => [Md5.hexchar (N.shiftr b 4);
                              Md5.hexchar (N.land b 15)]) d)).
  { clear. induction 1 as [|b d Hb _ [IH1 IH2]]; [done|].
    cbn [flat_map app length]. split; [lia|].
    constructor; [|constructor; [|exact IH2]].
    - apply hexchar_lower. rewrite N.shiftr_div_pow2.
      change (2 ^ 4) with 16. apply N.Div0.div_lt_upper_bound. lia.
    - apply hexchar_lower. change 15 with (N.ones 4). rewrite N.land_ones.
      apply N.mod_lt. done. }
  destruct (H d Hb) as [H1 H2]. split; [lia|done].
Qed.

Lemma content_hash_shape (bytes : list N) :
  length (content_hash bytes) = 8%nat
  /\ Forall (fun c => hex_lower c = true) (content_hash bytes).
Proof.
  unfold content_hash. destruct (hexdigest_shape bytes) as [Hl Hf].
  split; [rewrite length_take; lia|by apply Forall_take].
Qed.

Lemma resolve_filename_prefix (h : str) (mime : value) (name : option str) :
  exists rest, AttachmentExtractor.resolve_filename h mime name = h ++ rest.
Proof.
  unfold AttachmentExtractor.resolve_filename.
  destruct name as [[|c t]|]; try by eexists.
  unfold AttachmentExtractor.clean_and_prefix.
  repeat case_match; by eexists.
Qed.

Lemma extract_some_inv (r : ET.element) (dir : str) (idx : N) (st st' : fs)
      (info : dict) :
  AttachmentExtractor._extract_resource r dir idx st = (Ok (Some info), st') ->
  exists bytes,
    payload r = Some bytes
    /\ denied st (attachment_path dir r bytes) = false
    /\ st' = Fs (<[attachment_path dir r bytes := Bytes bytes]> (files st))
                (dirs st) (denied st)
    /\ info !! "hash" = Some (VStr (content_hash bytes))
    /\ info !! "filename"
       = Some (VStr (AttachmentExtractor.resolve_filename
                       (content_hash bytes) (mime_of r)
                       (AttachmentExtractor.declared_filename r)))
    /\ info !! "size" = Some (VInt (N.of_nat (length bytes)))
    /\ info !! "file_path" = Some (VStr (attachment_path dir r bytes)).
Proof.
  intros H. destruct (skipped_or_payload r) as [Hs|[bytes Hp]].
  { rewrite (extract_skipped _ _ _ _ Hs) in H. discriminate. }
  exists bytes. split; [done|].
  destruct (denied st (attachment_path dir r bytes)) eqn:Hd.
  { rewrite (extract_denied _ _ _ _ _ Hp Hd) in H. discriminate. }
  split; [done|].
  destruct (extract_valid r dir idx st bytes Hp Hd) as (info0 & Hrun & Hh & Hf & _).
  rewrite Hrun in H. injection H as <- <-.
  split; [done|]. split; [done|]. split; [done|].
  clear Hh Hf. revert Hrun Hd.
  unfold AttachmentExtractor._extract_resource, payload, attachment_path,
    content_hash, mime_of in *.
  repeat case_match; try done; simplify_eq.
  all: unfold mbind, io_bind, write; repeat case_match; try done.
  all: intros [= <-] _; split; by simplify_map_eq.
Qed.

(** X1. Every descriptor [_extract_resource] returns carries a content
    hash of eight lower-case hexadecimal digits, and its file name starts
    with that hash; so two resources stored under the same file name
    have the same content hash. *)
Theorem X1_filename_carries_hash (r1 r2 : ET.element) (dir1 dir2 : str)
        (idx1 idx2 : N) (st1 st2 st1' st2' : fs) (info1 info2 : dict)
        (H1 : AttachmentExtractor._extract_resource r1 dir1 idx1 st1
              = (Ok (Some info1), st1'))
        (H2 : AttachmentExtractor._extract_resource r2 dir2 idx2 st2
              = (Ok (Some info2), st2')) :
  exists h rest,
    info1 !! "hash" = Some (VStr h)
    /\ info1 !! "filename" = Some (VStr (h ++ rest))
    /\ length h = 8%nat
    /\ Forall (fun c => hex_lower c = true) h
    /\ (info1 !! "filename" = info2 !! "filename" ->
        info1 !! "hash" = info2 !! "hash").
Proof.
  apply extract_some_inv in H1 as (b1 & _ & _ & _ & Hh1 & Hf1 & _ & _).
  apply extract_some_inv in H2 as (b2 & _ & _ & _ & Hh2 & Hf2 & _ & _).
  destruct (resolve_filename_prefix (content_hash b1) (mime_of r1)
              (AttachmentExtractor.declared_filename r1)) as [rest1 E1].
  destruct (resolve_filename_prefix (content_hash b2) (mime_of r2)
              (AttachmentExtractor.declared_filename r2)) as [rest2 E2].
  destruct (content_hash_shape b1) as [Hl1 Hx1].
  destruct (content_hash_shape b2) as [Hl2 Hx2].
  exists (content_hash b1), rest1. rewrite Hh1, Hf1, E1.
  repeat split; try done.
  rewrite Hf2, E2, Hh2. intros [= Heq]. do 2 f_equal.
  apply (f_equal (take 8)) in Heq.
  rewrite !take_app_length' in Heq by done. done.
Qed.

Lemma X1_filename_carries_hash_witness :
  exists info1 info2 st1' st2',
    AttachmentExtractor._extract_resource Sample.named_png
      (lit "out/attachments") 1 Sample.empty_fs = (Ok (Some info1), st1')
    /\ AttachmentExtractor._extract_resource Sample.unknown_type
         (lit "out/attachments") 2 Sample.empty_fs = (Ok (Some info2), st2')
    /\ exists h rest,
         info1 !! "hash" = Some (VStr h)
         /\ info1 !! "filename" = Some (VStr (h ++ rest))
         /\ length h = 8%nat
         /\ Forall (fun c => hex_lower c = true) h
         /\ (info1 !! "filename" = info2 !! "filename" ->
             info1 !! "hash" = info2 !! "hash").
Proof.
  destruct (extract_valid Sample.named_png (lit "out/attachments") 1
              Sample.empty_fs [1; 2; 3]) as (info1 & Hrun1 & _);
    [vm_compute; reflexivity..|].
  destruct (extract_valid Sample.unknown_type (lit "out/attachments") 2
              Sample.empty_fs [1; 2; 3]) as (info2 & Hrun2 & _);
    [vm_compute; reflexivity..|].
  eexists info1, info2, _, _. split; [exact Hrun1|]. split; [exact Hrun2|].
  exact (X1_filename_carries_hash _ _ _ _ _ _ _ _ _ _ _ _ Hrun1 Hrun2).
Defined.

(** X2. Two resources with the same decoded bytes, the same declared
    file name and the same MIME type are stored in one file: extracting
    the second leaves the file system as the first left it, with the
    decoded bytes in that file. *)
Theorem X2_same_content_one_file (r1 r2 : ET.element) (dir : str)
        (idx1 idx2 : N) (st : fs) (bytes : list N)
        (Hp1 : payload r1 = Some bytes) (Hp2 : payload r2 = Some bytes)
        (Hname : AttachmentExtractor.declared_filename r1
                 = AttachmentExtractor.declared_filename r2)
        (Hmime : mime_of r1 = mime_of r2)
        (Hw : denied st (attachment_path dir r1 bytes) = false) :
  exists info1 info2 st1,
    AttachmentExtractor._extract_resource r1 dir idx1 st = (Ok (Some info1), st1)
    /\ AttachmentExtractor._extract_resource r2 dir idx2 st1
       = (Ok (Some info2), st1)
    /\ files st1 !! attachment_path dir r1 bytes = Some (Bytes bytes)
    /\ info1 !! "file_path" = info2 !! "file_path".
Proof.
  assert (Hpath : attachment_path dir r2 bytes = attachment_path dir r1 bytes).
  { unfold attachment_path. by rewrite Hname, Hmime. }
  destruct (extract_valid r1 dir idx1 st bytes Hp1 Hw)
    as (info1 & Hrun1 & _).
  set (st1 := Fs (<[attachment_path dir r1 bytes := Bytes bytes]> (files st))
                 (dirs st) (denied st)) in *.
  assert (Hw2 : denied st1 (attachment_path dir r2 bytes) = false).
  { by rewrite Hpath. }
  destruct (extract_valid r2 dir idx2 st1 bytes Hp2 Hw2)
    as (info2 & Hrun2 & _).
  exists info1, info2, st1. split; [done|]. split.
  { rewrite Hrun2. f_equal. unfold st1. cbn [files dirs denied].
    by rewrite Hpath, insert_insert_eq. }
  split; [unfold st1; cbn [files]; by simplify_map_eq|].
  clear -Hrun1 Hrun2 Hp1 Hp2 Hpath.
  revert Hrun1 Hrun2.
  unfold AttachmentExtractor._extract_resource, payload, attachment_path,
    mime_of, content_hash in *.
  repeat case_match; try done; simplify_eq.
  all: unfold mbind, io_bind, write; repeat case_match; try done.
  all: intros [= <-] [= <-]; simplify_map_eq; by rewrite Hpath.
Qed.

Lemma X2_same_content_one_file_witness :
  exists info1 info2 st1,
    AttachmentExtractor._extract_resource Sample.named_png (lit "out") 1
      Sample.empty_fs = (Ok (Some info1), st1)
    /\ AttachmentExtractor._extract_resource MoreSamples.named_png_copy
         (lit "out") 2 st1 = (Ok (Some info2), st1)
    /\ files st1 !! attachment_path (lit "out") Sample.named_png [1; 2; 3]
       = Some (Bytes [1; 2; 3])
    /\ info1 !! "file_path" = info2 !! "file_path".
Proof.
  apply (X2_same_content_one_file Sample.named_png MoreSamples.named_png_copy
           (lit "out") 1 2 Sample.empty_fs [1; 2; 3]);
    vm_compute; reflexivity.
Defined.

Lemma parse_resource_raises (r : ET.element) :
  resource_decodes r = false -> ENEXParser._parse_resource r = Raise ValueError.
Proof.
  unfold resource_decodes, ENEXParser._parse_resource.
  repeat case_match; done.
Qed.

Lemma parse_resource_result (r : ET.element) :
  ENEXParser._parse_resource r = Raise ValueError
  \/ exists d, ENEXParser._parse_resource r = Ok d.
Proof.
  unfold ENEXParser._parse_resource. repeat case_match; eauto.
Qed.

Lemma parse_resource_ok (r : ET.element) :
  resource_decodes r = true ->
  exists d, ENEXParser._parse_resource r = Ok d.
Proof.
  intros H. destruct (parse_resource_result r) as [E|E]; [|done].
  destruct (parse_resources_ok [r]) as [rs Hrs];
    [cbn [forallb]; by rewrite H|].
  cbn [ENEXParser.parse_resources] in Hrs. by rewrite E in Hrs.
Qed.

Lemma parse_resources_raises (l : list ET.element) :
  forallb resource_decodes l = false ->
  ENEXParser.parse_resources l = Raise ValueError.
Proof.
  induction l as [|r l IH]; [done|]. cbn [forallb ENEXParser.parse_resources].
  destruct (resource_decodes r) eqn:E.
  - intros Hl. rewrite (IH Hl).
    destruct (parse_resource_result r) as [->|[d ->]]; done.
  - intros _. by rewrite (parse_resource_raises r E).
Qed.

Lemma parse_note_raises (e : ET.element) :
  forallb resource_decodes (ET.findall "resource" e) = false ->
  ENEXParser._parse_note e = Raise ValueError.
Proof.
  intros H. unfold ENEXParser._parse_note.
  by rewrite (parse_resources_raises _ H).
Qed.

Lemma parse_note_result (e : ET.element) :
  ENEXParser._parse_note e = Raise ValueError
  \/ exists d, ENEXParser._parse_note e = Ok d.
Proof.
  destruct (forallb resource_decodes (ET.findall "resource" e)) eqn:E.
  - right. by apply parse_note_ok.
  - left. by apply parse_note_raises.
Qed.

Lemma parse_notes_raises (l : list ET.element) :
  forallb (fun e => forallb resource_decodes (ET.findall "resource" e)) l
  = false ->
  ENEXParser.parse_notes l = Raise ValueError.
Proof.
  induction l as [|e l IH]; [done|]. cbn [forallb ENEXParser.parse_notes].
  destruct (forallb resource_decodes (ET.findall "resource" e)) eqn:E.
  - intros Hl. rewrite (IH Hl).
    destruct (parse_note_result e) as [->|[d ->]]; done.
  - intros _. by rewrite (parse_note_raises e E).
Qed.

(** X3. One attachment whose base64 text does not decode makes
    [parse_enex_file] raise [ValueError]: no note of the file is
    returned, also not the notes before the damaged one. *)
Theorem X3_undecodable_payload_fails_parse (root : ET.element)
        (Hbad : well_formed root = false) :
  ENEXParser.parse_enex_file root = Raise ValueError.
Proof. by apply parse_notes_raises. Qed.

Lemma X3_undecodable_payload_fails_parse_witness :
  well_formed MoreSamples.broken_export = false
  /\ ENEXParser.parse_enex_file MoreSamples.broken_export = Raise ValueError.
Proof.
  assert (H : well_formed MoreSamples.broken_export = false)
    by (vm_compute; reflexivity).
  split; [exact H|].
  exact (X3_undecodable_payload_fails_parse MoreSamples.broken_export H).
Defined.

(** X4. The record [_parse_resource] returns holds the key [size]
    exactly for a resource with a valid base64 payload, with the number
    of decoded bytes: the size the attachment extractor stores in its
    descriptor of the same resource. *)
Theorem X4_parsed_size (r : ET.element) (d : dict)
        (Hparse : ENEXParser._parse_resource r = Ok d) :
  d !! "size" = size_of <$> payload r
  /\ forall dir idx st info st',
       AttachmentExtractor._extract_resource r dir idx st
       = (Ok (Some info), st') ->
       info !! "size" = d !! "size".
Proof.
  assert (Hsize : d !! "size" = size_of <$> payload r).
  { revert Hparse. unfold ENEXParser._parse_resource, payload, size_of.
    repeat case_match; simplify_eq; try done.
    all: intros [= <-]; simplify_map_eq; try done.
    all: try (exfalso; congruence). }
  split; [done|].
  intros dir idx st info st' Hrun.
  apply extract_some_inv in Hrun as (bytes & Hp & _ & _ & _ & _ & Hs & _).
  by rewrite Hsize, Hp, Hs.
Qed.

Lemma X4_parsed_size_witness :
  exists d,
    ENEXParser._parse_resource Sample.named_png = Ok d
    /\ d !! "size" = size_of <$> payload Sample.named_png
    /\ forall dir idx st info st',
         AttachmentExtractor._extract_resource Sample.named_png dir idx st
         = (Ok (Some info), st') ->
         info !! "size" = d !! "size".
Proof.
  destruct (parse_resource_ok Sample.named_png) as [d E];
    [vm_compute; reflexivity|].
  exists d. split; [exact E|].
  exact (X4_parsed_size Sample.named_png d E).
Defined.

Lemma extractors_agree (r : ET.element) (dir : str) (idx : N) (st : fs) :
  snd (EnhancedNoteExporter._extract_resource r dir idx st)
  = snd (AttachmentExtractor._extract_resource r dir idx st)
  /\ match fst (AttachmentExtractor._extract_resource r dir idx st),
           fst (EnhancedNoteExporter._extract_resource r dir idx st) with
     | Ok (Some a), Ok (Some e) =>
         Forall (fun k => e !! k = a !! k) shared_keys
         /\ exists filename mime,
              a !! "filename" = Some (VStr filename)
              /\ mime_of r = VStr mime
              /\ e !! "relative_path"
                 = Some (VStr (lit "attachments/" ++ filename))
              /\ e !! "is_image"
                 = Some (VBool (startswith (lit "image/") mime))
              /\ e !! "resource_hash" = Some (declared_hash r)
     | Ok (Some a), Raise x => x = AttributeError /\ mime_of r = VNone
     | Ok None, Ok None => True
     | Raise x, Raise y => x = y
     | _, _ => False
     end.
Proof.
  unfold EnhancedNoteExporter._extract_resource,
    AttachmentExtractor._extract_resource, mime_of, declared_hash,
    shared_keys.
  destruct (ET.find "data" r) as [data_elem|]; [|done].
  destruct (ET.text data_elem) as [[|c t]|]; [done| |done].
  destruct (negb _); [done|].
  destruct (Base64.b64decode (c :: t)) as [bytes|]; [|done].
  unfold mbind, io_bind, write.
  destruct (denied st _); [done|].
  destruct (ET.find "mime" r) as [mime_elem|].
  - destruct (ET.text mime_elem) as [mime|]; cbn [of_text fst snd].
    + split; [done|]. split.
      * repeat constructor; by simplify_map_eq.
      * eexists _, mime. by simplify_map_eq.
    + done.
  - cbn [fst snd]. split; [done|]. split.
    + repeat constructor; by simplify_map_eq.
    + eexists _, _. by simplify_map_eq.
Qed.

Lemma enhanced_extract_valid (r : ET.element) (dir mime : str) (idx : N)
      (st : fs) (bytes : list N) :
  payload r = Some bytes ->
  mime_of r = VStr mime ->
  denied st (attachment_path dir r bytes) = false ->
  exists info,
    EnhancedNoteExporter._extract_resource r dir idx st
    = (Ok (Some info),
       Fs (<[attachment_path dir r bytes := Bytes bytes]> (files st))
          (dirs st) (denied st)).
Proof.
  intros Hp Hm Hd.
  destruct (extract_valid r dir idx st bytes Hp Hd) as (a & Ha & _).
  destruct (extractors_agree r dir idx st) as [Hsnd Hfst].
  rewrite Ha in Hsnd, Hfst. cbn [fst snd] in Hsnd, Hfst.
  destruct (EnhancedNoteExporter._extract_resource r dir idx st)
    as [[[e|]|x] st'] eqn:E; cbn [fst snd] in Hsnd, Hfst.
  - exists e. by rewrite Hsnd.
  - done.
  - destruct Hfst as [_ Hnone]. by rewrite Hm in Hnone.
Qed.

(** X5. The two copies of [_extract_resource] agree: on every resource
    and file system they leave the same files; where the attachment
    extractor returns a descriptor the enhanced exporter returns one
    with the same values under the seven shared keys and with
    [relative_path], [is_image] and [resource_hash] added, except for a
    [<mime>] element without text, where the enhanced exporter raises
    [AttributeError] after it has written the file. *)
Theorem X5_extractors_agree (r : ET.element) (dir : str) (idx : N) (st : fs) :
  snd (EnhancedNoteExporter._extract_resource r dir idx st)
  = snd (AttachmentExtractor._extract_resource r dir idx st)
  /\ match fst (AttachmentExtractor._extract_resource r dir idx st),
           fst (EnhancedNoteExporter._extract_resource r dir idx st) with
     | Ok (Some a), Ok (Some e) =>
         Forall (fun k => e !! k = a !! k) shared_keys
         /\ exists filename mime,
              a !! "filename" = Some (VStr filename)
              /\ mime_of r = VStr mime
              /\ e !! "relative_path"
                 = Some (VStr (lit "attachments/" ++ filename))
              /\ e !! "is_image"
                 = Some (VBool (startswith (lit "image/") mime))
              /\ e !! "resource_hash" = Some (declared_hash r)
     | Ok (Some a), Raise x => x = AttributeError /\ mime_of r = VNone
     | Ok None, Ok None => True
     | Raise x, Raise y => x = y
     | _, _ => False
     end.
Proof. apply extractors_agree. Qed.

Lemma recorded_mono (amap amap' : gmap str dict) (st st' : fs) (a : dict) :
  (forall h, is_Some (amap !! h) -> is_Some (amap' !! h)) ->
  (forall p, is_Some (files st !! p) -> is_Some (files st' !! p)) ->
  recorded amap st a -> recorded amap' st' a.
Proof.
  intros Hm Hf (h & p & Hh & Hin & Hp & Hfile).
  exists h, p. auto.
Qed.

Lemma extract_resources_inv (l : list ET.element) (dir : str) (idx : N) :
  forall atts amap st atts' amap' st',
    AttachmentExtractor.extract_resources l dir idx atts amap st
    = (Ok (atts', amap'), st') ->
    length atts'
    = (length atts
       + length (List.filter
                   (fun r => match payload r with
                             | Some _ => true | None => false end) l))%nat
    /\ (forall h, is_Some (amap !! h) -> is_Some (amap' !! h))
    /\ (forall p, is_Some (files st !! p) -> is_Some (files st' !! p))
    /\ (Forall (recorded amap st) atts -> Forall (recorded amap' st') atts').
Proof.
  induction l as [|r l IH]; intros atts amap st atts' amap' st' Hrun.
  - injection Hrun as <- <- <-. cbn. rewrite Nat.add_0_r. auto.
  - cbn [AttachmentExtractor.extract_resources] in Hrun.
    unfold mbind at 1, io_bind at 1 in Hrun.
    destruct (AttachmentExtractor._extract_resource r dir idx st)
      as [[[info|]|e] st0] eqn:E; [| |done].
    + apply extract_some_inv in E
        as (bytes & Hp & _ & -> & Hh & _ & _ & Hpath).
      rewrite Hh in Hrun.
      assert (Ht : is_truthy (VDict info) = true).
      { cbn. apply negb_true_iff, Nat.eqb_neq. intros Hz.
        apply map_size_empty_inv in Hz. by rewrite Hz in Hh. }
      rewrite Ht in Hrun.
      apply IH in Hrun as (Hlen & Hm & Hf & Hrec).
      cbn [List.filter]. rewrite Hp. cbn [length].
      rewrite length_app in Hlen. cbn in Hlen.
      split; [lia|]. split.
      { intros h Hin. apply Hm.
        destruct (decide (content_hash bytes = h)) as [->|Hne];
          by simplify_map_eq. }
      split.
      { intros p Hin. apply Hf. cbn [files].
        destruct (decide (attachment_path dir r bytes = p)) as [->|Hne];
          by simplify_map_eq. }
      intros Hall. apply Hrec. apply Forall_app. split.
      * eapply Forall_impl; [exact Hall|]. intros a.
        apply recorded_mono.
        -- intros h Hin.
           destruct (decide (content_hash bytes = h)) as [->|Hne];
             by simplify_map_eq.
        -- intros p Hin. cbn [files].
           destruct (decide (attachment_path dir r bytes = p)) as [->|Hne];
             by simplify_map_eq.
      * constructor; [|constructor].
        exists (content_hash bytes), (attachment_path dir r bytes).
        cbn [files]. by simplify_map_eq.
    + assert (Hp : payload r = None).
      { destruct (skipped_or_payload r) as [Hs|[bytes Hp]];
          [|destruct (denied st (attachment_path dir r bytes)) eqn:Hd].
        - unfold skipped, payload in *.
          destruct (ET.find "data" r) as [d|]; [|done].
          destruct Hs as [Hs|[Hs|(t & Ht & Hdec)]].
          + by destruct (ET.text d) as [[|]|].
          + apply str_eqb_neq in Hs. rewrite Hs. by repeat case_match.
          + rewrite Ht. destruct t; [done|]. rewrite Hdec.
            by case_match.
        - by rewrite (extract_denied _ _ _ _ _ Hp Hd) in E.
        - destruct (extract_valid r dir idx st bytes Hp Hd)
            as (? & Hrun' & _). by rewrite Hrun' in E. }
      assert (st0 = st) as ->.
      { destruct (skipped_or_payload r) as [Hs|[bytes Hp']];
          [|congruence].
        rewrite (extract_skipped _ _ _ _ Hs) in E. congruence. }
      apply IH in Hrun. cbn [List.filter]. by rewrite Hp.
Qed.

Lemma extract_notes_inv (l : list (N * ET.element)) (dir : str) :
  forall amap entries st amap' entries' st',
    AttachmentExtractor.extract_notes l dir amap entries st
    = (Ok (amap', entries'), st') ->
    listed entries' = listed entries ++ expected_listing l
    /\ (forall h, is_Some (amap !! h) -> is_Some (amap' !! h))
    /\ (forall p, is_Some (files st !! p) -> is_Some (files st' !! p))
    /\ (Forall (fun en => Forall (recorded amap st)
                            (AttachmentExtractor.entry_attachments en))
               entries ->
        Forall (fun en => Forall (recorded amap' st')
                            (AttachmentExtractor.entry_attachments en))
               entries').
Proof.
  induction l as [|[i e] l IH]; intros amap entries st amap' entries' st' Hrun.
  - injection Hrun as <- <- <-. cbn. rewrite app_nil_r. auto.
  - cbn [AttachmentExtractor.extract_notes] in Hrun.
    unfold mbind at 1, io_bind at 1 in Hrun.
    destruct (AttachmentExtractor.extract_resources _ dir i [] amap st)
      as [[[atts amap0]|x] st0] eqn:E; [|done].
    apply extract_resources_inv in E as (Hlen & Hm0 & Hf0 & Hrec0).
    apply IH in Hrun as (Hl & Hm & Hf & Hrec).
    cbn [expected_listing flat_map]. fold (expected_listing l).
    fold (valid_resources e) in Hlen. cbn [length Nat.add] in Hlen.
    split.
    { rewrite Hl. destruct atts as [|a atts].
      - cbn in Hlen. by rewrite <- Hlen.
      - unfold listed at 1. rewrite map_app. fold (listed entries).
        cbn [List.map AttachmentExtractor.entry_idx
               AttachmentExtractor.entry_attachments].
        rewrite <- Hlen. cbn [length]. by rewrite <- app_assoc. }
    split; [auto|]. split; [auto|].
    intros Hall. apply Hrec.
    assert (Hold : Forall (fun en => Forall (recorded amap0 st0)
                             (AttachmentExtractor.entry_attachments en))
                          entries).
    { eapply Forall_impl; [exact Hall|]. intros en Hen.
      eapply Forall_impl; [exact Hen|]. intros a. by apply recorded_mono. }
    destruct atts as [|a atts]; [exact Hold|].
    apply Forall_app. split; [exact Hold|].
    constructor; [|constructor]. cbn. by apply Hrec0.
Qed.

(** X6. A run of [extract_attachments_from_enex] that returns lists
    every resource with a valid payload once: [note_attachments] holds,
    in document order, one entry for each note that has valid resources,
    with as many descriptors as the note has valid resources, and no
    entry for the other notes.  Every listed descriptor can be looked up
    in [attachment_map] under its hash, and the file it names exists. *)
Theorem X6_extraction_is_complete (root : ET.element) (notebook_dir : str)
        (st st' : fs) (ex : AttachmentExtractor.extraction)
        (Hrun : AttachmentExtractor.extract_attachments_from_enex root
                  notebook_dir st = (Ok ex, st')) :
  listed (AttachmentExtractor.note_attachments ex)
  = expected_listing (enumerate 1 (ET.findall "note" root))
  /\ Forall (fun en =>
               AttachmentExtractor.entry_attachments en <> []
               /\ Forall (recorded (AttachmentExtractor.attachment_map ex) st')
                         (AttachmentExtractor.entry_attachments en))
            (AttachmentExtractor.note_attachments ex)
  /\ AttachmentExtractor.attachments_dir ex
     = path_join notebook_dir (lit "attachments").
Proof.
  unfold AttachmentExtractor.extract_attachments_from_enex in Hrun.
  unfold mbind at 1, io_bind at 1 in Hrun.
  unfold mkdir at 1 in Hrun.
  destruct (denied st _); [done|].
  unfold mbind at 1, io_bind at 1 in Hrun.
  destruct (AttachmentExtractor.extract_notes _ _ ∅ [] _)
    as [[[amap entries]|x] st0] eqn:E; [|done].
  apply extract_notes_inv in E as (Hl & _ & _ & Hrec).
  specialize (Hrec ltac:(constructor)).
  unfold mbind at 1, io_bind at 1 in Hrun.
  unfold AttachmentExtractor._create_attachment_index in Hrun.
  unfold mbind at 1, io_bind at 1, lift at 1 in Hrun.
  destruct (rmap AttachmentExtractor.index_note entries); [|done].
  unfold write in Hrun. destruct (denied st0 _); [done|].
  injection Hrun as <- <-. cbn.
  split; [exact Hl|]. split; [|done].
  assert (Hne : Forall (fun en => AttachmentExtractor.entry_attachments en <> [])
                       entries).
  { clear -Hl. cbn in Hl.
    revert Hl. generalize (enumerate 1 (ET.findall "note" root)) as l.
    induction entries as [|en entries IH]; intros l Hl; [constructor|].
    induction l as [|[i e] l IHl]; [done|].
    cbn [expected_listing flat_map] in Hl. fold (expected_listing l) in Hl.
    destruct (length (valid_resources e)) eqn:En; [by apply IHl|].
    cbn in Hl. injection Hl as Hi Hn Hl. constructor; [|by eapply IH].
    intros Hz. by rewrite Hz in Hn. }
  apply Forall_and. split; [exact Hne|].
  eapply Forall_impl; [exact Hrec|]. intros en Hen.
  eapply Forall_impl; [exact Hen|]. intros a0. apply recorded_mono; [done|].
  intros p Hin. cbn [files].
  match goal with |- is_Some (<[?q := _]> _ !! _) =>
    destruct (decide (q = p)) as [->|Hne'] end; by simplify_map_eq.
Qed.

Lemma extract_indexable (r : ET.element) (dir : str) (idx : N) (st st' : fs)
      (info : dict) :
  AttachmentExtractor._extract_resource r dir idx st = (Ok (Some info), st') ->
  indexable info = true.
Proof.
  unfold AttachmentExtractor._extract_resource.
  repeat case_match; try done.
  all: unfold mbind, io_bind, write; repeat case_match; try done.
  all: intros [= <- _]; unfold indexable; simplify_map_eq.
  all: unfold scalar, of_text; by repeat case_match.
Qed.

Lemma extract_permissive (r : ET.element) (dir : str) (idx : N) (st : fs) :
  permissive st ->
  exists o st',
    AttachmentExtractor._extract_resource r dir idx st = (Ok o, st')
    /\ permissive st'.
Proof.
  intros Hperm. destruct (skipped_or_payload r) as [Hs|[bytes Hp]].
  - rewrite (extract_skipped _ _ _ _ Hs). by eexists _, _.
  - destruct (extract_valid r dir idx st bytes Hp (Hperm _))
      as (info & -> & _). eexists _, _. split; [done|]. exact Hperm.
Qed.

Lemma extract_resources_permissive (l : list ET.element) (dir : str)
      (idx : N) :
  forall atts amap st,
    permissive st -> Forall (fun a => indexable a = true) atts ->
    exists atts' amap' st',
      AttachmentExtractor.extract_resources l dir idx atts amap st
      = (Ok (atts', amap'), st')
      /\ permissive st' /\ Forall (fun a => indexable a = true) atts'.
Proof.
  induction l as [|r l IH]; intros atts amap st Hperm Hall.
  - by eexists _, _, _.
  - cbn [AttachmentExtractor.extract_resources].
    unfold mbind at 1, io_bind at 1.
    destruct (extract_permissive r dir idx st Hperm) as (o & st0 & E & Hperm0).
    rewrite E. destruct o as [info|]; [|by apply IH].
    pose proof (extract_indexable _ _ _ _ _ _ E) as Hi.
    destruct (is_truthy (VDict info)); [|by apply IH].
    assert (exists h, info !! "hash" = Some (VStr h)) as [h ->].
    { unfold indexable in Hi. repeat case_match; try done. by eexists. }
    apply IH; [done|]. apply Forall_app. split; [done|]. by constructor.
Qed.

Lemma extract_notes_permissive (l : list (N * ET.element)) (dir : str) :
  forall amap entries st,
    permissive st ->
    Forall (fun en => Forall (fun a => indexable a = true)
                        (AttachmentExtractor.entry_attachments en)
                      /\ scalar (AttachmentExtractor.entry_title en) = true)
           entries ->
    exists amap' entries' st',
      AttachmentExtractor.extract_notes l dir amap entries st
      = (Ok (amap', entries'), st')
      /\ permissive st'
      /\ Forall (fun en => Forall (fun a => indexable a = true)
                             (AttachmentExtractor.entry_attachments en)
                           /\ scalar (AttachmentExtractor.entry_title en)
                              = true)
                entries'.
Proof.
  induction l as [|[i e] l IH]; intros amap entries st Hperm Hall.
  - by eexists _, _, _.
  - cbn [AttachmentExtractor.extract_notes].
    unfold mbind at 1, io_bind at 1.
    destruct (extract_resources_permissive (ET.findall "resource" e) dir i
                [] amap st Hperm ltac:(constructor))
      as (atts & amap0 & st0 & -> & Hperm0 & Hatts).
    apply IH; [done|]. destruct atts as [|a atts]; [done|].
    apply Forall_app. split; [done|]. constructor; [|constructor].
    split; [done|]. cbn [AttachmentExtractor.entry_title].
    destruct (ET.find "title" e) as [t|]; [|done]. by destruct (ET.text t).
Qed.

Lemma index_attachment_ok (a : dict) :
  indexable a = true -> exists s, AttachmentExtractor.index_attachment a = Ok s.
Proof.
  unfold indexable, AttachmentExtractor.index_attachment, getitem.
  repeat case_match; try done. intros [Hm Ho]%andb_prop.
  simplify_eq. cbn [mbind result_bind format_value].
  destruct (format_scalar _ Hm) as [ms ->]. cbn [mbind result_bind].
  destruct (is_truthy _).
  - destruct (format_scalar _ Ho) as [os ->]. cbn [mbind result_bind].
    by eexists.
  - cbn [mbind result_bind]. by eexists.
Qed.

Lemma rmap_ok {A B} (f : A -> result B) (l : list A) :
  Forall (fun a => exists b, f a = Ok b) l -> exists bs, rmap f l = Ok bs.
Proof.
  induction 1 as [|a l [b Hb] _ [bs IH]]; [by eexists|].
  cbn [rmap]. rewrite Hb, IH. by eexists.
Qed.

Lemma extract_attachments_ok (root : ET.element) (notebook_dir : str)
      (st : fs) :
  permissive st ->
  exists ex st',
    AttachmentExtractor.extract_attachments_from_enex root notebook_dir st
    = (Ok ex, st')
    /\ is_Some (files st' !! path_join (path_join notebook_dir
                                          (lit "attachments"))
                                       (lit "README.md")).
Proof.
  intros Hperm.
  unfold AttachmentExtractor.extract_attachments_from_enex.
  unfold mbind at 1, io_bind at 1, mkdir at 1. rewrite Hperm.
  unfold mbind at 1, io_bind at 1.
  set (st0 := Fs _ _ _).
  destruct (extract_notes_permissive
              (enumerate 1 (ET.findall "note" root))
              (path_join notebook_dir (lit "attachments")) ∅ [] st0)
    as (amap & entries & st1 & -> & Hperm1 & Hall);
    [exact Hperm|constructor|].
  unfold mbind at 1, io_bind at 1.
  unfold AttachmentExtractor._create_attachment_index.
  unfold mbind at 1, io_bind at 1, lift at 1.
  destruct (rmap_ok AttachmentExtractor.index_note entries) as [sections ->].
  { eapply Forall_impl; [exact Hall|]. intros en [Hatts Htitle].
    unfold AttachmentExtractor.index_note.
    destruct (format_scalar _ Htitle) as [t ->]. cbn [mbind result_bind].
    destruct (rmap_ok AttachmentExtractor.index_attachment
                (AttachmentExtractor.entry_attachments en)) as [items ->].
    { eapply Forall_impl; [exact Hatts|]. apply index_attachment_ok. }
    by eexists. }
  unfold write. rewrite Hperm1. eexists _, _. split; [done|].
  cbn [files]. by simplify_map_eq.
Qed.

Lemma X6_extraction_is_complete_witness :
  exists ex st',
    AttachmentExtractor.extract_attachments_from_enex Sample.two_notes
      (lit "out") Sample.empty_fs = (Ok ex, st')
    /\ listed (AttachmentExtractor.note_attachments ex)
       = expected_listing (enumerate 1 (ET.findall "note" Sample.two_notes))
    /\ Forall (fun en =>
                 AttachmentExtractor.entry_attachments en <> []
                 /\ Forall (recorded (AttachmentExtractor.attachment_map ex)
                              st')
                           (AttachmentExtractor.entry_attachments en))
              (AttachmentExtractor.note_attachments ex)
    /\ AttachmentExtractor.attachments_dir ex
       = path_join (lit "out") (lit "attachments").
Proof.
  destruct (extract_attachments_ok Sample.two_notes (lit "out")
              Sample.empty_fs) as (ex & st' & Hrun & _);
    [intros p; reflexivity|].
  exists ex, st'. split; [exact Hrun|].
  exact (X6_extraction_is_complete Sample.two_notes (lit "out")
           Sample.empty_fs st' ex Hrun).
Defined.

(** X7. On a file system that refuses nothing
    [extract_attachments_from_enex] returns for every parsed document,
    and its index file [README.md] exists afterwards: resources without
    usable data are passed over and no other step can raise. *)
Theorem X7_extraction_succeeds (root : ET.element) (notebook_dir : str)
        (st : fs) (Hperm : permissive st) :
  exists ex st',
    AttachmentExtractor.extract_attachments_from_enex root notebook_dir st
    = (Ok ex, st')
    /\ is_Some (files st' !! path_join (path_join notebook_dir
                                          (lit "attachments"))
                                       (lit "README.md")).
Proof. by apply extract_attachments_ok. Qed.

Lemma X7_extraction_succeeds_witness :
  permissive Sample.empty_fs
  /\ exists ex st',
       AttachmentExtractor.extract_attachments_from_enex
         MoreSamples.broken_export (lit "out") Sample.empty_fs = (Ok ex, st')
       /\ is_Some (files st' !! path_join (path_join (lit "out")
                                             (lit "attachments"))
                                          (lit "README.md")).
Proof.
  assert (Hperm : permissive Sample.empty_fs) by (intros p; reflexivity).
  split; [exact Hperm|].
  exact (X7_extraction_succeeds MoreSamples.broken_export (lit "out")
           Sample.empty_fs Hperm).
Defined.

(** ** Texts without markup *)

Lemma match_at_nl3 (s : str) :
  match_at ENEXParser.re_nl3 s
  = if (span (Re.chr NL) None s <? 3)%nat then None
    else Some (span (Re.chr NL) None s, []).
Proof. apply match_at_rep. Qed.

Lemma nl3_resume (t s : str) :
  span (Re.chr NL) None
       (sub_go ENEXParser.re_nl3 (fun _ _ => t)
               (span (Re.chr NL) None s) s) = 0%nat.
Proof.
  induction s as [|c s IH]; [done|].
  cbn [span]. destruct (Re.chr NL c) eqn:E; [exact IH|].
  cbn [sub_go]. rewrite match_at_nl3. cbn [span]. rewrite E.
  cbn. by rewrite E.
Qed.

Lemma nl3_short (t s : str) :
  (span (Re.chr NL) None s < 3)%nat ->
  (span (Re.chr NL) None (sub_go ENEXParser.re_nl3 (fun _ _ => t) 0 s)
   <= span (Re.chr NL) None s)%nat.
Proof.
  induction s as [|c s IH]; intros Hs.
  - done.
  - cbn [sub_go]. rewrite match_at_nl3.
    destruct (Nat.ltb_spec (span (Re.chr NL) None (c :: s)) 3); [|lia].
    cbn [span] in *. destruct (Re.chr NL c); [|lia].
    specialize (IH ltac:(lia)). lia.
Qed.

Lemma no_three_sub (s : str) (k : nat) :
  no_three_newlines (sub_go ENEXParser.re_nl3 (fun _ _ => [NL; NL]) k s)
  = true.
Proof.
  revert k. induction s as [|c s IH]; intros k.
  - by destruct k.
  - destruct k as [|j]; [|apply IH].
    cbn [sub_go]. rewrite match_at_nl3.
    destruct (Nat.ltb_spec (span (Re.chr NL) None (c :: s)) 3) as [Hlt|Hge].
    + cbn [no_three_newlines]. rewrite IH, andb_true_r.
      apply Nat.ltb_lt. cbn [span] in *.
      destruct (Re.chr NL c); [|lia].
      pose proof (nl3_short [NL; NL] s ltac:(lia)). lia.
    + cbn [span] in *. destruct (Re.chr NL c); [|lia].
      pose proof (nl3_resume [NL; NL] s) as Hr.
      cbn [app no_three_newlines]. rewrite IH, andb_true_r.
      cbn [span]. change (Re.chr NL NL) with true. cbn iota.
      by rewrite Hr.
Qed.

Lemma no_three_suffix (a b : str) :
  no_three_newlines (a ++ b) = true -> no_three_newlines b = true.
Proof.
  induction a as [|c a IH]; [done|]. cbn [app no_three_newlines].
  intros [_ H]%andb_prop. by apply IH.
Qed.

Lemma span_app_le (p : N -> bool) (a b : str) :
  (span p None a <= span p None (a ++ b))%nat.
Proof.
  induction a as [|c a IH]; cbn [app span]; [lia|].
  destruct (p c); lia.
Qed.

Lemma no_three_prefix (a b : str) :
  no_three_newlines (a ++ b) = true -> no_three_newlines a = true.
Proof.
  induction a as [|c a IH]; [done|]. cbn [no_three_newlines].
  change ((c :: a) ++ b) with (c :: (a ++ b)). cbn [no_three_newlines].
  intros [H1 H2]%andb_prop. rewrite (IH H2), andb_true_r.
  apply Nat.ltb_lt. apply Nat.ltb_lt in H1.
  pose proof (span_app_le (Re.chr NL) (c :: a) b). cbn [app] in *. lia.
Qed.

Lemma no_three_strip (s : str) :
  no_three_newlines s = true -> no_three_newlines (strip s) = true.
Proof.
  intros H. destruct (strip_inside s) as (pre & post & E).
  rewrite E in H. apply no_three_suffix in H. by apply no_three_prefix in H.
Qed.

(** X8. The text [_html_to_text] returns is trimmed and never holds
    three newlines in a row, whatever the input. *)
Theorem X8_plain_text_is_normalised (html_content : option str) :
  trimmed (ENEXParser._html_to_text html_content) = true
  /\ no_three_newlines (ENEXParser._html_to_text html_content) = true.
Proof.
  destruct html_content as [[|c t]|]; try done.
  unfold ENEXParser._html_to_text. split; [apply trimmed_strip|].
  apply no_three_strip. apply no_three_sub.
Qed.

Lemma unmatched_tail (r : re) (c : N) (s : str) :
  unmatched r (c :: s) -> unmatched r s.
Proof. intros H k. exact (H (S k)). Qed.

Lemma sub_go_unmatched (r : re) (repl : str -> caps -> str) (s : str) :
  unmatched r s -> sub_go r repl 0 s = s.
Proof.
  induction s as [|c s IH]; intros H.
  - pose proof (H 0%nat) as H0. rewrite drop_0 in H0. cbn. by rewrite H0.
  - pose proof (H 0%nat) as H0. rewrite drop_0 in H0.
    cbn [sub_go]. rewrite H0.
    by rewrite (IH (unmatched_tail _ _ _ H)).
Qed.

Lemma sub_go_result_unmatched (r : re) (repl : str -> caps -> result str)
      (s : str) :
  unmatched r s -> sub_go_result r repl 0 s = Ok s.
Proof.
  induction s as [|c s IH]; intros H.
  - pose proof (H 0%nat) as H0. rewrite drop_0 in H0. cbn. by rewrite H0.
  - pose proof (H 0%nat) as H0. rewrite drop_0 in H0.
    cbn [sub_go_result]. rewrite H0.
    by rewrite (IH (unmatched_tail _ _ _ H)).
Qed.

Lemma match_at_lit_head (c : N) (l : str) (s : str) :
  match s with x :: _ => x <> c | [] => True end ->
  match_at (Lit (c :: l)) s = None.
Proof.
  unfold match_at. cbn [m]. destruct s as [|x s]; [done|].
  intros Hx. cbn [startswith].
  destruct (N.eqb_spec c x); [congruence|done].
Qed.

Lemma match_at_seq_lit_head (c : N) (l : str) (r : re) (s : str) :
  match s with x :: _ => x <> c | [] => True end ->
  match_at (Seq (Lit (c :: l)) r) s = None.
Proof.
  unfold match_at. cbn [m]. destruct s as [|x s]; [done|].
  intros Hx. cbn [startswith].
  destruct (N.eqb_spec c x); [congruence|done].
Qed.

Lemma drop_head_Forall (Q : N -> Prop) (s : str) (k : nat) :
  Forall Q s -> match drop k s with x :: _ => Q x | [] => True end.
Proof.
  intros H. apply (Forall_drop _ k) in H. by destruct H.
Qed.

Lemma unmatched_lit (c : N) (l s : str) :
  Forall (fun x => x <> c) s -> unmatched (Lit (c :: l)) s.
Proof.
  intros H k. apply match_at_lit_head.
  exact (drop_head_Forall _ s k H).
Qed.

Lemma unmatched_seq_lit (c : N) (l : str) (r : re) (s : str) :
  Forall (fun x => x <> c) s -> unmatched (Seq (Lit (c :: l)) r) s.
Proof.
  intros H k. apply match_at_seq_lit_head.
  exact (drop_head_Forall _ s k H).
Qed.

Lemma markup_free_lt (s : str) :
  markup_free s = true -> Forall (fun x => x <> 60) s.
Proof.
  unfold markup_free. rewrite forallb_forall. intros H.
  apply List.Forall_forall. intros x Hx. apply H in Hx.
  apply andb_prop in Hx as [Hx _]. apply negb_true_iff in Hx.
  by apply N.eqb_neq.
Qed.

Lemma markup_free_amp (s : str) :
  markup_free s = true -> existsb (N.eqb 38) s = false.
Proof.
  unfold markup_free. induction s as [|c s IH]; [done|].
  cbn [forallb existsb]. intros [[_ Hc]%andb_prop Hs]%andb_prop.
  rewrite IH by done. apply negb_true_iff in Hc.
  rewrite N.eqb_sym. by rewrite Hc.
Qed.

Lemma sub_nl3_unchanged (s : str) :
  no_three_newlines s = true -> sub ENEXParser.re_nl3 [NL; NL] s = s.
Proof.
  intros H. apply sub_go_unmatched. intros k.
  rewrite match_at_nl3.
  assert (Hk : no_three_newlines (drop k s) = true).
  { rewrite <- (take_drop k s) in H. by apply no_three_suffix in H. }
  destruct (drop k s) as [|c s']; [done|].
  cbn [no_three_newlines] in Hk. apply andb_prop in Hk as [Hk _].
  by rewrite Hk.
Qed.

Lemma strip_trimmed (s : str) : trimmed s = true -> strip s = s.
Proof.
  unfold trimmed, strip, lstrip, rstrip.
  intros [H1 H2]%andb_prop.
  assert (E : dropwhile isspace s = s).
  { destruct s as [|c s]; [done|]. cbn. by rewrite (negb_true_iff _ ) in H1; rewrite H1. }
  rewrite E.
  assert (E' : dropwhile isspace (rev s) = rev s).
  { destruct (rev s) as [|c r]; [done|]. cbn.
    by rewrite (negb_true_iff _ ) in H2; rewrite H2. }
  rewrite E'. apply rev_involutive.
Qed.

(** X9. Text without markup passes through [_html_to_text]: for a
    content that holds neither a less-than sign nor an ampersand the
    result is the content with its runs of three or more newlines cut to
    two and its ends trimmed; a content that is already in that form is
    returned as it is. *)
Theorem X9_plain_text_passes_through (html_content : str)
        (Hfree : markup_free html_content = true) :
  ENEXParser._html_to_text (Some html_content)
  = strip (sub ENEXParser.re_nl3 [NL; NL] html_content)
  /\ (no_three_newlines html_content = true ->
      trimmed html_content = true ->
      ENEXParser._html_to_text (Some html_content) = html_content).
Proof.
  assert (E : ENEXParser._html_to_text (Some html_content)
              = strip (sub ENEXParser.re_nl3 [NL; NL] html_content)).
  { destruct html_content as [|c t]; [done|].
    pose proof (markup_free_lt _ Hfree) as Hlt.
    pose proof (markup_free_amp _ Hfree) as Hamp.
    unfold ENEXParser._html_to_text.
    unfold sub, sub_fn.
    rewrite (sub_go_unmatched ENEXParser.re_cdata)
      by (apply unmatched_seq_lit, Hlt).
    rewrite (sub_go_unmatched ENEXParser.re_en_note_open)
      by (apply unmatched_seq_lit, Hlt).
    rewrite (sub_go_unmatched ENEXParser.re_en_note_close)
      by (apply unmatched_lit, Hlt).
    rewrite (sub_go_unmatched ENEXParser.re_en_media)
      by (apply unmatched_seq_lit, Hlt).
    unfold Html.unescape, Html.unescape_with. rewrite Hamp.
    rewrite (sub_go_unmatched ENEXParser.re_br)
      by (apply unmatched_seq_lit, Hlt).
    rewrite (sub_go_unmatched ENEXParser.re_p_close)
      by (apply unmatched_lit, Hlt).
    rewrite (sub_go_unmatched ENEXParser.re_tag)
      by (apply unmatched_seq_lit, Hlt).
    reflexivity. }
  split; [exact E|]. intros H3 Ht.
  by rewrite E, sub_nl3_unchanged, strip_trimmed.
Qed.

Lemma X9_plain_text_passes_through_witness :
  ENEXParser._html_to_text
    (Some (lit "Hello" ++ [NL; NL; NL] ++ lit "World"))
  = strip (sub ENEXParser.re_nl3 [NL; NL]
             (lit "Hello" ++ [NL; NL; NL] ++ lit "World"))
  /\ (no_three_newlines (lit "Hello" ++ [NL; NL; NL] ++ lit "World") = true ->
      trimmed (lit "Hello" ++ [NL; NL; NL] ++ lit "World") = true ->
      ENEXParser._html_to_text
        (Some (lit "Hello" ++ [NL; NL; NL] ++ lit "World"))
      = lit "Hello" ++ [NL; NL; NL] ++ lit "World").
Proof.
  apply (X9_plain_text_passes_through
           (lit "Hello" ++ [NL; NL; NL] ++ lit "World")).
  vm_compute; reflexivity.
Defined.

Lemma convert_tags_unchanged (s : str) :
  Forall (fun x => x <> 60) s -> EnhancedNoteExporter.convert_tags s = s.
Proof.
  intros Hlt. unfold EnhancedNoteExporter.convert_tags, sub, sub_fn.
  repeat (first
    [ rewrite (sub_go_unmatched _ _ s) by (apply unmatched_seq_lit, Hlt)
    | rewrite (sub_go_unmatched _ _ s) by (apply unmatched_lit, Hlt) ]).
  reflexivity.
Qed.

Lemma no_amp_Forall (s : str) :
  existsb (N.eqb 38) s = false -> Forall (fun x => x <> 38) s.
Proof.
  induction s as [|c s IH]; [constructor|]. cbn [existsb].
  intros [Hc Hs]%orb_false_elim. constructor; [|by apply IH].
  apply N.eqb_neq in Hc. congruence.
Qed.

Lemma no_amp_existsb (s : str) :
  Forall (fun x => x <> 38) s -> existsb (N.eqb 38) s = false.
Proof.
  induction 1 as [|c s Hc _ IH]; [done|]. cbn [existsb]. rewrite IH.
  destruct (N.eqb_spec 38 c); [congruence|done].
Qed.

(** X10. Text without markup passes through the Markdown conversion:
    for a content that holds neither a less-than sign nor an ampersand,
    and resources of the shape the exporter builds, the result is the
    content with its runs of four or more newlines cut to three, the
    blanks before its newlines removed and its ends trimmed. *)
Theorem X10_plain_text_to_markdown (html_content : str)
        (resources : list dict)
        (Hfree : markup_free html_content = true)
        (Hres : Forall (fun r => descriptor r = true) resources) :
  EnhancedNoteExporter._html_to_markdown_with_images (Some html_content)
    resources
  = Ok (strip (sub EnhancedNoteExporter.re_trailing [NL]
                 (sub EnhancedNoteExporter.re_nl4 [NL; NL; NL]
                    html_content))).
Proof.
  destruct html_content as [|c t]; [done|].
  pose proof (markup_free_lt _ Hfree) as Hlt.
  pose proof (markup_free_amp _ Hfree) as Hamp.
  unfold EnhancedNoteExporter._html_to_markdown_with_images.
  destruct (build_lookup_ok resources ∅ Hres) as (lookup & -> & _).
  { apply map_Forall_empty. }
  cbn [mbind result_bind]. unfold sub_fn at 1, sub_fn_result.
  rewrite (sub_go_unmatched ENEXParser.re_cdata)
    by (apply unmatched_seq_lit, Hlt).
  rewrite (sub_go_result_unmatched ENEXParser.re_en_media)
    by (apply unmatched_seq_lit, Hlt).
  cbn [mbind result_bind]. rewrite (convert_tags_unchanged _ Hlt).
  unfold Html.unescape, Html.unescape_with.
  rewrite no_amp_existsb; [done|].
  unfold sub, sub_fn. apply sub_go_Forall; [by repeat constructor|].
  apply sub_go_Forall; [by repeat constructor|].
  by apply no_amp_Forall.
Qed.

Lemma X10_plain_text_to_markdown_witness :
  EnhancedNoteExporter._html_to_markdown_with_images
    (Some (lit "Hello  " ++ [NL; NL; NL; NL] ++ lit "World")) []
  = Ok (strip (sub EnhancedNoteExporter.re_trailing [NL]
                 (sub EnhancedNoteExporter.re_nl4 [NL; NL; NL]
                    (lit "Hello  " ++ [NL; NL; NL; NL] ++ lit "World")))).
Proof.
  apply (X10_plain_text_to_markdown
           (lit "Hello  " ++ [NL; NL; NL; NL] ++ lit "World") []);
    [vm_compute; reflexivity|constructor].
Defined.

(** ** File names of notes *)

Lemma sub_unsafe_unchanged (t s : str) :
  Forall (fun c => unsafe c = false) s ->
  sub IndividualNoteExporter.re_unsafe t s = s.
Proof.
  intros H. apply sub_go_unmatched. intros k.
  unfold IndividualNoteExporter.re_unsafe. rewrite match_at_cls.
  pose proof (drop_head_Forall _ s k H) as Hk.
  destruct (drop k s) as [|c s']; [done|].
  unfold unsafe in Hk. by rewrite Hk.
Qed.

Lemma sub_spaces_unchanged (s : str) :
  spaced s = true ->
  sub_go IndividualNoteExporter.re_spaces (fun _ _ => lit " ") 0 s = s.
Proof.
  induction s as [|c s IH]; [done|].
  cbn [spaced]. intros [Hc Hs]%andb_prop.
  cbn [sub_go]. rewrite match_at_spaces.
  destruct (isspace c) eqn:E.
  - cbn [negb orb] in Hc. apply andb_prop in Hc as [Hsp Hnext].
    apply N.eqb_eq in Hsp. subst c.
    assert (Hspan : span isspace None s = 0%nat).
    { destruct s as [|d s']; [done|]. cbn [span].
      apply negb_true_iff in Hnext. by rewrite Hnext. }
    rewrite Hspan, (IH Hs). reflexivity.
  - by rewrite (IH Hs).
Qed.

Lemma sanitize_fixed (safe : str) :
  Forall (fun c => unsafe c = false) safe ->
  spaced safe = true -> trimmed safe = true ->
  (length safe <= 100)%nat -> safe <> [] ->
  IndividualNoteExporter.sanitize_filename (VStr safe) 100 = Ok safe.
Proof.
  intros Hsafe Hsp Htr Hlen Hne.
  unfold IndividualNoteExporter.sanitize_filename.
  cbn [as_str mbind result_bind].
  rewrite (sub_unsafe_unchanged _ _ Hsafe).
  unfold sub, sub_fn. rewrite (sub_spaces_unchanged _ Hsp).
  rewrite (strip_trimmed _ Htr).
  destruct (Nat.ltb_spec 100 (length safe)); [lia|].
  by destruct safe.
Qed.

(** X11. [sanitize_filename] is idempotent: a title it has returned is
    returned unchanged when it is sanitized again. *)
Theorem X11_sanitize_is_idempotent (title : value) (safe_title : str)
        (H : IndividualNoteExporter.sanitize_filename title 100
             = Ok safe_title) :
  IndividualNoteExporter.sanitize_filename (VStr safe_title) 100
  = Ok safe_title.
Proof.
  destruct title as [|s| | | | |]; try done.
  destruct (sanitize_filename_spec s)
    as (safe & E & Hsafe & Hlen & Hsp & Htr & Hne & _).
  rewrite E in H. injection H as <-. by apply sanitize_fixed.
Qed.

Lemma X11_sanitize_is_idempotent_witness :
  IndividualNoteExporter.sanitize_filename (VStr (lit "A/B: Test")) 100
  = Ok (lit "A_B_ Test")
  /\ IndividualNoteExporter.sanitize_filename (VStr (lit "A_B_ Test")) 100
     = Ok (lit "A_B_ Test").
Proof.
  assert (H : IndividualNoteExporter.sanitize_filename
                (VStr (lit "A/B: Test")) 100 = Ok (lit "A_B_ Test"))
    by (vm_compute; reflexivity).
  split; [exact H|].
  exact (X11_sanitize_is_idempotent (VStr (lit "A/B: Test"))
           (lit "A_B_ Test") H).
Defined.

(** ** The image embedder *)

Lemma size_nat_bound (n : N) : n < 2 ^ N.of_nat (N.size_nat n).
Proof.
  destruct n as [|p]; [done|]. cbn [N.size_nat].
  induction p as [p IH|p IH|].
  - cbn [Pos.size_nat]. rewrite Nat2N.inj_succ, N.pow_succ_r by lia. lia.
  - cbn [Pos.size_nat]. rewrite Nat2N.inj_succ, N.pow_succ_r by lia. lia.
  - done.
Qed.

Lemma decimal_app (a b : str) :
  decimal (a ++ b)
  = fold_left (fun acc c => 10 * acc + (c - 48)) b (decimal a).
Proof. unfold decimal. by rewrite fold_left_app. Qed.

Lemma digits_aux_S (fuel : nat) (n : N) (acc : str) :
  digits_aux (S fuel) n acc
  = if n / 10 =? 0 then (48 + n mod 10) :: acc
    else digits_aux fuel (n / 10) ((48 + n mod 10) :: acc).
Proof. reflexivity. Qed.

Lemma digits_aux_spec (fuel : nat) :
  forall n acc,
    n < 2 ^ N.of_nat fuel ->
    exists ds,
      digits_aux (S fuel) n acc = ds ++ acc
      /\ decimal ds = n
      /\ Forall (fun c => is_digit c = true) ds
      /\ ds <> [].
Proof.
  induction fuel as [|fuel IH]; intros n acc Hn.
  - assert (n = 0) as -> by (cbn in Hn; lia).
    exists [48]. by repeat constructor.
  - rewrite (digits_aux_S (S fuel)).
    assert (Hd : is_digit (48 + n mod 10) = true).
    { unfold is_digit, range. pose proof (N.mod_lt n 10 ltac:(done)) as Hm.
      revert Hm. generalize (n mod 10). intros d Hm.
      apply andb_true_iff. split; apply N.leb_le; lia. }
    destruct (N.eqb_spec (n / 10) 0) as [Hz|Hnz].
    + exists [48 + n mod 10]. split; [done|].
      split; [|by repeat constructor].
      unfold decimal. cbn [fold_left].
      pose proof (N.div_mod n 10 ltac:(done)) as Hdm. rewrite Hz in Hdm.
      revert Hdm. generalize (n mod 10). intros d Hdm. lia.
    + destruct (IH (n / 10) ((48 + n mod 10) :: acc))
        as (ds & E & Hv & Hf & _).
      { rewrite Nat2N.inj_succ, N.pow_succ_r in Hn by lia.
        apply N.Div0.div_lt_upper_bound.
        revert Hn. generalize (2 ^ N.of_nat fuel). intros b Hn. lia. }
      exists (ds ++ [48 + n mod 10]). split.
      { rewrite E. by rewrite <- app_assoc. }
      split.
      { rewrite decimal_app, Hv. cbn [fold_left].
        pose proof (N.div_mod n 10 ltac:(done)) as Hdm.
        revert Hdm. generalize (n mod 10) (n / 10). intros d q Hdm. lia. }
      split; [|by destruct ds].
      apply Forall_app. split; [done|]. by repeat constructor.
Qed.

Lemma str_of_N_spec (n : N) :
  decimal (str_of_N n) = n
  /\ Forall (fun c => is_digit c = true) (str_of_N n)
  /\ str_of_N n <> [].
Proof.
  unfold str_of_N.
  destruct (digits_aux_spec (N.size_nat n) n [] (size_nat_bound n))
    as (ds & E & Hv & Hf & Hne).
  rewrite E, app_nil_r. done.
Qed.

Lemma decimal_zeros (k : nat) (s : str) :
  decimal (repeat 48 k ++ s) = decimal s.
Proof.
  rewrite decimal_app.
  assert (decimal (repeat 48 k) = 0) as ->; [|done].
  induction k as [|k IH]; [done|].
  change (repeat 48 (S k)) with ([48] ++ repeat 48 k).
  rewrite decimal_app. exact IH.
Qed.

Lemma span_app_stop (p : N -> bool) (a : str) (c : N) (b : str) :
  Forall (fun x => p x = true) a -> p c = false ->
  span p None (a ++ c :: b) = length a.
Proof.
  intros Ha Hc. induction Ha as [|x a Hx _ IH]; cbn [app span length].
  - by rewrite Hc.
  - by rewrite Hx, IH.
Qed.

Lemma digit_value_ascii (c : N) :
  is_digit c = true -> Text.digit_value c = Some (c - 48).
Proof.
  unfold is_digit, range. intros [H1 H2]%andb_prop.
  unfold Text.digit_value, Text.decimal_blocks. cbn [List.find].
  rewrite H1. apply N.leb_le in H2.
  destruct (N.ltb_spec c (48 + 10)); [done|lia].
Qed.

Lemma isdecimal_ascii (c : N) : is_digit c = true -> Text.isdecimal c = true.
Proof. intros H. unfold Text.isdecimal. by rewrite digit_value_ascii. Qed.

Lemma int_of_ascii (s : str) :
  Forall (fun c => is_digit c = true) s -> Text.int_of s = decimal s.
Proof.
  intros H. unfold Text.int_of, decimal.
  assert (Hacc : forall a,
    fold_left (fun acc c => 10 * acc + default 0 (Text.digit_value c)) s a
    = fold_left (fun acc c => 10 * acc + (c - 48)) s a); [|apply Hacc].
  induction H as [|c s Hc _ IH]; intros a; [done|].
  cbn [fold_left]. rewrite (digit_value_ascii c Hc). cbn [default]. apply IH.
Qed.

Lemma fmt_04d_spec (i : N) :
  decimal (fmt_04d i) = i
  /\ Forall (fun c => is_digit c = true) (fmt_04d i)
  /\ fmt_04d i <> [].
Proof.
  unfold fmt_04d, fmt_0d. destruct (str_of_N_spec i) as (Hv & Hf & Hne).
  split; [by rewrite decimal_zeros|]. split.
  - apply Forall_app. split; [|done].
    induction (4 - _)%nat; cbn; by constructor.
  - intros Hz. by apply app_eq_nil in Hz as [_ Hz].
Qed.

Lemma note_number_digits (ds rest : str) :
  Forall (fun c => is_digit c = true) ds -> ds <> [] ->
  FinalImageEmbedder.note_number (ds ++ lit "_" ++ rest)
  = Some (decimal ds).
Proof.
  intros Hd Hne. unfold FinalImageEmbedder.note_number, match_at, plus.
  cbn [m]. change (lit "_" ++ rest) with (95 :: rest).
  rewrite span_app_stop; [| |done].
  2:{ eapply Forall_impl; [exact Hd|]. apply isdecimal_ascii. }
  destruct (Nat.ltb_spec (length ds) 1) as [Hlt|_].
  { destruct ds; [done|cbn in Hlt; lia]. }
  erewrite try_down_first; [|destruct ds; [done|cbn; lia]|].
  2:{ rewrite drop_app_length.
      change (startswith (lit "_") (95 :: rest)) with true.
      cbn iota. reflexivity. }
  cbn [group Nat.eqb]. rewrite length_app. cbn [length].
  replace (length ds + S (length rest) - S (length rest))%nat
    with (length ds) by lia.
  rewrite take_app_length. f_equal. by apply int_of_ascii.
Qed.

Lemma startswith_app (p s : str) : startswith p (p ++ s) = true.
Proof.
  induction p as [|c p IH]; [by destruct s|]. cbn. by rewrite N.eqb_refl, IH.
Qed.

Lemma endswith_app (p s : str) : Text.endswith p (s ++ p) = true.
Proof. unfold Text.endswith. rewrite rev_app_distr. apply startswith_app. Qed.

Lemma note_filename_shape (i : N) (title : value) (filename : str) :
  IndividualNoteExporter.note_filename i title = Ok filename ->
  exists safe_title,
    filename = fmt_04d i ++ lit "_" ++ safe_title ++ lit ".md".
Proof.
  unfold IndividualNoteExporter.note_filename.
  destruct (IndividualNoteExporter.sanitize_filename title 100) as [s|];
    [|done].
  cbn [mbind result_bind]. intros [= <-]. by eexists.
Qed.

Lemma note_filename_number (i : N) (title : value) (filename : str) :
  IndividualNoteExporter.note_filename i title = Ok filename ->
  FinalImageEmbedder.note_number filename = Some i
  /\ FinalImageEmbedder.is_note_file filename = true.
Proof.
  intros [safe ->]%note_filename_shape.
  destruct (fmt_04d_spec i) as (Hv & Hd & Hne).
  split.
  - rewrite note_number_digits by done. by rewrite Hv.
  - unfold FinalImageEmbedder.is_note_file.
    destruct (fmt_04d i) as [|c ds] eqn:E; [done|].
    cbn [app]. apply andb_true_iff. split.
    + by inversion Hd.
    + change (c :: ds ++ lit "_" ++ safe ++ lit ".md")
        with ((c :: ds) ++ lit "_" ++ safe ++ lit ".md").
      rewrite !app_assoc. apply endswith_app.
Qed.

Lemma enumerate_ge {A} (l : list A) (start k : N) :
  k ∈ (enumerate start l).*1 -> start <= k.
Proof.
  revert start. induction l as [|a l IH]; intros start.
  - by intros ?%elem_of_nil.
  - cbn [enumerate]. rewrite fmap_cons. intros [->|Hin]%elem_of_cons.
    + cbn. lia.
    + apply IH in Hin. lia.
Qed.

Lemma enumerate_NoDup {A} (l : list A) (start : N) :
  NoDup (enumerate start l).*1.
Proof.
  revert start. induction l as [|a l IH]; intros start.
  - constructor.
  - cbn [enumerate]. rewrite fmap_cons. constructor; [|apply IH].
    intros Hin%enumerate_ge. cbn in Hin. lia.
Qed.

Lemma note_resources_lookup (root : ET.element) (i : N)
      (note_elem : ET.element) :
  In (i, note_elem) (enumerate 1 (ET.findall "note" root)) ->
  FinalImageEmbedder.note_resources root !! i
  = Some (List.map FinalImageEmbedder._analyze_resource
            (ET.findall "resource" note_elem)).
Proof.
  intros Hin. unfold FinalImageEmbedder.note_resources.
  apply elem_of_list_to_map_1.
  - rewrite <- list_fmap_compose.
    erewrite list_fmap_ext; [apply (enumerate_NoDup _ 1)|].
    by intros ? [].
  - apply list_elem_of_In, in_map_iff. exists (i, note_elem).
    split; [|done]. f_equal.
    induction (ET.findall "resource" note_elem) as [|r l IH]; [done|].
    cbn [List.map List.filter].
    assert (is_truthy (VDict (FinalImageEmbedder._analyze_resource r)) = true)
      as -> by apply insert_truthy.
    by rewrite IH.
Qed.

Lemma split_lines_nonempty (s : str) : Text.split_lines s <> [].
Proof.
  induction s as [|c s IH]; [done|]. cbn [Text.split_lines].
  destruct (c =? NL); [done|]. by destruct (Text.split_lines s).
Qed.

Lemma join_cons_char (c : N) (l : str) (ls : list str) :
  join [NL] ((c :: l) :: ls) = c :: join [NL] (l :: ls).
Proof. by destruct ls. Qed.

(** Splitting a text into lines and joining them gives the text back. *)
Lemma join_split_lines (s : str) : join [NL] (Text.split_lines s) = s.
Proof.
  induction s as [|c s IH]; [done|]. cbn [Text.split_lines].
  destruct (N.eqb_spec c NL) as [->|Hc].
  - pose proof (split_lines_nonempty s).
    destruct (Text.split_lines s) as [|l ls] eqn:E; [done|].
    cbn [join]. cbn [join] in IH. by rewrite IH.
  - pose proof (split_lines_nonempty s).
    destruct (Text.split_lines s) as [|l ls] eqn:E; [done|].
    by rewrite join_cons_char, IH.
Qed.

Lemma contains_app (p a b : str) :
  Text.contains p b = true -> Text.contains p (a ++ b) = true.
Proof.
  intros H. induction a as [|c a IH]; [done|].
  cbn [app Text.contains]. rewrite IH. apply orb_true_r.
Qed.

Lemma startswith_app_r (p s t : str) :
  startswith p s = true -> startswith p (s ++ t) = true.
Proof.
  revert s. induction p as [|x p IH]; intros s; [done|].
  destruct s as [|y s]; [done|]. cbn.
  intros [-> H]%andb_prop. by rewrite IH.
Qed.

Lemma contains_app_l (p a b : str) :
  Text.contains p a = true -> Text.contains p (a ++ b) = true.
Proof.
  induction a as [|c a IH].
  - cbn. rewrite orb_false_r. intros H. destruct p; [|done].
    by destruct b.
  - intros H. change ((c :: a) ++ b) with (c :: (a ++ b)).
    cbn [Text.contains] in *. apply orb_prop in H as [H|H].
    + pose proof (startswith_app_r _ (c :: a) b H) as H'.
      cbn [app] in H'. by rewrite H'.
    + rewrite IH by done. apply orb_true_r.
Qed.

Lemma contains_line (p s : str) :
  Forall (fun l => Text.contains p l = true -> Text.contains p s = true)
         (Text.split_lines s).
Proof.
  induction s as [|c s IH]; [by repeat constructor|].
  cbn [Text.split_lines].
  assert (Hs : Forall (fun l => Text.contains p l = true ->
                                Text.contains p (c :: s) = true)
                      (Text.split_lines s)).
  { eapply Forall_impl; [exact IH|]. intros l Hl H.
    apply (contains_app p [c] s). by apply Hl. }
  destruct (N.eqb_spec c NL) as [->|Hc].
  - constructor; [|exact Hs].
    cbn. rewrite orb_false_r. intros H. destruct p; [|done]. done.
  - pose proof (split_lines_nonempty s) as Hne.
    destruct (Text.split_lines s) as [|l ls] eqn:E; [done|].
    inversion Hs as [|? ? Hl Hls]; subst. constructor; [|exact Hls].
    clear Hs Hl Hls IH Hne. intros H.
    (* the first line of [c :: s] is [c :: l], and [s] starts with [l] *)
    assert (Hpre : exists post, s = l ++ post).
    { clear -E. revert l ls E. induction s as [|d s IH]; intros l ls E.
      - injection E as <- <-. by exists [].
      - cbn [Text.split_lines] in E. destruct (d =? NL).
        + injection E as <- <-. by eexists.
        + destruct (Text.split_lines s) as [|l' ls'] eqn:E'.
          * injection E as <- <-.
            pose proof (split_lines_nonempty s). congruence.
          * injection E as <- <-. destruct (IH _ _ eq_refl) as [post ->].
            by exists post. }
    destruct Hpre as [post ->].
    by apply (contains_app_l p (c :: l) post).
Qed.

Lemma embed_lines_unmarked (lines : list str) (imgs : list dict) :
  Forall (fun l => Text.contains (lit "[Attachment]") l = false) lines ->
  FinalImageEmbedder.embed_lines lines imgs = Ok lines.
Proof.
  induction 1 as [|l lines Hl _ IH]; [done|].
  cbn [FinalImageEmbedder.embed_lines]. by rewrite Hl, IH.
Qed.

Lemma images_result (resources : list dict) :
  FinalImageEmbedder.images resources = Raise KeyError
  \/ exists imgs, FinalImageEmbedder.images resources = Ok imgs.
Proof.
  induction resources as [|r l IH]; [right; by eexists|].
  cbn [FinalImageEmbedder.images]. unfold getitem.
  destruct (r !! "is_image"); [|by left]. cbn [mbind result_bind].
  destruct IH as [->|[imgs ->]]; [by left|right; by eexists].
Qed.

Lemma image_extension_agrees (mime : str) :
  startswith (lit "image/") mime = true ->
  FinalImageEmbedder.mime_to_ext !! mime
  = AttachmentExtractor.mime_to_ext !! mime.
Proof.
  intros Hi.
  unfold FinalImageEmbedder.mime_to_ext, AttachmentExtractor.mime_to_ext.
  rewrite !list_to_map_cons, !list_to_map_nil.
  repeat match goal with
  | |- context [<[?k := _]> _ !! mime] =>
      destruct (decide (k = mime)) as [<-|?];
      [vm_compute in Hi; first [discriminate|by simplify_map_eq]
      |rewrite !(lookup_insert_ne _ k mime) by done]
  end.
  done.
Qed.

Lemma analyze_lookup (r : ET.element) :
  FinalImageEmbedder._analyze_resource r !! "filename"
  = Some (of_text (AttachmentExtractor.declared_filename r))
  /\ FinalImageEmbedder._analyze_resource r !! "mime_type"
     = Some match ET.find "mime" r with
            | Some mime_elem => of_text (ET.text mime_elem)
            | None => VStr []
            end
  /\ FinalImageEmbedder._analyze_resource r !! "hash"
     = Some match ET.find "data" r with
            | Some data_elem =>
                match ET.text data_elem with
                | Some (c :: t) =>
                    match Base64.b64decode (c :: t) with
                    | Some attachment_data =>
                        VStr (take 8 (Md5.hexdigest attachment_data))
                    | None => VNone
                    end
                | _ => VNone
                end
            | None => VNone
            end.
Proof. unfold FinalImageEmbedder._analyze_resource. by simplify_map_eq. Qed.

(** X14. The embedder points at the file the extractor wrote: for an
    image resource with a valid payload the line [_smart_embed_images]
    puts in place of a marker is a Markdown image reference, alone or
    between two newlines, to [attachments/] followed by the file name
    [_extract_resource] resolves for the same resource. *)
Theorem X14_embedder_links_extracted_file (r : ET.element) (bytes : list N)
        (mime : str) :
  payload r = Some bytes -> mime_of r = VStr mime ->
  startswith (lit "image/") mime = true ->
  FinalImageEmbedder._analyze_resource r !! "is_image" = Some (VBool true)
  /\ exists alt_text,
       let reference :=
         reference_to alt_text
           (AttachmentExtractor.resolve_filename (content_hash bytes)
              (mime_of r) (AttachmentExtractor.declared_filename r)) in
       FinalImageEmbedder.image_line (FinalImageEmbedder._analyze_resource r)
       = Ok reference
       \/ FinalImageEmbedder.image_line
            (FinalImageEmbedder._analyze_resource r)
          = Ok ([NL] ++ reference ++ [NL]).
Proof.
  intros Hp Hm Hi.
  assert (Hmime : exists e, ET.find "mime" r = Some e
                            /\ ET.text e = Some mime).
  { unfold mime_of in Hm. destruct (ET.find "mime" r) as [e|].
    - exists e. split; [done|].
      destruct (ET.text e) as [s|]; cbn in Hm; congruence.
    - injection Hm as <-. by vm_compute in Hi. }
  destruct Hmime as (e & Hfind & Htext).
  assert (Hne : exists c t, mime = c :: t).
  { destruct mime; [done|by eexists _, _]. }
  destruct Hne as (c0 & t0 & ->).
  destruct (analyze_lookup r) as (Hf & Hmt & Hh).
  rewrite Hfind, Htext in Hmt. cbn [of_text] in Hmt.
  assert (Hhash : FinalImageEmbedder._analyze_resource r !! "hash"
                  = Some (VStr (content_hash bytes))).
  { rewrite Hh. unfold payload in Hp.
    destruct (ET.find "data" r) as [d|]; [|done].
    destruct (ET.text d) as [[|c t]|]; try done.
    destruct (str_eqb _ _); [|done]. by rewrite Hp. }
  split.
  { unfold FinalImageEmbedder._analyze_resource.
    rewrite Hfind, Htext. cbn [of_text]. rewrite Hi. by simplify_map_eq. }
  unfold FinalImageEmbedder.image_line, getitem.
  rewrite Hf, Hhash. cbn [mbind result_bind].
  unfold AttachmentExtractor.resolve_filename.
  destruct (AttachmentExtractor.declared_filename r) as [[|c t]|];
    cbn [of_text is_truthy length Nat.eqb negb].
  - rewrite Hmt. cbn [mbind result_bind FinalImageEmbedder._get_extension_from_mime
                        format_value].
    rewrite Hm. cbn [AttachmentExtractor._get_extension_from_mime].
    rewrite (image_extension_agrees _ Hi).
    exists (lit "Image"). destruct (Text.endswith _ _ && _); [by left|by right].
  - cbn [mbind result_bind format_value].
    unfold AttachmentExtractor.clean_and_prefix. rewrite prefix_hash.
    exists (c :: t). destruct (Text.endswith _ _ && _); [by left|by right].
  - rewrite Hmt. cbn [mbind result_bind FinalImageEmbedder._get_extension_from_mime
                        format_value].
    rewrite Hm. cbn [AttachmentExtractor._get_extension_from_mime].
    rewrite (image_extension_agrees _ Hi).
    exists (lit "Image"). destruct (Text.endswith _ _ && _); [by left|by right].
Qed.

(** X12. The number in front of an exported note file reads back as
    the number of the note: for the file name the individual export
    gives note [i], the embedder selects the file, reads [i] from its
    name and embeds the resources of note [i] of the ENEX document. *)
Theorem X12_note_number_round_trip (i : N) (title : value) (filename : str)
        (H : IndividualNoteExporter.note_filename i title = Ok filename) :
  FinalImageEmbedder.is_note_file filename = true
  /\ FinalImageEmbedder.note_number filename = Some i
  /\ forall root note_elem content,
       In (i, note_elem) (enumerate 1 (ET.findall "note" root)) ->
       FinalImageEmbedder.embedded_content root filename content
       = Some (FinalImageEmbedder._smart_embed_images content
                 (List.map FinalImageEmbedder._analyze_resource
                    (ET.findall "resource" note_elem))).
Proof.
  destruct (note_filename_number i title filename H) as [Hnum Hfile].
  split; [done|]. split; [done|].
  intros root note_elem content Hin.
  unfold FinalImageEmbedder.embedded_content.
  by rewrite Hfile, Hnum, (note_resources_lookup root i note_elem Hin).
Qed.

Lemma X12_note_number_round_trip_witness :
  FinalImageEmbedder.is_note_file (lit "0001_A_B_ Test.md") = true
  /\ FinalImageEmbedder.note_number (lit "0001_A_B_ Test.md") = Some 1
  /\ forall root note_elem content,
       In (1, note_elem) (enumerate 1 (ET.findall "note" root)) ->
       FinalImageEmbedder.embedded_content root (lit "0001_A_B_ Test.md")
         content
       = Some (FinalImageEmbedder._smart_embed_images content
                 (List.map FinalImageEmbedder._analyze_resource
                    (ET.findall "resource" note_elem))).
Proof.
  apply (X12_note_number_round_trip 1 (VStr (lit "A/B: Test"))).
  vm_compute. reflexivity.
Defined.

(** X13. The notes of one export get different file names: two notes
    with the same file name have the same number, whatever their
    titles. *)
Theorem X13_note_filenames_differ (i j : N) (title1 title2 : value)
        (filename : str)
        (H1 : IndividualNoteExporter.note_filename i title1 = Ok filename)
        (H2 : IndividualNoteExporter.note_filename j title2 = Ok filename) :
  i = j.
Proof.
  apply note_filename_number in H1 as [H1 _].
  apply note_filename_number in H2 as [H2 _]. congruence.
Qed.

Lemma X13_note_filenames_differ_witness :
  IndividualNoteExporter.note_filename 7 (VStr (lit "a  b"))
  = Ok (lit "0007_a b.md")
  /\ IndividualNoteExporter.note_filename 7 (VStr (lit "a b"))
     = Ok (lit "0007_a b.md")
  /\ 7 = 7.
Proof.
  assert (H1 : IndividualNoteExporter.note_filename 7 (VStr (lit "a  b"))
               = Ok (lit "0007_a b.md")) by (vm_compute; reflexivity).
  assert (H2 : IndividualNoteExporter.note_filename 7 (VStr (lit "a b"))
               = Ok (lit "0007_a b.md")) by (vm_compute; reflexivity).
  split; [exact H1|]. split; [exact H2|].
  exact (X13_note_filenames_differ 7 7 _ _ _ H1 H2).
Defined.

Lemma X14_embedder_links_extracted_file_witness :
  FinalImageEmbedder._analyze_resource Sample.named_png !! "is_image"
  = Some (VBool true)
  /\ exists alt_text,
       let reference :=
         reference_to alt_text
           (AttachmentExtractor.resolve_filename (content_hash [1; 2; 3])
              (mime_of Sample.named_png)
              (AttachmentExtractor.declared_filename Sample.named_png)) in
       FinalImageEmbedder.image_line
         (FinalImageEmbedder._analyze_resource Sample.named_png)
       = Ok reference
       \/ FinalImageEmbedder.image_line
            (FinalImageEmbedder._analyze_resource Sample.named_png)
          = Ok ([NL] ++ reference ++ [NL]).
Proof.
  apply (X14_embedder_links_extracted_file Sample.named_png [1; 2; 3]
           (lit "image/png")); vm_compute; reflexivity.
Defined.

(** X15. A content without the marker [[Attachment]] is returned as it
    is by [_smart_embed_images], whatever the images of the note; the
    call raises only when a resource has no key [is_image]. *)
Theorem X15_content_without_marker (content : str) (resources : list dict)
        (Hno : Text.contains (lit "[Attachment]") content = false) :
  FinalImageEmbedder._smart_embed_images content resources
  = (_ ← FinalImageEmbedder.images resources; Ok content).
Proof.
  unfold FinalImageEmbedder._smart_embed_images.
  destruct (FinalImageEmbedder.images resources) as [[|r imgs]|e]; try done.
  cbn [mbind result_bind].
  rewrite embed_lines_unmarked.
  - cbn [mbind result_bind]. by rewrite join_split_lines.
  - eapply Forall_impl; [apply (contains_line (lit "[Attachment]"))|].
    intros l Hl. destruct (Text.contains _ l) eqn:E; [|done].
    rewrite Hl in Hno by done. done.
Qed.

Lemma X15_content_without_marker_witness :
  FinalImageEmbedder._smart_embed_images (lit "Hello" ++ [NL] ++ lit "World")
    [FinalImageEmbedder._analyze_resource Sample.named_png]
  = (_ ← FinalImageEmbedder.images
           [FinalImageEmbedder._analyze_resource Sample.named_png];
     Ok (lit "Hello" ++ [NL] ++ lit "World")).
Proof.
  apply (X15_content_without_marker (lit "Hello" ++ [NL] ++ lit "World")).
  vm_compute. reflexivity.
Defined.

Lemma split_lines_single (s : str) :
  Forall (fun c => c <> NL) s -> Text.split_lines s = [s].
Proof.
  induction 1 as [|c s Hc _ IH]; [done|]. cbn [Text.split_lines].
  destruct (N.eqb_spec c NL); [done|]. by rewrite IH.
Qed.

(** X16. A line with a marker is replaced as a whole: for a one-line
    content [before ++ "[Attachment]" ++ after] and a note with an
    image, [_smart_embed_images] returns the image line alone; the text
    before and after the marker is not in the result. *)
Theorem X16_marker_line_is_replaced (before after : str)
        (resources : list dict) (image : dict) (others : list dict)
        (Hline : Forall (fun c => c <> NL) (before ++ after))
        (Himages : FinalImageEmbedder.images resources = Ok (image :: others)) :
  FinalImageEmbedder._smart_embed_images
    (before ++ lit "[Attachment]" ++ after) resources
  = FinalImageEmbedder.image_line image.
Proof.
  unfold FinalImageEmbedder._smart_embed_images. rewrite Himages.
  cbn [mbind result_bind]. rewrite split_lines_single.
  2:{ apply Forall_app in Hline as [Hb Ha].
      apply Forall_app. split; [done|]. apply Forall_app. split; [|done].
      repeat constructor; by vm_compute. }
  cbn [FinalImageEmbedder.embed_lines].
  rewrite contains_app.
  2:{ apply contains_app_l. reflexivity. }
  by destruct (FinalImageEmbedder.image_line image).
Qed.

Lemma X16_marker_line_is_replaced_witness :
  FinalImageEmbedder._smart_embed_images
    (lit "See " ++ lit "[Attachment]" ++ lit " here")
    [FinalImageEmbedder._analyze_resource Sample.named_png]
  = FinalImageEmbedder.image_line
      (FinalImageEmbedder._analyze_resource Sample.named_png).
Proof.
  apply (X16_marker_line_is_replaced (lit "See ") (lit " here")
           [FinalImageEmbedder._analyze_resource Sample.named_png]
           (FinalImageEmbedder._analyze_resource Sample.named_png) []).
  - repeat constructor; by vm_compute.
  - vm_compute. reflexivity.
Defined.

(** ** The individual export *)

Lemma parse_resource_shape (r : ET.element) (d : dict) :
  ENEXParser._parse_resource r = Ok d -> parsed_resource (VDict d) = true.
Proof.
  unfold ENEXParser._parse_resource.
  destruct (ET.find "mime" r) as [m|];
    (destruct (ET.find "resource-attributes" r) as [a|];
     [destruct (ET.find "file-name" a) as [f|]|]);
    (destruct (ET.find "data" r) as [dt|];
     [destruct (ET.get "encoding" dt) as [enc|];
      [destruct (ET.text dt) as [[|c t]|];
       [| destruct (str_eqb enc (lit "base64"));
          [destruct (Base64.b64decode (c :: t))|] |]|]|]);
    try done; intros [= <-]; unfold parsed_resource, absent_or;
    simplify_map_eq; try done.
  all: try destruct (ET.text m); try destruct (ET.text f); done.
Qed.

Lemma parse_resources_shape (l : list ET.element) (rs : list value) :
  ENEXParser.parse_resources l = Ok rs -> forallb parsed_resource rs = true.
Proof.
  revert rs. induction l as [|r l IH]; intros rs.
  - by intros [= <-].
  - cbn [ENEXParser.parse_resources].
    destruct (ENEXParser._parse_resource r) as [d|] eqn:E; [|done].
    cbn [mbind result_bind].
    destruct (ENEXParser.parse_resources l) as [rest|]; [|done].
    cbn [mbind result_bind]. intros [= <-].
    specialize (IH rest eq_refl).
    destruct (negb _); [|done].
    cbn [forallb]. by rewrite (parse_resource_shape r d E), IH.
Qed.

Lemma tags_are_texts (l : list ET.element) :
  forallb (fun v => match v with VStr _ => true | _ => false end)
    (flat_map (fun tag_elem =>
                 match ET.text tag_elem with
                 | Some (c :: t) => [VStr (c :: t)]
                 | _ => []
                 end) l) = true.
Proof.
  induction l as [|e l IH]; [done|]. cbn [flat_map].
  rewrite forallb_app, IH, andb_true_r. by destruct (ET.text e) as [[|]|].
Qed.

Lemma parse_note_shape (e : ET.element) (note : dict) :
  ENEXParser._parse_note e = Ok note -> parsed_note note = true.
Proof.
  unfold ENEXParser._parse_note.
  destruct (ENEXParser.parse_resources _) as [rs|] eqn:E; [|done].
  apply parse_resources_shape in E.
  cbn [mbind result_bind]. intros [= <-].
  pose proof (tags_are_texts (ET.findall "tag" e)) as Htags.
  unfold parsed_note, absent_or.
  destruct (ET.find "content" e) as [c|];
    destruct (ET.find "created" e) as [cr|];
    destruct (ET.find "updated" e) as [up|];
    destruct (ET.find "note-attributes" e) as [na|];
    simplify_map_eq; rewrite ?Htags, ?E; cbn [andb].
  all: try destruct (ET.text c);
       try destruct (ENEXParser._parse_date (ET.text cr));
       try destruct (ENEXParser._parse_date (ET.text up)); done.
Qed.

Lemma bind_ok {A B} (c : result A) (f : A -> result B) :
  (exists a, c = Ok a) -> (forall a, exists b, f a = Ok b) ->
  exists b, c ≫= f = Ok b.
Proof. intros [a ->] Hf. apply Hf. Qed.

Lemma bind_ok_post {A B} (c : result A) (f : A -> result B)
      (P : A -> Prop) :
  (exists a, c = Ok a /\ P a) -> (forall a, P a -> exists b, f a = Ok b) ->
  exists b, c ≫= f = Ok b.
Proof. intros (a & -> & Ha) Hf. by apply Hf. Qed.

Lemma format_text_or_none (v : value) :
  text_or_none v = true -> exists s, format_value v = Ok s.
Proof. destruct v; try done; by eexists. Qed.

Lemma as_str_list_ok (l : list value) :
  forallb (fun v => match v with VStr _ => true | _ => false end) l = true ->
  exists ss, rmap as_str l = Ok ss.
Proof.
  induction l as [|v l IH]; [by eexists|]. cbn [forallb].
  intros [Hv Hl]%andb_prop. destruct v; try done.
  destruct (IH Hl) as [ss E]. cbn [rmap as_str mbind result_bind].
  rewrite E. by eexists.
Qed.

Lemma resource_line_ok (v : value) :
  parsed_resource v = true ->
  exists s, IndividualNoteExporter.resource_line v = Ok s.
Proof.
  destruct v as [| | | | |d|]; try done.
  unfold parsed_resource, absent_or, IndividualNoteExporter.resource_line,
    contains, getitem.
  intros [[Hf Hm]%andb_prop Hs]%andb_prop.
  destruct (d !! "filename") as [f|]; [|by eexists].
  apply bind_ok; [by apply format_text_or_none|]. intros fs.
  apply bind_ok.
  { destruct (d !! "mime") as [mi|]; [|by eexists].
    apply bind_ok; [by apply format_text_or_none|]. intros ?. by eexists. }
  intros ms. apply bind_ok; [|intros ?; by eexists].
  destruct (d !! "size") as [sz|]; [|by eexists].
  cbn [mbind result_bind]. destruct sz; try done; by eexists.
Qed.

Lemma rmap_forallb {A B} (f : A -> result B) (p : A -> bool) (l : list A) :
  (forall a, p a = true -> exists b, f a = Ok b) ->
  forallb p l = true -> exists bs, rmap f l = Ok bs.
Proof.
  intros Hf Hl. apply rmap_ok. apply List.Forall_forall. intros a Ha.
  apply Hf. rewrite forallb_forall in Hl. by apply Hl.
Qed.

Lemma joined_tags_ok (note : dict) :
  parsed_note note = true ->
  exists t, IndividualNoteExporter.joined_tags note = Ok t.
Proof.
  unfold parsed_note.
  intros [[[[_ Ht]%andb_prop _]%andb_prop _]%andb_prop _]%andb_prop.
  unfold IndividualNoteExporter.joined_tags, getitem.
  destruct (note !! "tags") as [[| | | |l| |]|]; try done.
  cbn [mbind result_bind as_str_list].
  apply bind_ok; [by apply as_str_list_ok|]. intros ?. by eexists.
Qed.

Lemma note_text_ok (title : str) (note : dict) :
  parsed_note note = true ->
  exists text, IndividualNoteExporter.note_text title note = Ok text.
Proof.
  intros Hnote. pose proof (joined_tags_ok note Hnote) as Htags.
  revert Hnote. unfold parsed_note, absent_or.
  intros [[[[[Hc Hm]%andb_prop Ht]%andb_prop Hx]%andb_prop Hh]%andb_prop
            Hr]%andb_prop.
  unfold IndividualNoteExporter.note_text, contains, get, get_default,
    getitem.
  apply bind_ok.
  { destruct (note !! "created") as [cr|]; [|by eexists].
    apply bind_ok; [by apply format_text_or_none|]. intros ?. by eexists. }
  intros created. apply bind_ok.
  { destruct (note !! "modified") as [mo|]; [|by eexists].
    apply bind_ok; [by apply format_text_or_none|]. intros ?. by eexists. }
  intros modified. apply bind_ok.
  { destruct (is_truthy _); [|by eexists].
    apply bind_ok; [done|]. intros ?. by eexists. }
  intros tags. apply (bind_ok_post _ _ (fun v => exists s, v = VStr s)).
  { destruct (note !! "content_text") as [[| s | | | | |]|]; try done.
    destruct (negb (is_truthy (VStr s)) && _) eqn:E;
      [|eexists; split; [reflexivity|by eexists]].
    destruct (note !! "content_html") as [html|];
      [|by rewrite andb_false_r in E].
    cbn [mbind result_bind].
    destruct html; try done; eexists; (split; [reflexivity|by eexists]). }
  intros content [s ->]. cbn [as_str mbind result_bind].
  apply bind_ok; [|intros ?; by eexists].
  destruct (note !! "resources") as [[| | | |l| |]|]; try done.
  destruct (is_truthy _); [|by eexists].
  cbn [mbind result_bind].
  apply bind_ok; [|intros ?; by eexists].
  eapply rmap_forallb; [apply resource_line_ok|done].
Qed.

Lemma export_note_ok (output_dir : str) (i : N) (note : dict) (st : fs) :
  exportable note -> permissive st ->
  exists line filename text,
    IndividualNoteExporter.note_filename i
      (get_default note "title" (VStr (lit "Untitled"))) = Ok filename
    /\ IndividualNoteExporter.export_note output_dir i note st
       = (Ok line,
          Fs (<[path_join output_dir filename := Text text]> (files st))
             (dirs st) (denied st)).
Proof.
  intros [Hshape [title Htitle]] Hperm.
  unfold IndividualNoteExporter.export_note, get_default. rewrite Htitle.
  destruct (sanitize_filename_spec title) as (safe & Hsafe & _).
  unfold IndividualNoteExporter.note_filename. rewrite Hsafe.
  cbn [mbind result_bind]. unfold mbind at 1, io_bind at 1, lift at 1.
  unfold mbind at 1, io_bind at 1, lift at 1. cbn [as_str].
  destruct (note_text_ok title note Hshape) as [text Htext].
  unfold mbind at 1, io_bind at 1, write_block at 1.
  rewrite Hperm, Htext.
  unfold mbind at 1, io_bind at 1, lift at 1.
  assert (Htags : exists t,
    (if is_truthy (get note "tags")
     then t ← IndividualNoteExporter.joined_tags note;
          Ok (lit " - *Tags: " ++ t ++ lit "*")
     else Ok []) = Ok t).
  { destruct (is_truthy _); [|by eexists].
    apply bind_ok; [by apply joined_tags_ok|]. intros ?. by eexists. }
  destruct Htags as [t ->].
  eexists _, _, text. split; [reflexivity|]. reflexivity.
Qed.

Lemma export_notes_ok (output_dir : str) (l : list (N * dict)) :
  forall st,
    Forall (fun '(_, note) => exportable note) l -> permissive st ->
    exists lines st',
      IndividualNoteExporter.export_notes output_dir l st = (Ok lines, st')
      /\ permissive st'
      /\ (forall p, is_Some (files st !! p) -> is_Some (files st' !! p))
      /\ Forall (fun '(i, note) =>
                   exists filename,
                     IndividualNoteExporter.note_filename i
                       (get_default note "title" (VStr (lit "Untitled")))
                     = Ok filename
                     /\ is_Some (files st' !! path_join output_dir filename))
                l.
Proof.
  induction l as [|[i note] l IH]; intros st Hall Hperm.
  - eexists _, _. split; [reflexivity|]. by repeat split.
  - inversion Hall as [|? ? Hnote Hrest]; subst.
    cbn [IndividualNoteExporter.export_notes].
    unfold mbind at 1, io_bind at 1.
    destruct (export_note_ok output_dir i note st Hnote Hperm)
      as (line & filename & text & Hname & ->).
    set (st0 := Fs _ _ _).
    destruct (IH st0 Hrest Hperm) as (lines & st' & Hrun & Hperm' & Hmono & Hfiles).
    unfold mbind at 1, io_bind at 1. rewrite Hrun.
    eexists _, st'. split; [reflexivity|]. split; [done|].
    assert (Hstep : forall p, is_Some (files st !! p) ->
                              is_Some (files st0 !! p)).
    { intros p Hp. unfold st0. cbn [files].
      destruct (decide (path_join output_dir filename = p)) as [->|?];
        by simplify_map_eq. }
    split; [auto|]. constructor; [|done].
    exists filename. split; [done|]. apply Hmono. unfold st0. cbn [files].
    by simplify_map_eq.
Qed.

Lemma of_value_texts (l : list value) :
  forallb (fun v => match v with VStr _ => true | _ => false end) l = true ->
  exists j, Json.of_value (VList l) = Ok j.
Proof.
  intros Hl. cbn [Json.of_value].
  apply bind_ok; [|intros ?; by eexists].
  induction l as [|v l IH]; [by eexists|].
  cbn [forallb] in Hl. apply andb_prop in Hl as [Hv Hl].
  destruct v; try done. cbn [Json.of_value mbind result_bind].
  apply bind_ok; [by apply IH|]. intros ?. by eexists.
Qed.

Lemma of_value_text_or_none (v : value) :
  text_or_none v = true -> exists j, Json.of_value v = Ok j.
Proof. destruct v; try done; by eexists. Qed.

Lemma summary_ok (i : N) (note : dict) :
  exportable note ->
  exists j, IndividualNoteExporter.summary i note = Ok j.
Proof.
  intros [Hshape [title Htitle]].
  revert Hshape. unfold parsed_note, absent_or.
  intros [[[[[Hc Hm]%andb_prop Ht]%andb_prop Hx]%andb_prop Hh]%andb_prop
            Hr]%andb_prop.
  unfold IndividualNoteExporter.summary, get_default. rewrite Htitle.
  cbn [Json.of_value mbind result_bind].
  apply bind_ok.
  { destruct (note !! "created"); [by apply of_value_text_or_none|by eexists]. }
  intros ?. apply bind_ok.
  { destruct (note !! "modified"); [by apply of_value_text_or_none|by eexists]. }
  intros ?. apply bind_ok; [|intros ?; by eexists].
  destruct (note !! "tags") as [[| | | |l| |]|]; try done.
  by apply of_value_texts.
Qed.

Lemma parsed_exportable (e : ET.element) (note : dict) :
  titled e = true -> ENEXParser._parse_note e = Ok note -> exportable note.
Proof.
  intros Ht Hp. split; [by eapply parse_note_shape|].
  rewrite (parse_note_title e note Hp). unfold titled in Ht.
  destruct (ET.find "title" e) as [t|]; [|by eexists].
  destruct (ET.text t); [by eexists|done].
Qed.

Lemma Forall_enumerate {A} (P : A -> Prop) (l : list A) (start : N) :
  Forall P l -> Forall (fun '(_, a) => P a) (enumerate start l).
Proof.
  intros H. revert start. induction H as [|a l Ha _ IH]; intros start.
  - constructor.
  - cbn [enumerate]. constructor; [done|apply IH].
Qed.


Lemma export_note_untitled (output_dir : str) (i : N) (note : dict)
      (st : fs) :
  note !! "title" = Some VNone ->
  IndividualNoteExporter.export_note output_dir i note st
  = (Raise TypeError, st).
Proof.
  intros Ht. unfold IndividualNoteExporter.export_note, get_default.
  by rewrite Ht.
Qed.

Lemma export_notes_untitled (output_dir : str) (l : list (N * dict)) :
  forall st,
    permissive st ->
    Forall (fun '(_, note) =>
              exportable note \/ note !! "title" = Some VNone) l ->
    Exists (fun '(_, note) => note !! "title" = Some VNone) l ->
    exists st',
      IndividualNoteExporter.export_notes output_dir l st
      = (Raise TypeError, st').
Proof.
  induction l as [|[i note] l IH]; intros st Hperm Hall Hex.
  - by apply Exists_nil in Hex.
  - inversion Hall as [|? ? Hnote Hrest]; subst.
    cbn [IndividualNoteExporter.export_notes].
    unfold mbind at 1, io_bind at 1.
    destruct Hnote as [Hgood|Hbad].
    + destruct (export_note_ok output_dir i note st Hgood Hperm)
        as (line & filename & text & _ & ->).
      apply Exists_cons in Hex as [Hex|Hex].
      { destruct Hgood as [_ [t Ht]]. congruence. }
      set (st0 := Fs _ _ _).
      destruct (IH st0 Hperm Hrest Hex) as [st' Hrun].
      unfold mbind at 1, io_bind at 1. rewrite Hrun. by eexists.
    + rewrite (export_note_untitled _ _ _ _ Hbad). by eexists.
Qed.

Lemma parsed_or_untitled (e : ET.element) (note : dict) :
  ENEXParser._parse_note e = Ok note ->
  (titled e = true /\ exportable note)
  \/ (titled e = false /\ note !! "title" = Some VNone).
Proof.
  intros Hp. destruct (titled e) eqn:Ht.
  - left. split; [done|]. by eapply parsed_exportable.
  - right. split; [done|]. rewrite (parse_note_title e note Hp).
    unfold titled in Ht. destruct (ET.find "title" e) as [t|]; [|done].
    by destruct (ET.text t).
Qed.




(** ** The files an export touches *)

Lemma confined_bind {A B : Type} (inside : str -> bool) (dir : gset str) (c : io A) (f : A -> io B) :
  confined inside dir c -> (forall a, confined inside dir (f a)) ->
  confined inside dir (c ≫= f).
Proof.
  intros Hc Hf st. unfold mbind, io_bind.
  destruct (Hc st) as (H1 & H2 & H3).
  destruct (c st) as [[a|e] st1]; cbn [snd] in *; [|done].
  destruct (Hf a st1) as (G1 & G2 & G3).
  split; [|split].
  - intros p Hp. by rewrite G1, H1.
  - auto.
  - intros x Hx. apply G3 in Hx. apply elem_of_union in Hx as [Hx|Hx].
    + apply elem_of_union. by left.
    + by apply H3.
Qed.

Lemma confined_ret {A : Type} (inside : str -> bool) (dir : gset str) (a : A) : confined inside dir (mret a).
Proof.
  intros st. cbn. split; [done|]. split; [done|]. apply union_subseteq_r.
Qed.

Lemma confined_raise {A : Type} (inside : str -> bool) (dir : gset str) (e : exn) :
  confined inside dir (@raise A e).
Proof.
  intros st. cbn. split; [done|]. split; [done|]. apply union_subseteq_r.
Qed.

Lemma confined_lift {A : Type} (inside : str -> bool) (dir : gset str) (r : result A) :
  confined inside dir (lift r).
Proof.
  intros st. cbn. split; [done|]. split; [done|]. apply union_subseteq_r.
Qed.

Lemma confined_write (inside : str -> bool) (dir : gset str) (p : str) (c : content) :
  inside p = true -> confined inside dir (write p c).
Proof.
  intros Hp st. unfold write.
  destruct (denied st p); cbn;
    [split; [done|]; split; [done|]; apply union_subseteq_r|].
  split; [|split; [|apply union_subseteq_r]].
  - intros q Hq. rewrite lookup_insert_ne; [done|congruence].
  - intros q Hq. destruct (decide (p = q)) as [->|?]; by simplify_map_eq.
Qed.

Lemma confined_write_block (inside : str -> bool) (dir : gset str) (p : str) (body : result str) :
  inside p = true -> confined inside dir (write_block p body).
Proof.
  intros Hp st. unfold write_block.
  destruct (denied st p); cbn;
    [split; [done|]; split; [done|]; apply union_subseteq_r|].
  destruct body; cbn.
  all: split; [|split; [|apply union_subseteq_r]].
  all: try (intros q Hq; rewrite lookup_insert_ne; [done|congruence]).
  all: intros q Hq; destruct (decide (p = q)) as [->|?]; by simplify_map_eq.
Qed.

Lemma confined_mkdir (inside : str -> bool) (made : gset str) (p : str) :
  p ∈ made -> confined inside made (mkdir p).
Proof.
  intros Hp st. unfold mkdir. destruct (denied st p); cbn.
  - split; [done|]. split; [done|]. apply union_subseteq_r.
  - split; [done|]. split; [done|].
    apply union_mono_r. by apply singleton_subseteq_l.
Qed.

Lemma below_join (dir name : str) : below dir (path_join dir name) = true.
Proof. unfold below, path_join. rewrite app_assoc. apply startswith_app. Qed.

Lemma confined_extract (r : ET.element) (dir : str) (d : gset str) (idx : N) :
  confined (below dir) d (AttachmentExtractor._extract_resource r dir idx).
Proof.
  unfold AttachmentExtractor._extract_resource.
  repeat case_match; try apply confined_ret.
  all: apply confined_bind; [apply confined_write, below_join|].
  all: intros ?; apply confined_ret.
Qed.

Lemma confined_extract_resources (l : list ET.element) (dir : str) (d : gset str)
      (idx : N) (atts : list dict) (amap : gmap str dict) :
  confined (below dir) d
    (AttachmentExtractor.extract_resources l dir idx atts amap).
Proof.
  revert atts amap. induction l as [|r l IH]; intros atts amap.
  - apply confined_ret.
  - cbn [AttachmentExtractor.extract_resources].
    apply confined_bind; [apply confined_extract|].
    intros [info|]; [|apply IH].
    repeat case_match; try apply IH; apply confined_raise.
Qed.

Lemma confined_extract_notes (l : list (N * ET.element)) (dir : str) (d : gset str)
      (amap : gmap str dict) (entries : list AttachmentExtractor.note_entry) :
  confined (below dir) d (AttachmentExtractor.extract_notes l dir amap entries).
Proof.
  revert amap entries. induction l as [|[i e] l IH]; intros amap entries.
  - apply confined_ret.
  - cbn [AttachmentExtractor.extract_notes].
    apply confined_bind; [apply confined_extract_resources|].
    intros [atts amap']. apply IH.
Qed.

Lemma confined_extract_attachments (root : ET.element) (notebook_dir : str) :
  confined (below (path_join notebook_dir (lit "attachments")))
           {[path_join notebook_dir (lit "attachments")]}
    (AttachmentExtractor.extract_attachments_from_enex root notebook_dir).
Proof.
  unfold AttachmentExtractor.extract_attachments_from_enex.
  apply confined_bind; [by apply confined_mkdir, elem_of_singleton|].
  intros _.
  apply confined_bind; [apply confined_extract_notes|].
  intros [amap entries].
  apply confined_bind; [|intros ?; apply confined_ret].
  unfold AttachmentExtractor._create_attachment_index.
  apply confined_bind; [apply confined_lift|]. intros ?.
  apply confined_write, below_join.
Qed.

Lemma confined_export_note (output_dir : str) (d : gset str) (i : N) (note : dict) :
  confined (below output_dir) d
    (IndividualNoteExporter.export_note output_dir i note).
Proof.
  unfold IndividualNoteExporter.export_note.
  apply confined_bind; [apply confined_lift|]. intros ?.
  apply confined_bind; [apply confined_lift|]. intros ?.
  apply confined_bind; [apply confined_write_block, below_join|]. intros ?.
  apply confined_bind; [apply confined_lift|]. intros ?.
  apply confined_ret.
Qed.

Lemma confined_export_notes (output_dir : str) (d : gset str) (l : list (N * dict)) :
  confined (below output_dir) d
    (IndividualNoteExporter.export_notes output_dir l).
Proof.
  induction l as [|[i note] l IH]; [apply confined_ret|].
  cbn [IndividualNoteExporter.export_notes].
  apply confined_bind; [apply confined_export_note|]. intros ?.
  apply confined_bind; [apply IH|]. intros ?. apply confined_ret.
Qed.

Lemma confined_export_individually (output_base_dir : str)
      (root : ET.element)
      (notebook_name timestamp now_index now_metadata : str) :
  confined
    (below (path_join output_base_dir (notebook_name ++ lit "_" ++ timestamp)))
    {[path_join output_base_dir (notebook_name ++ lit "_" ++ timestamp)]}
    (IndividualNoteExporter.export_notes_individually output_base_dir root
       notebook_name timestamp now_index now_metadata).
Proof.
  unfold IndividualNoteExporter.export_notes_individually.
  apply confined_bind; [apply confined_lift|]. intros ?.
  apply confined_bind; [by apply confined_mkdir, elem_of_singleton|].
  intros ?.
  apply confined_bind; [apply confined_export_notes|]. intros ?.
  apply confined_bind; [apply confined_write, below_join|]. intros ?.
  apply confined_bind; [apply confined_write_block, below_join|]. intros ?.
  apply confined_ret.
Qed.

Lemma confined_enhanced_extract (r : ET.element) (dir : str) (d : gset str) (idx : N) :
  confined (below dir) d (EnhancedNoteExporter._extract_resource r dir idx).
Proof.
  unfold EnhancedNoteExporter._extract_resource.
  repeat case_match; try apply confined_ret.
  all: apply confined_bind; [apply confined_write, below_join|].
  all: intros ?; first [apply confined_ret|apply confined_raise].
Qed.

Lemma confined_enhanced_extract_resources (l : list ET.element)
      (dir : str) (d : gset str) (idx : N) :
  confined (below dir) d (EnhancedNoteExporter.extract_resources l dir idx).
Proof.
  induction l as [|r l IH]; [apply confined_ret|].
  cbn [EnhancedNoteExporter.extract_resources].
  apply confined_bind; [apply confined_enhanced_extract|]. intros ?.
  apply confined_bind; [apply IH|]. intros ?. apply confined_ret.
Qed.

(** X19. [extract_attachments_from_enex] touches files of its
    attachments directory only: whatever the document and whether the
    run returns or raises, a file whose path does not begin with
    [notebook_dir/attachments/] holds afterwards what it held before,
    and no file that existed is missing. *)
Theorem X19_extraction_is_confined (root : ET.element) (notebook_dir : str)
        (st : fs) (p : str) :
  let st' := snd (AttachmentExtractor.extract_attachments_from_enex root
                    notebook_dir st) in
  (below (path_join notebook_dir (lit "attachments")) p = false ->
   files st' !! p = files st !! p)
  /\ (is_Some (files st !! p) -> is_Some (files st' !! p)).
Proof.
  destruct (confined_extract_attachments root notebook_dir st)
    as (H1 & H2 & _).
  split; [apply H1|apply H2].
Qed.

(** X20. [export_notes_individually] touches files of its export
    directory only: whatever the document and whether the run returns
    or raises, a file whose path does not begin with the path of the
    export directory and a slash holds afterwards what it held before,
    and no file that existed is missing. *)
Theorem X20_individual_export_is_confined (output_base_dir : str)
        (root : ET.element)
        (notebook_name timestamp now_index now_metadata : str)
        (st : fs) (p : str) :
  let st' := snd (IndividualNoteExporter.export_notes_individually
                    output_base_dir root notebook_name timestamp now_index
                    now_metadata st) in
  (below (path_join output_base_dir
            (notebook_name ++ lit "_" ++ timestamp)) p = false ->
   files st' !! p = files st !! p)
  /\ (is_Some (files st !! p) -> is_Some (files st' !! p)).
Proof.
  destruct (confined_export_individually output_base_dir root notebook_name
              timestamp now_index now_metadata st) as (H1 & H2 & _).
  split; [apply H1|apply H2].
Qed.

(** ** The export with images *)

Lemma sanitize_copies_agree (title : value) (max_length : nat) :
  EnhancedExport.sanitize_filename title max_length
  = IndividualNoteExporter.sanitize_filename title max_length.
Proof. reflexivity. Qed.

Lemma markdown_ok (html_content : option str) (resources : list dict) :
  Forall (fun r => descriptor r = true) resources ->
  exists out,
    EnhancedNoteExporter._html_to_markdown_with_images html_content resources
    = Ok out.
Proof.
  intros Hres. destruct html_content as [[|c t]|]; try by eexists.
  destruct (tags_converted_ok (c :: t) resources Hres) as [text Htext].
  unfold tags_converted in Htext.
  unfold EnhancedNoteExporter._html_to_markdown_with_images.
  destruct (EnhancedNoteExporter.build_lookup resources ∅) as [lookup|];
    [|done].
  cbn [mbind result_bind] in *.
  destruct (sub_fn_result _ _ _) as [text'|]; [|done].
  cbn [mbind result_bind] in *. by eexists.
Qed.

Lemma enhanced_extract_ok (r : ET.element) (dir : str) (idx : N) (st : fs) :
  typed r = true -> permissive st ->
  exists o st',
    EnhancedNoteExporter._extract_resource r dir idx st = (Ok o, st')
    /\ permissive st'
    /\ match o with Some info => listable info = true | None => True end.
Proof.
  intros Ht Hperm. unfold typed, payload, mime_of in Ht.
  unfold EnhancedNoteExporter._extract_resource.
  destruct (ET.find "data" r) as [d|]; [|by eexists _, _].
  destruct (ET.text d) as [[|c t]|]; try by eexists _, _.
  destruct (str_eqb _ _); cbn [negb]; [|by eexists _, _].
  destruct (Base64.b64decode (c :: t)) as [bytes|]; [|by eexists _, _].
  unfold mbind, io_bind, write. rewrite Hperm.
  destruct (ET.find "mime" r) as [me|].
  - destruct (ET.text me) as [mime|]; [|done]. cbn [of_text].
    eexists _, _. split; [reflexivity|]. split; [exact Hperm|].
    unfold listable, descriptor, get, get_default, contains.
    simplify_map_eq.
    by destruct (ET.get "hash" d), (AttachmentExtractor.declared_filename r).
  - eexists _, _. split; [reflexivity|]. split; [exact Hperm|].
    unfold listable, descriptor, get, get_default, contains.
    simplify_map_eq.
    by destruct (ET.get "hash" d), (AttachmentExtractor.declared_filename r).
Qed.

Lemma enhanced_extract_resources_ok (l : list ET.element) (dir : str)
      (idx : N) :
  forall st,
    forallb typed l = true -> permissive st ->
    exists rs st',
      EnhancedNoteExporter.extract_resources l dir idx st = (Ok rs, st')
      /\ permissive st'
      /\ Forall (fun r => listable r = true) rs
      /\ (forall p, is_Some (files st !! p) -> is_Some (files st' !! p)).
Proof.
  induction l as [|r l IH]; intros st Hl Hperm.
  - by eexists _, _.
  - cbn [forallb] in Hl. apply andb_prop in Hl as [Hr Hl].
    cbn [EnhancedNoteExporter.extract_resources].
    unfold mbind at 1, io_bind at 1.
    destruct (enhanced_extract_ok r dir idx st Hr Hperm)
      as (o & st0 & E & Hperm0 & Ho).
    pose proof (confined_enhanced_extract r dir ∅ idx st) as (_ & Hm0 & _).
    rewrite E in *. cbn [snd] in Hm0.
    destruct (IH st0 Hl Hperm0) as (rs & st' & E' & Hperm' & Hrs & Hm).
    unfold mbind at 1, io_bind at 1. rewrite E'.
    eexists _, _. split; [reflexivity|]. split; [done|]. split; [|auto].
    destruct o as [info|]; [|done].
    destruct (is_truthy (VDict info)); [by constructor|done].
Qed.

Lemma select_images_ok (keep : bool) (resources : list dict) :
  Forall (fun r => listable r = true) resources ->
  exists rs,
    EnhancedExport.select_images keep resources = Ok rs
    /\ Forall (fun r => listable r = true) rs.
Proof.
  induction 1 as [|r l Hr _ (rs & IH & Hrs)]; [by eexists|].
  cbn [EnhancedExport.select_images]. unfold getitem.
  assert (exists v, r !! "is_image" = Some v) as [v ->].
  { unfold listable in Hr. apply andb_prop in Hr as [_ Hr].
    destruct (r !! "is_image"); [by eexists|done]. }
  cbn [mbind result_bind]. rewrite IH. cbn [mbind result_bind].
  eexists. split; [reflexivity|]. destruct (Bool.eqb _ _); [by constructor|done].
Qed.

Lemma attachment_line_ok (r : dict) :
  listable r = true ->
  exists s, EnhancedExport.attachment_line r = Ok s.
Proof.
  unfold listable, descriptor. intros [[_ Ho]%andb_prop Hr]%andb_prop.
  unfold EnhancedExport.attachment_line, contains, getitem.
  apply bind_ok.
  { apply format_scalar. unfold get_default in *.
    by destruct (r !! "original_filename"). }
  intros name.
  destruct (r !! "is_image") as [[| | |b| | |]|]; try done.
  destruct (r !! "relative_path") as [[|p| | | | |]|]; try done.
  destruct (r !! "mime_type") as [mime|]; [|done].
  destruct (r !! "size") as [[| |n| | | |]|]; try done.
  cbn [mbind result_bind format_value].
  destruct (format_scalar mime Hr) as [ms ->]. cbn [mbind result_bind].
  by eexists.
Qed.

Lemma enhanced_note_text_ok (title : str) (created modified : option str)
      (tags : list str) (content_markdown : str) (resources : list dict) :
  Forall (fun r => listable r = true) resources ->
  exists text,
    EnhancedExport.note_text title created modified tags
      content_markdown resources = Ok text.
Proof.
  intros Hrs. unfold EnhancedExport.note_text.
  destruct (select_images_ok false resources Hrs) as (rs & -> & Hsel).
  cbn [mbind result_bind].
  apply bind_ok; [|intros ?; by eexists].
  destruct rs as [|r rs]; [by eexists|].
  apply bind_ok; [|intros ?; by eexists].
  apply rmap_ok. eapply Forall_impl; [exact Hsel|]. apply attachment_line_ok.
Qed.

Lemma listable_descriptor (rs : list dict) :
  Forall (fun r => listable r = true) rs ->
  Forall (fun r => descriptor r = true) rs.
Proof.
  intros H. eapply Forall_impl; [exact H|]. intros r Hr.
  unfold listable in Hr. by apply andb_prop in Hr as [Hr _].
Qed.

Lemma enhanced_export_note_ok (output_dir attachments_dir : str) (i : N)
      (note_elem : ET.element) (st : fs) :
  titled note_elem = true ->
  forallb typed (ET.findall "resource" note_elem) = true ->
  permissive st ->
  exists line st',
    EnhancedExport.export_note output_dir attachments_dir i note_elem st
    = (Ok line, st')
    /\ permissive st'
    /\ (forall p, is_Some (files st !! p) -> is_Some (files st' !! p))
    /\ exists filename,
         IndividualNoteExporter.note_filename i
           match ET.find "title" note_elem with
           | Some title_elem => of_text (ET.text title_elem)
           | None => VStr (lit "Untitled")
           end = Ok filename
         /\ is_Some (files st' !! path_join output_dir filename).
Proof.
  intros Ht Hres Hperm. unfold EnhancedExport.export_note.
  destruct (enhanced_extract_resources_ok _ attachments_dir i st Hres Hperm)
    as (rs & st0 & E & Hperm0 & Hrs & Hmono).
  unfold mbind at 1, io_bind at 1. rewrite E.
  assert (Htitle : exists title,
            match ET.find "title" note_elem with
            | Some title_elem => of_text (ET.text title_elem)
            | None => VStr (lit "Untitled")
            end = VStr title).
  { unfold titled in Ht. destruct (ET.find "title" note_elem) as [t|];
      [|by eexists]. destruct (ET.text t); [by eexists|done]. }
  destruct Htitle as [title ->].
  rewrite sanitize_copies_agree.
  destruct (sanitize_filename_spec title) as (safe & Hsafe & _).
  rewrite Hsafe. unfold mbind at 1, io_bind at 1, lift at 1.
  destruct (markdown_ok
              match ET.find "content" note_elem with
              | Some content_elem => ET.text content_elem
              | None => Some []
              end rs (listable_descriptor _ Hrs)) as [md ->].
  unfold mbind at 1, io_bind at 1, lift at 1.
  unfold mbind at 1, io_bind at 1, lift at 1. cbn [as_str].
  match goal with
  | |- context [EnhancedExport.note_text ?a ?b ?c ?d ?e ?f] =>
      destruct (enhanced_note_text_ok a b c d e f Hrs) as [text ->]
  end.
  unfold mbind at 1, io_bind at 1, write_block at 1. rewrite Hperm0.
  destruct (select_images_ok true rs Hrs) as (imgs & -> & _).
  unfold mbind at 1, io_bind at 1, lift at 1.
  eexists _, _. split; [reflexivity|]. split; [exact Hperm0|].
  split.
  { intros p Hp. cbn [files].
    match goal with |- is_Some (<[?q := _]> _ !! _) =>
      destruct (decide (q = p)) as [->|?] end; simplify_map_eq; auto. }
  eexists. split.
  { unfold IndividualNoteExporter.note_filename. rewrite Hsafe. reflexivity. }
  cbn [files]. by simplify_map_eq.
Qed.

Lemma enhanced_export_notes_ok (output_dir attachments_dir : str)
      (l : list (N * ET.element)) :
  forall st,
    Forall (fun '(_, e) => describable e = true) l -> permissive st ->
    exists lines st',
      EnhancedExport.export_notes output_dir attachments_dir l st
      = (Ok lines, st')
      /\ permissive st'
      /\ (forall p, is_Some (files st !! p) -> is_Some (files st' !! p))
      /\ Forall (fun '(i, e) =>
                   exists filename,
                     IndividualNoteExporter.note_filename i (title_of e)
                     = Ok filename
                     /\ is_Some (files st' !! path_join output_dir filename))
                l.
Proof.
  induction l as [|[i e] l IH]; intros st Hall Hperm.
  - eexists _, _. split; [reflexivity|]. by repeat split.
  - inversion Hall as [|? ? He Hrest]; subst.
    apply andb_prop in He as [Ht Hr].
    cbn [EnhancedExport.export_notes].
    unfold mbind at 1, io_bind at 1.
    destruct (enhanced_export_note_ok output_dir attachments_dir i e st
                Ht Hr Hperm)
      as (line & st0 & -> & Hperm0 & Hm0 & filename & Hname & Hfile).
    destruct (IH st0 Hrest Hperm0)
      as (lines & st' & Hrun & Hperm' & Hmono & Hfiles).
    unfold mbind at 1, io_bind at 1. rewrite Hrun.
    eexists _, st'. split; [reflexivity|]. split; [done|].
    split; [auto|]. constructor; [|done].
    exists filename. split; [done|]. by apply Hmono.
Qed.


Lemma enhanced_export_note_untitled (output_dir attachments_dir : str)
      (i : N) (note_elem : ET.element) (st : fs) :
  titled note_elem = false ->
  forallb typed (ET.findall "resource" note_elem) = true ->
  permissive st ->
  exists st',
    EnhancedExport.export_note output_dir attachments_dir i note_elem st
    = (Raise TypeError, st')
    /\ forall p, is_Some (files st !! p) -> is_Some (files st' !! p).
Proof.
  intros Ht Hres Hperm. unfold EnhancedExport.export_note.
  destruct (enhanced_extract_resources_ok _ attachments_dir i st Hres Hperm)
    as (rs & st0 & E & Hperm0 & Hrs & Hmono).
  unfold mbind at 1, io_bind at 1. rewrite E.
  unfold titled in Ht. destruct (ET.find "title" note_elem) as [t|]; [|done].
  destruct (ET.text t); [done|]. cbn [of_text].
  eexists. split; [reflexivity|]. exact Hmono.
Qed.

Lemma attachments_path (output_dir filename : str) :
  path_join (path_join output_dir (lit "attachments")) filename
  = path_join output_dir (lit "attachments/" ++ filename).
Proof.
  unfold path_join. change (lit "attachments/")
    with (lit "attachments" ++ lit "/").
  by rewrite <- !app_assoc.
Qed.

(** The relative path of a descriptor leads from the export directory
    to the file of the attachment. *)
(** X23. The links of the export with images resolve: the
    [relative_path] of a descriptor the enhanced [_extract_resource]
    returns for the attachments directory of an export, joined to the
    export directory, is the [file_path] of the descriptor, and the
    file of that path exists after the call. *)
Theorem X23_relative_path_resolves (r : ET.element) (output_dir : str) (idx : N)
      (st st' : fs) (info : dict) :
  EnhancedNoteExporter._extract_resource r
    (path_join output_dir (lit "attachments")) idx st
  = (Ok (Some info), st') ->
  exists relative_path,
    info !! "relative_path" = Some (VStr relative_path)
    /\ info !! "file_path" = Some (VStr (path_join output_dir relative_path))
    /\ is_Some (files st' !! path_join output_dir relative_path).
Proof.
  unfold EnhancedNoteExporter._extract_resource.
  destruct (ET.find "data" r) as [data_elem|]; [|done].
  destruct (ET.text data_elem) as [[|c t]|]; [done| |done].
  destruct (negb _); [done|].
  destruct (Base64.b64decode (c :: t)) as [bytes|]; [|done].
  unfold mbind, io_bind, write.
  rewrite attachments_path.
  destruct (denied st _); [done|].
  destruct (match ET.find "mime" r with
            | Some mime_elem => of_text (ET.text mime_elem)
            | None => VStr (lit "application/octet-stream")
            end); try done.
  intros [= <- <-]. eexists. cbn [files]. by simplify_map_eq.
Qed.

Lemma enhanced_export_notes_untitled (output_dir attachments_dir : str)
      (l : list (N * ET.element)) :
  forall st,
    permissive st ->
    Forall (fun '(_, e) =>
              forallb typed (ET.findall "resource" e) = true) l ->
    Exists (fun '(_, e) => titled e = false) l ->
    exists st',
      EnhancedExport.export_notes output_dir attachments_dir l st
      = (Raise TypeError, st').
Proof.
  induction l as [|[i e] l IH]; intros st Hperm Hall Hex.
  - by apply Exists_nil in Hex.
  - inversion Hall as [|? ? Hr Hrest]; subst.
    cbn [EnhancedExport.export_notes].
    unfold mbind at 1, io_bind at 1.
    destruct (titled e) eqn:Ht.
    + destruct (enhanced_export_note_ok output_dir attachments_dir i e st
                  Ht Hr Hperm) as (line & st0 & -> & Hperm0 & _).
      apply Exists_cons in Hex as [Hex|Hex]; [congruence|].
      destruct (IH st0 Hperm0 Hrest Hex) as [st' Hrun].
      unfold mbind at 1, io_bind at 1. rewrite Hrun. by eexists.
    + destruct (enhanced_export_note_untitled output_dir attachments_dir i e
                  st Ht Hr Hperm) as (st' & -> & _). by eexists.
Qed.


Lemma startswith_prefix (a b p : str) :
  startswith (a ++ b) p = true -> startswith a p = true.
Proof.
  revert p. induction a as [|c a IH]; intros p; [by destruct p|].
  destruct p as [|x p]; [done|]. cbn [app startswith].
  intros [-> H]%andb_prop. by rewrite (IH p H).
Qed.

Lemma below_attachments (output_dir p : str) :
  below output_dir p = false ->
  below (path_join output_dir (lit "attachments")) p = false.
Proof.
  unfold below, path_join. intros Hp.
  destruct (startswith ((output_dir ++ _ ++ _) ++ _) p) eqn:E; [|done].
  replace ((output_dir ++ lit "/" ++ lit "attachments") ++ lit "/")
    with ((output_dir ++ lit "/") ++ lit "attachments" ++ lit "/") in E
    by (by rewrite <- !app_assoc).
  apply startswith_prefix in E. congruence.
Qed.

Lemma confined_enhanced_export_note (output_dir : str) (d : gset str) (i : N)
      (note_elem : ET.element) :
  confined (below output_dir) d
    (EnhancedExport.export_note output_dir
       (path_join output_dir (lit "attachments")) i note_elem).
Proof.
  unfold EnhancedExport.export_note.
  apply confined_bind.
  { intros st.
    destruct (confined_enhanced_extract_resources
                (ET.findall "resource" note_elem)
                (path_join output_dir (lit "attachments")) d i st)
      as (H1 & H2 & H3).
    split; [|by split]. intros p Hp. apply H1.
    by apply below_attachments. }
  intros ?. apply confined_bind; [apply confined_lift|]. intros ?.
  apply confined_bind; [apply confined_lift|]. intros ?.
  apply confined_bind; [apply confined_lift|]. intros ?.
  apply confined_bind; [apply confined_write_block, below_join|]. intros ?.
  apply confined_bind; [apply confined_lift|]. intros ?.
  apply confined_ret.
Qed.

Lemma confined_enhanced_export_notes (output_dir : str) (d : gset str)
      (l : list (N * ET.element)) :
  confined (below output_dir) d
    (EnhancedExport.export_notes output_dir
       (path_join output_dir (lit "attachments")) l).
Proof.
  induction l as [|[i e] l IH]; [apply confined_ret|].
  cbn [EnhancedExport.export_notes].
  apply confined_bind; [apply confined_enhanced_export_note|]. intros ?.
  apply confined_bind; [apply IH|]. intros ?. apply confined_ret.
Qed.



Lemma X23_relative_path_resolves_witness :
  exists info st',
    EnhancedNoteExporter._extract_resource Sample.named_png
      (path_join (lit "out") (lit "attachments")) 1 Sample.empty_fs
    = (Ok (Some info), st')
    /\ exists relative_path,
         info !! "relative_path" = Some (VStr relative_path)
         /\ info !! "file_path"
            = Some (VStr (path_join (lit "out") relative_path))
         /\ is_Some (files st' !! path_join (lit "out") relative_path).
Proof.
  destruct (enhanced_extract_valid Sample.named_png
              (path_join (lit "out") (lit "attachments")) (lit "image/png")
              1 Sample.empty_fs [1; 2; 3]) as [info E];
    [vm_compute; reflexivity|vm_compute; reflexivity|reflexivity|].
  exists info. eexists. split; [exact E|].
  exact (X23_relative_path_resolves Sample.named_png (lit "out") 1
           Sample.empty_fs _ info E).
Defined.

Lemma confined_enhanced_export (output_base_dir : str) (root : ET.element)
      (notebook_name timestamp now : str) :
  confined
    (below (path_join output_base_dir
              (notebook_name ++ lit "_with_images_" ++ timestamp)))
    {[ path_join output_base_dir
         (notebook_name ++ lit "_with_images_" ++ timestamp);
       path_join (path_join output_base_dir
                    (notebook_name ++ lit "_with_images_" ++ timestamp))
                 (lit "attachments") ]}
    (EnhancedExport.export_notes_with_images output_base_dir root
       notebook_name timestamp now).
Proof.
  unfold EnhancedExport.export_notes_with_images.
  apply confined_bind; [apply confined_mkdir; set_solver|]. intros ?.
  apply confined_bind; [apply confined_mkdir; set_solver|]. intros ?.
  apply confined_bind; [apply confined_enhanced_export_notes|]. intros ?.
  apply confined_bind; [apply confined_write, below_join|]. intros ?.
  apply confined_ret.
Qed.

(** X24. [export_notes_with_images] touches files of its export
    directory only: whatever the document and whether the run returns
    or raises, a file whose path does not begin with the path of the
    export directory and a slash holds afterwards what it held before,
    and no file that existed is missing. *)
Theorem X24_enhanced_export_is_confined (output_base_dir : str)
        (root : ET.element) (notebook_name timestamp now : str)
        (st : fs) (p : str) :
  let st' := snd (EnhancedExport.export_notes_with_images
                    output_base_dir root notebook_name timestamp now st) in
  (below (path_join output_base_dir
            (notebook_name ++ lit "_with_images_" ++ timestamp)) p = false ->
   files st' !! p = files st !! p)
  /\ (is_Some (files st !! p) -> is_Some (files st' !! p)).
Proof.
  destruct (confined_enhanced_export output_base_dir root notebook_name
              timestamp now st) as (H1 & H2 & _).
  split; [apply H1|apply H2].
Qed.

(** ** The Markdown export and the attributes of a note *)

Lemma section_ok (i : N) (note : dict) :
  parsed_note note = true ->
  (exists v, note !! "title" = Some v /\ text_or_none v = true) ->
  exists s, ENEXParserExport.section i note = Ok s.
Proof.
  intros Hshape (v & Hv & Htext). revert Hshape.
  unfold parsed_note, absent_or.
  intros [[[[[Hc Hm]%andb_prop Ht]%andb_prop Hx]%andb_prop Hh]%andb_prop
            Hr]%andb_prop.
  unfold ENEXParserExport.section, contains, get, get_default, getitem.
  rewrite Hv. cbn [mbind result_bind].
  apply bind_ok; [by apply format_text_or_none|]. intros ?.
  apply bind_ok.
  { destruct (note !! "created") as [cr|]; [|by eexists].
    apply bind_ok; [by apply format_text_or_none|]. intros ?. by eexists. }
  intros ?. apply bind_ok.
  { destruct (note !! "modified") as [mo|]; [|by eexists].
    apply bind_ok; [by apply format_text_or_none|]. intros ?. by eexists. }
  intros ?. apply bind_ok.
  { destruct (note !! "tags") as [[| | | |l| |]|]; try done.
    destruct (is_truthy _); [|by eexists].
    cbn [mbind result_bind ENEXParserExport.joinable].
    apply bind_ok; [by apply as_str_list_ok|]. intros ?. by eexists. }
  intros ?. apply bind_ok; [|intros ?; by eexists].
  destruct (note !! "content_text") as [[| s | | | | |]|]; try done.
  by eexists.
Qed.

Lemma parsed_title (e : ET.element) (note : dict) :
  ENEXParser._parse_note e = Ok note ->
  exists v, note !! "title" = Some v /\ text_or_none v = true.
Proof.
  intros Hp. rewrite (parse_note_title e note Hp). eexists. split; [done|].
  destruct (ET.find "title" e) as [t|]; [|done]. by destruct (ET.text t).
Qed.

(** X25. [export_to_markdown] accepts whatever [parse_enex_file]
    returns: for the notes of a parsed document and a path that is not
    refused it raises nothing and leaves one text in the file of that
    path, and nothing else changed. *)
Theorem X25_markdown_export_succeeds (root : ET.element) (notes : list dict)
      (output_path now : str) (st : fs) :
  ENEXParser.parse_enex_file root = Ok notes ->
  denied st output_path = false ->
  exists text,
    ENEXParserExport.export_to_markdown notes output_path now st
    = (Ok tt, Fs (<[output_path := Text text]> (files st))
                 (dirs st) (denied st)).
Proof.
  intros Hparse Hd. pose proof (parse_notes_all _ _ Hparse) as Hall.
  assert (Hnotes : Forall (fun note =>
             parsed_note note = true
             /\ exists v, note !! "title" = Some v /\ text_or_none v = true)
            notes).
  { clear -Hall. induction Hall as [|e n es ns He _ IH]; constructor; [|done].
    split; [by eapply parse_note_shape|by eapply parsed_title]. }
  unfold ENEXParserExport.export_to_markdown, write_block. rewrite Hd.
  destruct (rmap_ok (fun '(i, note) => ENEXParserExport.section i note)
              (enumerate 1 notes)) as [sections ->].
  { eapply Forall_impl; [exact (Forall_enumerate _ _ 1 Hnotes)|].
    intros [i note] [Hs Ht]. by apply section_ok. }
  cbn [mbind result_bind]. by eexists.
Qed.

Lemma fold_attributes (children : list ET.element) (acc : gmap str str)
      (tag : str) :
  fold_left
    (fun attrs child =>
       match ET.text child with
       | Some (c :: t) => <[ET.tag child := c :: t]> attrs
       | _ => attrs
       end) children acc !! tag
  = match last_text tag children with
    | Some t => Some t
    | None => acc !! tag
    end.
Proof.
  revert acc. induction children as [|e l IH] using rev_ind; intros acc.
  - done.
  - rewrite fold_left_app. cbn [fold_left]. unfold last_text.
    rewrite rev_app_distr. cbn [rev app List.find].
    destruct (ET.text e) as [[|c t]|] eqn:Et; cbn [truthy].
    + rewrite andb_false_r. apply IH.
    + destruct (str_eqb (ET.tag e) tag) eqn:Etag; cbn [andb].
      * apply str_eqb_eq in Etag. rewrite Et, <- Etag. by simplify_map_eq.
      * apply str_eqb_neq in Etag. rewrite lookup_insert_ne by done.
        apply IH.
    + rewrite andb_false_r. apply IH.
Qed.

Lemma X25_markdown_export_succeeds_witness :
  exists notes,
    ENEXParser.parse_enex_file Sample.two_notes = Ok notes
    /\ exists text,
         ENEXParserExport.export_to_markdown notes (lit "notes.md")
           (lit "2024-01-15T12:00:00") Sample.empty_fs
         = (Ok tt, Fs (<[lit "notes.md" := Text text]>
                         (files Sample.empty_fs))
                      (dirs Sample.empty_fs) (denied Sample.empty_fs)).
Proof.
  destruct (parse_notes_ok (ET.findall "note" Sample.two_notes))
    as [notes E]; [vm_compute; reflexivity|].
  exists notes. split; [exact E|].
  exact (X25_markdown_export_succeeds Sample.two_notes notes (lit "notes.md")
           (lit "2024-01-15T12:00:00") Sample.empty_fs E eq_refl).
Defined.

(** X26. A lookup in the result of [_parse_attributes] gives the text
    of the last child with that tag whose text is not empty, and
    nothing when there is no such child; no attribute is stored with an
    empty text. *)
Theorem X26_attribute_lookup (attrs_elem : ET.element) (tag : str) :
  ENEXParser._parse_attributes attrs_elem !! tag
  = last_text tag (ET.children attrs_elem)
  /\ ENEXParser._parse_attributes attrs_elem !! tag <> Some [].
Proof.
  assert (H : ENEXParser._parse_attributes attrs_elem !! tag
              = last_text tag (ET.children attrs_elem)).
  { unfold ENEXParser._parse_attributes. rewrite fold_attributes.
    by destruct (last_text tag (ET.children attrs_elem)). }
  split; [exact H|]. rewrite H. unfold last_text.
  destruct (List.find _ _) as [c|] eqn:Hfind; [|done].
  apply find_some in Hfind as [_ [_ Htext]%andb_prop].
  by destruct (ET.text c) as [[|]|].
Qed.
